(** * Toonami Aftermath guide scraper: a shallow embedding of
      [toonami_aftermath.py] and the properties of its guide pipeline.

    The embedding follows the Python source function by function.  The
    object [self] is an explicit [state]; every method is a computation in
    a state-and-exception monad [M]; the libraries the program calls
    (urllib, json, dicttoxml/xsdata, dateutil, xmltv_helpers) are the
    variables of the section [ToonamiAftermath]. *)

From Stdlib Require Import String Ascii List ZArith Lia Bool DecimalString.
From Stdlib Require Import RelationClasses.
Import ListNotations.
Open Scope string_scope.
Open Scope list_scope.

Set Implicit Arguments.

(** ** Python values *)

(** String concatenation ([+] on [str], and adjacent [{}] of [format]). *)
Notation "a @@ b" := (String.append a b) (at level 60, right associativity).

(** [str(x)] / ['{}'.format(x)] of an optional text: [None] prints as the
    word None. *)
Definition py_str (x : option string) : string :=
  match x with
  | Some s => s
  | None => "None"
  end.

(** [str(n)] of an [int]. *)
Definition string_of_Z (z : Z) : string := NilZero.string_of_int (Z.to_int z).

(** [a == b] on optional texts ([None == None] holds). *)
Definition option_string_eqb (a b : option string) : bool :=
  match a, b with
  | Some x, Some y => String.eqb x y
  | None, None => true
  | _, _ => false
  end.

(** The values a converter can be handed ([value: Any]). *)
Inductive py_value : Type :=
| PyNone
| PyBool (b : bool)
| PyInt (z : Z)
| PyStr (s : string)
| PyBytes (b : list ascii).

(** The exceptions the modelled code can meet. *)
Inductive exn : Type :=
| URLError
| AttributeError
| TypeError
| ValueError
| IndexError
| OSError
| ParserError
| SystemExit.

Definition exn_eqb (a b : exn) : bool :=
  match a, b with
  | URLError, URLError | AttributeError, AttributeError
  | TypeError, TypeError | ValueError, ValueError
  | IndexError, IndexError | OSError, OSError
  | ParserError, ParserError | SystemExit, SystemExit => true
  | _, _ => false
  end.

(** The outcome of a call: a value, or a raised exception. *)
Inductive result (A : Type) : Type :=
| Ok (a : A)
| Raise (e : exn).
Arguments Raise {A} e.

(** ** The record classes *)

(** Modelled from the spec: the package [ToonamiAftermath] (modules
    [taChannels], [media], [mediaInfo]) holds only data classes and is not
    part of the source file; the fields are those the code reads or writes
    and the spec's data model lists. *)
Module taChannels.
Record Element : Type := {
  id : string;
  displayName : string;
  lang : string;
  icon : string;
  url : string;
  scheduleUrl : option string;
  episodeQueryUrl : option string;
  offset : string;
  country : string;
  group : string
}.
End taChannels.

Module media.
Record Info : Type := {
  fullname : option string;
  year : option string
}.

Record Element : Type := {
  startDate : option string;
  stopDate : option string;
  name : option string;
  blockName : option string;
  episodeNumber : option string;
  info : option Info;
  queryUrl : option string;
  lang : option string;
  channelUrl : option string;
  channel : option string
}.

Definition set_stopDate (e : Element) (v : option string) : Element :=
  {| startDate := startDate e; stopDate := v; name := name e;
     blockName := blockName e; episodeNumber := episodeNumber e;
     info := info e; queryUrl := queryUrl e; lang := lang e;
     channelUrl := channelUrl e; channel := channel e |}.

Definition set_name (e : Element) (v : option string) : Element :=
  {| startDate := startDate e; stopDate := stopDate e; name := v;
     blockName := blockName e; episodeNumber := episodeNumber e;
     info := info e; queryUrl := queryUrl e; lang := lang e;
     channelUrl := channelUrl e; channel := channel e |}.

Definition set_queryUrl (e : Element) (v : option string) : Element :=
  {| startDate := startDate e; stopDate := stopDate e; name := name e;
     blockName := blockName e; episodeNumber := episodeNumber e;
     info := info e; queryUrl := v; lang := lang e;
     channelUrl := channelUrl e; channel := channel e |}.

Definition set_lang (e : Element) (v : option string) : Element :=
  {| startDate := startDate e; stopDate := stopDate e; name := name e;
     blockName := blockName e; episodeNumber := episodeNumber e;
     info := info e; queryUrl := queryUrl e; lang := v;
     channelUrl := channelUrl e; channel := channel e |}.

Definition set_channelUrl (e : Element) (v : option string) : Element :=
  {| startDate := startDate e; stopDate := stopDate e; name := name e;
     blockName := blockName e; episodeNumber := episodeNumber e;
     info := info e; queryUrl := queryUrl e; lang := lang e;
     channelUrl := v; channel := channel e |}.

Definition set_startDate (e : Element) (v : option string) : Element :=
  {| startDate := v; stopDate := stopDate e; name := name e;
     blockName := blockName e; episodeNumber := episodeNumber e;
     info := info e; queryUrl := queryUrl e; lang := lang e;
     channelUrl := channelUrl e; channel := channel e |}.

Definition set_channel (e : Element) (v : option string) : Element :=
  {| startDate := startDate e; stopDate := stopDate e; name := name e;
     blockName := blockName e; episodeNumber := episodeNumber e;
     info := info e; queryUrl := queryUrl e; lang := lang e;
     channelUrl := channelUrl e; channel := v |}.
End media.

Module mediaInfo.
Module Genres.
Record t : Type := { genres : list string }.
End Genres.

Module ProductionCo.
Record t : Type := { productionCo : list string }.
End ProductionCo.

Module Creators.
Record t : Type := { creators : list string }.
End Creators.

Module Episode.
Record t : Type := {
  season : option Z;
  epNum : option Z;
  name : option string;
  summary : option string
}.
End Episode.

Record Element : Type := {
  queryUrl : option string;
  genres : option Genres.t;
  productionCo : option ProductionCo.t;
  creators : option Creators.t;
  releaseDate : option string;
  summary : option string;
  image : option string;
  contentRating : option string;
  rating : option string;
  name : option string;
  episode : option Episode.t
}.

Definition set_queryUrl (e : Element) (v : option string) : Element :=
  {| queryUrl := v; genres := genres e; productionCo := productionCo e;
     creators := creators e; releaseDate := releaseDate e;
     summary := summary e; image := image e;
     contentRating := contentRating e; rating := rating e; name := name e;
     episode := episode e |}.
End mediaInfo.

(** The classes of [xmltv.models] the program builds.  A keyword argument
    that a constructor call leaves out is recorded as [None]. *)
Module xmltv.
Record LangText : Type := {
  content : list (option string);
  lang : option string
}.
Definition Title := LangText.
Definition SubTitle := LangText.
Definition Desc := LangText.
Definition Category := LangText.
Definition Language := LangText.

Definition DisplayName := LangText.

Record Icon : Type := { src : option string }.
Record Credits : Type := { producer : list string; writer : list string }.
Record Rating : Type := { rating_value : option string; rating_system : option string }.
Record StarRating : Type := { value : string; system : string }.
Record EpisodeNum : Type := { ep_content : list string; ep_system : string }.

Record Channel : Type := {
  id : string;
  display_name : list DisplayName;
  channel_icon : list Icon;
  url : list string
}.

Record Programme : Type := {
  category : option (list Category);
  channel : option string;
  clumpidx : option string;
  credits : option Credits;
  date : option string;
  desc : option (list Desc);
  episode_num : option (list EpisodeNum);
  icon : option (list Icon);
  language : option Language;
  rating : option (list Rating);
  start : option string;
  star_rating : option (list StarRating);
  stop : option string;
  sub_title : option (list SubTitle);
  title : list Title
}.
End xmltv.

(** ** Module constants *)

Definition _NEW_DATE_FORMAT_MINIMAL : string := "%Y%m%d".
Definition _NEW_DATE_FORMAT : string := "%Y%m%d%H%M%S %z".
Definition _NEW_DATE_FORMAT_NO_TZ : string := "%Y%m%d%H%M%S".

(** ** Naive datetimes

    A naive [datetime] is its number of microseconds since the first instant
    of the calendar: [timedelta] arithmetic is addition, and clearing minute,
    second and microsecond rounds down to a whole hour. *)
Definition datetime := Z.
Definition timedelta_hours (h : Z) : Z := (h * 3600000000)%Z.
Definition timedelta_days (d : Z) : Z := (d * 24 * 3600000000)%Z.

(** [dt.replace(minute=0, second=0, microsecond=0)] *)
Definition replace_minute_second_microsecond_0 (dt : datetime) : datetime :=
  (dt - dt mod timedelta_hours 1)%Z.

(** [rrule.rrule(rrule.HOURLY, dtstart=..., until=...)]: the occurrences
    dtstart, dtstart + 1h, ... up to and including [until] (dateutil: the last
    recurrence is the greatest datetime that is less than or equal to
    [until]). *)
Definition rrule_HOURLY (dtstart until : datetime) : list datetime :=
  map (fun k => (dtstart + timedelta_hours (Z.of_nat k))%Z)
      (seq 0 (Z.to_nat ((until - dtstart) / timedelta_hours 1 + 1))).

(** The argument of [get_proper_date_time]: [None], a [str] or a
    [datetime]. *)
Inductive date_arg : Type :=
| DateNone
| DateStr (s : string)
| DateTime (dt : datetime).

Definition date_arg_of_option (o : option string) : date_arg :=
  match o with
  | Some s => DateStr s
  | None => DateNone
  end.

(** ** The logger *)

Inductive log_level : Type := DEBUG | ERROR | FATAL.

(** One constructor per [self.LOGGER] call site, with the call's arguments. *)
Inductive log_message : Type :=
| Msg_adapting_channel (displayName : string)
| Msg_unable_to_find_channels
| Msg_no_media_info (url : string)
| Msg_transforming_media (url : string)
| Msg_looping_media
| Msg_mock_guide (displayName : string) (start_time end_time : datetime)
| Msg_making_block (block_start block_end : option string)
| Msg_checking_mediaInfo (url : string)
| Msg_mediaInfo_not_found (url : string)
| Msg_transforming_mediaInfo (url : string)
| Msg_attempting_download (url : string)
| Msg_could_not_scrape (url : string)
| Msg_pulled_data (url : string)
| Msg_connection_issue (url : string) (e : exn)
| Msg_going_to_adapt
| Msg_found_mediaInfo (url : option string)
| Msg_unable_to_add (element : media.Element)
    (info_element : option mediaInfo.Element) (reason : exn)
| Msg_converting (date_time_string : date_arg) (new_format : string).

Record log_record : Type := {
  levelname : log_level;
  message : log_message
}.

(** ** The program state: the attributes of [self] that the pipeline
    mutates, and the record of its outside calls. *)
Record state : Type := {
  TV_OBJECT_channel : list xmltv.Channel;
  TV_OBJECT_programme : list xmltv.Programme;
  MEDIA_GUIDE_OBJECT : list media.Element;
  all_episodes : list mediaInfo.Element;
  LOG : list log_record;
  requests : list string;
  clock_reads : nat
}.

Definition with_TV_OBJECT_channel (st : state) (v : list xmltv.Channel) : state :=
  {| TV_OBJECT_channel := v; TV_OBJECT_programme := TV_OBJECT_programme st;
     MEDIA_GUIDE_OBJECT := MEDIA_GUIDE_OBJECT st;
     all_episodes := all_episodes st; LOG := LOG st;
     requests := requests st; clock_reads := clock_reads st |}.

Definition with_TV_OBJECT_programme (st : state) (v : list xmltv.Programme) : state :=
  {| TV_OBJECT_channel := TV_OBJECT_channel st; TV_OBJECT_programme := v;
     MEDIA_GUIDE_OBJECT := MEDIA_GUIDE_OBJECT st;
     all_episodes := all_episodes st; LOG := LOG st;
     requests := requests st; clock_reads := clock_reads st |}.

Definition with_MEDIA_GUIDE_OBJECT (st : state) (v : list media.Element) : state :=
  {| TV_OBJECT_channel := TV_OBJECT_channel st;
     TV_OBJECT_programme := TV_OBJECT_programme st;
     MEDIA_GUIDE_OBJECT := v;
     all_episodes := all_episodes st; LOG := LOG st;
     requests := requests st; clock_reads := clock_reads st |}.

Definition with_all_episodes (st : state) (v : list mediaInfo.Element) : state :=
  {| TV_OBJECT_channel := TV_OBJECT_channel st;
     TV_OBJECT_programme := TV_OBJECT_programme st;
     MEDIA_GUIDE_OBJECT := MEDIA_GUIDE_OBJECT st;
     all_episodes := v; LOG := LOG st;
     requests := requests st; clock_reads := clock_reads st |}.

Definition with_LOG (st : state) (v : list log_record) : state :=
  {| TV_OBJECT_channel := TV_OBJECT_channel st;
     TV_OBJECT_programme := TV_OBJECT_programme st;
     MEDIA_GUIDE_OBJECT := MEDIA_GUIDE_OBJECT st;
     all_episodes := all_episodes st; LOG := v;
     requests := requests st; clock_reads := clock_reads st |}.

Definition with_requests (st : state) (v : list string) : state :=
  {| TV_OBJECT_channel := TV_OBJECT_channel st;
     TV_OBJECT_programme := TV_OBJECT_programme st;
     MEDIA_GUIDE_OBJECT := MEDIA_GUIDE_OBJECT st;
     all_episodes := all_episodes st; LOG := LOG st;
     requests := v; clock_reads := clock_reads st |}.

Definition with_clock_reads (st : state) (v : nat) : state :=
  {| TV_OBJECT_channel := TV_OBJECT_channel st;
     TV_OBJECT_programme := TV_OBJECT_programme st;
     MEDIA_GUIDE_OBJECT := MEDIA_GUIDE_OBJECT st;
     all_episodes := all_episodes st; LOG := LOG st;
     requests := requests st; clock_reads := v |}.

(** ** The monad of methods: state passing with exceptions.  A raised
    exception keeps the state reached so far, as a Python [try] sees it. *)
Definition M (A : Type) : Type := state -> result A * state.

Definition ret {A : Type} (a : A) : M A := fun st => (Ok a, st).

Definition bind {A B : Type} (c : M A) (k : A -> M B) : M B :=
  fun st =>
    match c st with
    | (Ok a, st') => k a st'
    | (Raise e, st') => (Raise e, st')
    end.

Definition raise {A : Type} (e : exn) : M A := fun st => (Raise e, st).

(** The outcome of a library call, taken into the monad. *)
Definition lift {A : Type} (r : result A) : M A := fun st => (r, st).

(** [try: body  except E: handler], where [catches] says which exceptions
    are instances of [E]. *)
Definition try_except {A : Type} (body : M A) (catches : exn -> bool)
  (handler : exn -> M A) : M A :=
  fun st =>
    match body st with
    | (Ok a, st') => (Ok a, st')
    | (Raise e, st') => if catches e then handler e st' else (Raise e, st')
    end.

Declare Scope monad_scope.
Delimit Scope monad_scope with monad.
Notation "x <- c ;; k" := (bind c (fun x => k))
  (at level 100, c at next level, right associativity) : monad_scope.
Notation "c ;; k" := (bind c (fun _ => k))
  (at level 100, right associativity) : monad_scope.
Open Scope monad_scope.

Definition LOGGER_log (lvl : log_level) (msg : log_message) : M unit :=
  fun st => (Ok tt, with_LOG st (LOG st ++ [{| levelname := lvl; message := msg |}])).
Definition LOGGER_debug : log_message -> M unit := LOGGER_log DEBUG.
Definition LOGGER_error : log_message -> M unit := LOGGER_log ERROR.
Definition LOGGER_fatal : log_message -> M unit := LOGGER_log FATAL.

(** ** [CustomStringConverter] *)
Module CustomStringConverter.

Definition _EXCLUDED_STRINGS : list string :=
  [ "a.k.a. Cartoon";
    "IMDbPro";
    "See full cast & crew";
    "See more" ].

(** [value in self._EXCLUDED_STRINGS] *)
Definition is_excluded (value : string) : bool :=
  existsb (String.eqb value) _EXCLUDED_STRINGS.

(** [deserialize]: a function that falls off its end returns [None]. *)
Definition deserialize (value : py_value) : option string :=
  match value with
  | PyStr s => if is_excluded s then None else Some s
  | _ => None
  end.

(** [serialize]: [str(value)].  [repr_bytes] is the text Python prints for a
    [bytes] value. *)
Definition serialize (repr_bytes : list ascii -> string) (value : py_value) : string :=
  match value with
  | PyNone => "None"
  | PyBool true => "True"
  | PyBool false => "False"
  | PyInt z => string_of_Z z
  | PyStr s => s
  | PyBytes b => repr_bytes b
  end.

End CustomStringConverter.

(** ** A sample world

    One catalog of two channels, the first with a schedule of two shows and
    the second without one, and collaborators that answer for exactly the
    texts this catalog produces.  The timestamps are those of the spec's
    schedule scenario. *)
Module Fixture.

Definition ch1 : taChannels.Element :=
  {| taChannels.id := "ch1";
     taChannels.displayName := "Channel One";
     taChannels.lang := "en";
     taChannels.icon := "http://example.org/ch1.png";
     taChannels.url := "http://example.org/ch1.m3u8";
     taChannels.scheduleUrl := Some "http://api.example.org/media?count=";
     taChannels.episodeQueryUrl := Some "http://api.example.org/info";
     taChannels.offset := "-0500";
     taChannels.country := "US";
     taChannels.group := "TV" |}.

Definition ch2 : taChannels.Element :=
  {| taChannels.id := "ch2";
     taChannels.displayName := "Channel Two";
     taChannels.lang := "en";
     taChannels.icon := "http://example.org/ch2.png";
     taChannels.url := "http://example.org/ch2.m3u8";
     taChannels.scheduleUrl := None;
     taChannels.episodeQueryUrl := None;
     taChannels.offset := "-0500";
     taChannels.country := "US";
     taChannels.group := "TV" |}.

Definition CHANNELS : list taChannels.Element := [ch1; ch2].

Definition entry (start : option string) (name : option string) : media.Element :=
  {| media.startDate := start;
     media.stopDate := None;
     media.name := name;
     media.blockName := None;
     media.episodeNumber := None;
     media.info := None;
     media.queryUrl := None;
     media.lang := None;
     media.channelUrl := None;
     media.channel := None |}.

Definition show_a : media.Element := entry (Some "20240101120000") (Some "Show A").
Definition show_b : media.Element := entry (Some "20240101130000") (Some "Show B").
Definition untitled : media.Element := entry (Some "20240101130000") None.
Definition undated : media.Element := entry None (Some "Show A").

Definition schedule : list media.Element := [show_a; show_b].

(** A schedule that shows the same programme twice. *)
Definition reruns : list media.Element := [show_a; show_a].

Definition info_a : mediaInfo.Element :=
  {| mediaInfo.queryUrl := None;
     mediaInfo.genres := Some {| mediaInfo.Genres.genres := ["Animation"] |};
     mediaInfo.productionCo := Some {| mediaInfo.ProductionCo.productionCo := ["Studio"] |};
     mediaInfo.creators := Some {| mediaInfo.Creators.creators := ["Writer"] |};
     mediaInfo.releaseDate := None;
     mediaInfo.summary := Some "A show.";
     mediaInfo.image := Some "http://example.org/a.png";
     mediaInfo.contentRating := Some "TV-PG";
     mediaInfo.rating := Some "8.1";
     mediaInfo.name := Some "Show A";
     mediaInfo.episode := None |}.

(** A metadata record whose genre list is missing. *)
Definition info_no_genres : mediaInfo.Element :=
  {| mediaInfo.queryUrl := Some "http://api.example.org/info?name=Show%20A";
     mediaInfo.genres := None;
     mediaInfo.productionCo := Some {| mediaInfo.ProductionCo.productionCo := ["Studio"] |};
     mediaInfo.creators := Some {| mediaInfo.Creators.creators := ["Writer"] |};
     mediaInfo.releaseDate := None;
     mediaInfo.summary := Some "A show.";
     mediaInfo.image := None;
     mediaInfo.contentRating := None;
     mediaInfo.rating := None;
     mediaInfo.name := Some "Show A";
     mediaInfo.episode := None |}.

Definition GUIDE_ITEMS_PER_CHANNEL : Z := 200.

Definition getScheduleUrl (c : taChannels.Element) (guide_items_count : Z) : string :=
  py_str (taChannels.scheduleUrl c) @@ string_of_Z guide_items_count.

(** Percent-encoding of the blank, the one reserved character of the sample
    titles. *)
Fixpoint quote (s : string) : string :=
  match s with
  | EmptyString => EmptyString
  | String c s' =>
      if Ascii.eqb c " "%char then "%20" @@ quote s' else String c (quote s')
  end.

Definition json : Type := string.
Definition json_loads (raw : string) : result json := Ok raw.

(** The schedule answers with its two shows, the metadata of the first show
    is served, the request for the second fails, and any other address
    answers with an empty body. *)
Definition urlopen_read (n : nat) (url : string) : result string :=
  if String.eqb url "http://api.example.org/media?count=200" then Ok "[schedule]"
  else if String.eqb url "http://api.example.org/info?name=Show%20A" then Ok "{Show A}"
  else if String.eqb url "http://api.example.org/info?name=Show%20B" then Raise URLError
  else Ok "".

(** A network with a passing failure: the first request is answered with
    the schedule of reruns, the second fails, and every later one is
    answered with the metadata of the first show. *)
Definition flaky_urlopen_read (n : nat) (url : string) : result string :=
  match n with
  | 0 => Ok "[reruns]"
  | 1 => Raise URLError
  | _ => Ok "{Show A}"
  end.

Definition from_bytes_media_Root (obj : list json) : result (list media.Element) :=
  match obj with
  | [j] =>
      if String.eqb j "[schedule]" then Ok schedule
      else if String.eqb j "[reruns]" then Ok reruns
      else Raise ParserError
  | _ => Raise ParserError
  end.

Definition from_bytes_mediaInfo_Element (obj : list json) : result mediaInfo.Element :=
  match obj with
  | [j] => if String.eqb j "{Show A}" then Ok info_a else Raise ParserError
  | _ => Raise ParserError
  end.

Definition parser_parse_format (s new_format : string) : result string :=
  if String.eqb s "20240101120000-0500" then Ok "20240101120000 -0500"
  else if String.eqb s "20240101130000-0500" then Ok "20240101130000 -0500"
  else Raise ParserError.

(** A clock stopped at 2024-01-01 12:34:56.789012, in microseconds. *)
Definition datetime_now (n : nat) : datetime := 63839709296789012%Z.

(** The sample rendering of a naive datetime is its count of microseconds. *)
Definition strftime (dt : datetime) (new_format : string) : string := string_of_Z dt.

Definition get_rating_object (content_rating : option string) : result xmltv.Rating :=
  Ok {| xmltv.rating_value := content_rating; xmltv.rating_system := Some "VCHIP" |}.

Definition channels_data_file_exists : bool := true.

(** A channel with a schedule and no address for metadata. *)
Definition ch3 : taChannels.Element :=
  {| taChannels.id := "ch3";
     taChannels.displayName := "Channel Three";
     taChannels.lang := "en";
     taChannels.icon := "http://example.org/ch3.png";
     taChannels.url := "http://example.org/ch3.m3u8";
     taChannels.scheduleUrl := Some "http://api.example.org/media?count=";
     taChannels.episodeQueryUrl := None;
     taChannels.offset := "-0500";
     taChannels.country := "US";
     taChannels.group := "TV" |}.

(** A metadata record of an episode whose season is missing. *)
Definition info_no_season : mediaInfo.Element :=
  {| mediaInfo.queryUrl := Some "http://api.example.org/info?name=Show%20A";
     mediaInfo.genres := Some {| mediaInfo.Genres.genres := ["Animation"] |};
     mediaInfo.productionCo := Some {| mediaInfo.ProductionCo.productionCo := ["Studio"] |};
     mediaInfo.creators := Some {| mediaInfo.Creators.creators := ["Writer"] |};
     mediaInfo.releaseDate := None;
     mediaInfo.summary := Some "A show.";
     mediaInfo.image := Some "http://example.org/a.png";
     mediaInfo.contentRating := Some "TV-PG";
     mediaInfo.rating := Some "8.1";
     mediaInfo.name := Some "Show A";
     mediaInfo.episode :=
       Some {| mediaInfo.Episode.season := None;
               mediaInfo.Episode.epNum := Some 3%Z;
               mediaInfo.Episode.name := Some "Pilot";
               mediaInfo.Episode.summary := None |} |}.

(** A decoder that refuses every body. *)
Definition broken_json_loads (raw : string) : result json := Raise ValueError.

(** A network that is down. *)
Definition down_urlopen_read (n : nat) (url : string) : result string :=
  Raise URLError.

(** A file system in which every directory can be made, and an [int] that
    reads no text. *)
Definition resolve (s : string) : list string := ["/"; s].
Definition module_dir : list string := ["/"; "src"].
Definition mkdir (p : list string) : result unit := Ok tt.
Definition int_of_str (s : string) : option Z := None.

End Fixture.

(** ** The class [ToonamiAftermath] *)
Section ToonamiAftermath.

(** Constructor argument [guide_items]. *)
Variable GUIDE_ITEMS_PER_CHANNEL : Z.

(** The outside world.  [urlopen_read n url] is what the [n]-th request of
    the run, made for [url], answers: the body read, or the exception
    raised.  [datetime_now n] is the [n]-th reading of the clock. *)
Variable urlopen_read : nat -> string -> result string.
Variable datetime_now : nat -> datetime.
Variable channels_data_file_exists : bool.

(** Library calls.  [json] is what [json.loads] returns;
    [from_bytes_media_Root] and [from_bytes_mediaInfo_Element] stand for
    [XML_PARSER.from_bytes(dicttoxml.dicttoxml(obj=..., ...), clazz)], the
    first followed by [.element]. *)
Variable json : Type.
Variable json_loads : string -> result json.
Variable from_bytes_media_Root : list json -> result (list media.Element).
Variable from_bytes_mediaInfo_Element : list json -> result mediaInfo.Element.
Variable quote : string -> string.
Variable strftime : datetime -> string -> string.
(** [parser.parse(s, fuzzy=True).__format__(new_format)] *)
Variable parser_parse_format : string -> string -> result string.
Variable get_rating_object : option string -> result xmltv.Rating.
(** [channel_object.getScheduleUrl(guide_items_count=...)], a method of the
    absent class [taChannels.Element]. *)
Variable getScheduleUrl : taChannels.Element -> Z -> string.

Definition gets {A : Type} (f : state -> A) : M A := fun st => (Ok (f st), st).

(** [urlopen(url, context=...).read()] *)
Definition urlopen (url : string) : M string :=
  fun st =>
    (urlopen_read (length (requests st)) url,
     with_requests st (requests st ++ [url])).

(** [datetime.now()] *)
Definition now : M datetime :=
  fun st =>
    (Ok (datetime_now (clock_reads st)),
     with_clock_reads st (S (clock_reads st))).

Definition TV_OBJECT_programme_append (p : xmltv.Programme) : M unit :=
  fun st => (Ok tt, with_TV_OBJECT_programme st (TV_OBJECT_programme st ++ [p])).

Definition TV_OBJECT_channel_append (c : xmltv.Channel) : M unit :=
  fun st => (Ok tt, with_TV_OBJECT_channel st (TV_OBJECT_channel st ++ [c])).

Definition MEDIA_GUIDE_OBJECT_append (e : media.Element) : M unit :=
  fun st => (Ok tt, with_MEDIA_GUIDE_OBJECT st (MEDIA_GUIDE_OBJECT st ++ [e])).

Definition all_episodes_append (e : mediaInfo.Element) : M unit :=
  fun st => (Ok tt, with_all_episodes st (all_episodes st ++ [e])).

(** [for x in l: body x] *)
Fixpoint for_each {A : Type} (l : list A) (body : A -> M unit) : M unit :=
  match l with
  | [] => ret tt
  | x :: l' => body x ;; for_each l' body
  end.

(** What [get_proper_date_time] returns or raises: a function that falls
    off its end returns [None]. *)
Definition proper_date_time (date_time_string : date_arg)
  (new_format : string) : result (option string) :=
  match date_time_string with
  | DateNone => Ok None
  | DateTime dt => Ok (Some (strftime dt new_format))
  | DateStr s =>
      if String.eqb s "" then Ok None
      else
        match parser_parse_format s new_format with
        | Ok r => Ok (Some r)
        | Raise e => Raise e
        end
  end.

(** [get_proper_date_time] *)
Definition get_proper_date_time (date_time_string : date_arg)
  (new_format : string) : M (option string) :=
  LOGGER_debug (Msg_converting date_time_string new_format) ;;
  lift (proper_date_time date_time_string new_format).

Definition is_URLError (e : exn) : bool := exn_eqb e URLError.
Definition is_AttributeError (e : exn) : bool := exn_eqb e AttributeError.

(** [get_json_obj_from_url] *)
Definition get_json_obj_from_url (json_url : string) : M (option (list json)) :=
  try_except
    (LOGGER_debug (Msg_attempting_download json_url) ;;
     raw_data <- urlopen json_url ;;
     if Nat.eqb (String.length raw_data) 0 then
       (LOGGER_debug (Msg_could_not_scrape json_url) ;; ret None)
     else
       (LOGGER_debug (Msg_pulled_data json_url) ;;
        j <- lift (json_loads raw_data) ;;
        ret (Some [j])))
    is_URLError
    (fun connectionError =>
       LOGGER_error (Msg_connection_issue json_url connectionError) ;;
       ret None).

(** [get_media_info] *)
Definition get_media_info (media_info_url : string) : M unit :=
  LOGGER_debug (Msg_checking_mediaInfo media_info_url) ;;
  episodes <- gets all_episodes ;;
  let found :=
    existsb (fun element =>
               option_string_eqb (mediaInfo.queryUrl element) (Some media_info_url))
            episodes in
  if negb found then
    (LOGGER_debug (Msg_mediaInfo_not_found media_info_url) ;;
     json_object <- get_json_obj_from_url media_info_url ;;
     match json_object with
     | None => ret tt
     | Some obj =>
         LOGGER_debug (Msg_transforming_mediaInfo media_info_url) ;;
         media_info_element <- lift (from_bytes_mediaInfo_Element obj) ;;
         all_episodes_append
           (mediaInfo.set_queryUrl media_info_element (Some media_info_url))
     end)
  else ret tt.

(** The title of a schedule entry after
    [if name is None and blockName is not None: name = blockName]. *)
Definition resolve_name (media_element : media.Element) : media.Element :=
  match media.name media_element, media.blockName media_element with
  | None, Some b => media.set_name media_element (Some b)
  | _, _ => media_element
  end.

(** [full_query_url] as the loop of [get_media] builds it. *)
Definition full_query_url (base name : string) (media_element : media.Element) : string :=
  let episode_urlized :=
    match media.info media_element with
    | Some i =>
        match media.fullname i with
        | Some f => quote f
        | None => quote name
        end
    | None => quote name
    end in
  let u := base @@ "?name=" @@ episode_urlized in
  let u :=
    match media.info media_element with
    | Some i =>
        match media.year i with
        | Some y => u @@ "&year=" @@ y
        | None => u
        end
    | None => u
    end in
  match media.episodeNumber media_element with
  | Some n => u @@ "&episode=" @@ n
  | None => u
  end.

(** The body of the loop of [get_media] over [media_objects.element], at
    index [position].  The entries after [position] are still as decoded
    when the body runs, so [media_objects.element[position + 1]] is read
    from the decoded list [elements]. *)
Definition get_media_loop_body (channel_object : taChannels.Element)
  (elements : list media.Element) (position : nat)
  (media_element : media.Element) : M unit :=
  media_element <-
    (if (Z.of_nat position <? Z.of_nat (length elements) - 1)%Z then
       match nth_error elements (position + 1) with
       | None => raise IndexError
       | Some next =>
           stop <- get_proper_date_time
                     (DateStr (py_str (media.startDate next)
                               @@ taChannels.offset channel_object))
                     _NEW_DATE_FORMAT ;;
           ret (media.set_stopDate media_element stop)
       end
     else ret media_element) ;;
  let media_element := resolve_name media_element in
  media_element <-
    match media.name media_element with
    | Some name =>
        match taChannels.episodeQueryUrl channel_object with
        | None => raise TypeError
        | Some base =>
            let url := full_query_url base name media_element in
            let media_element := media.set_queryUrl media_element (Some url) in
            let media_element :=
              media.set_lang media_element (Some (taChannels.lang channel_object)) in
            let media_element :=
              media.set_channelUrl media_element (Some (taChannels.url channel_object)) in
            start <- get_proper_date_time
                       (DateStr (py_str (media.startDate media_element)
                                 @@ taChannels.offset channel_object))
                       _NEW_DATE_FORMAT ;;
            let media_element := media.set_startDate media_element start in
            let media_element :=
              media.set_channel media_element (Some (taChannels.id channel_object)) in
            get_media_info url ;;
            ret media_element
        end
    | None => ret media_element
    end ;;
  MEDIA_GUIDE_OBJECT_append media_element.

Fixpoint get_media_loop (channel_object : taChannels.Element)
  (elements : list media.Element) (position : nat)
  (rest : list media.Element) : M unit :=
  match rest with
  | [] => ret tt
  | media_element :: rest' =>
      get_media_loop_body channel_object elements position media_element ;;
      get_media_loop channel_object elements (position + 1) rest'
  end.

(** The placeholder programme of one hourly block. *)
Definition mock_programme (channel_object : taChannels.Element)
  (_block_start_time _block_end_time : option string) : xmltv.Programme :=
  {| xmltv.category := None;
     xmltv.channel := Some (taChannels.id channel_object);
     xmltv.clumpidx := None;
     xmltv.credits := None;
     xmltv.date := None;
     xmltv.desc := None;
     xmltv.episode_num := None;
     xmltv.icon := Some [ {| xmltv.src := Some (taChannels.icon channel_object) |} ];
     xmltv.language := None;
     xmltv.rating := None;
     xmltv.start := _block_start_time;
     xmltv.star_rating := None;
     xmltv.stop := _block_end_time;
     xmltv.sub_title := None;
     xmltv.title :=
       [ {| xmltv.content := [Some (taChannels.displayName channel_object)];
            xmltv.lang := Some (taChannels.lang channel_object) |} ] |}.

(** The body of the loop of [get_media] over the hourly recurrence.  Its
    last statement, [_start_time = _end_time], rebinds a local that nothing
    reads afterwards. *)
Definition get_media_mock_body (channel_object : taChannels.Element)
  (block : datetime) : M unit :=
  _block_start_time <- get_proper_date_time (DateTime block) _NEW_DATE_FORMAT_NO_TZ ;;
  _block_end_time <-
    get_proper_date_time (DateTime (block + timedelta_hours 1)%Z) _NEW_DATE_FORMAT_NO_TZ ;;
  LOGGER_debug (Msg_making_block _block_start_time _block_end_time) ;;
  TV_OBJECT_programme_append
    (mock_programme channel_object _block_start_time _block_end_time).

(** [get_media] *)
Definition get_media (channel_object : taChannels.Element) : M unit :=
  match taChannels.scheduleUrl channel_object with
  | Some _ =>
      let prepared_url := getScheduleUrl channel_object GUIDE_ITEMS_PER_CHANNEL in
      json_object <- get_json_obj_from_url prepared_url ;;
      match json_object with
      | None => LOGGER_error (Msg_no_media_info prepared_url)
      | Some obj =>
          LOGGER_debug (Msg_transforming_media prepared_url) ;;
          elements <- lift (from_bytes_media_Root obj) ;;
          LOGGER_debug Msg_looping_media ;;
          get_media_loop channel_object elements 0 elements
      end
  | None =>
      t <- now ;;
      let _start_time := replace_minute_second_microsecond_0 t in
      let _end_time := (_start_time + timedelta_days 1)%Z in
      LOGGER_debug
        (Msg_mock_guide (taChannels.displayName channel_object) _start_time _end_time) ;;
      for_each (rrule_HOURLY _start_time _end_time)
               (get_media_mock_body channel_object)
  end.

(** [get_channels] *)
Definition get_channels (CHANNELS : list taChannels.Element) : M unit :=
  (if negb channels_data_file_exists then
     (LOGGER_fatal Msg_unable_to_find_channels ;; raise SystemExit)
   else ret tt) ;;
  for_each CHANNELS
    (fun channel =>
       LOGGER_debug (Msg_adapting_channel (taChannels.displayName channel)) ;;
       TV_OBJECT_channel_append
         {| xmltv.id := taChannels.id channel;
            xmltv.display_name :=
              [ {| xmltv.content := [Some (taChannels.displayName channel)];
                   xmltv.lang := Some (taChannels.lang channel) |} ];
            xmltv.channel_icon := [ {| xmltv.src := Some (taChannels.icon channel) |} ];
            xmltv.url := [taChannels.url channel] |}).

(** [x.f] where [x] may be [None]: reading an attribute of [None] raises
    [AttributeError]. *)
Definition getattr {A B : Type} (x : option A) (f : A -> B) : M B :=
  match x with
  | Some a => ret (f a)
  | None => raise AttributeError
  end.

(** [n - 1] where [n] may be [None]: arithmetic on [None] raises
    [TypeError]. *)
Definition minus_one (n : option Z) : M Z :=
  match n with
  | Some z => ret (z - 1)%Z
  | None => raise TypeError
  end.

(** The first cache record whose key equals the programme's: the inner
    loop of [adapt_media_objects_to_xmltv_object]. *)
Definition find_media_info (episodes : list mediaInfo.Element)
  (media_object : media.Element) : option mediaInfo.Element :=
  find (fun element =>
          option_string_eqb (mediaInfo.queryUrl element) (media.queryUrl media_object))
       episodes.

(** The statements of the [try] block up to the construction of the
    [Programme]. *)
Definition build_programme (media_object : media.Element)
  (media_info_object : option mediaInfo.Element) : M xmltv.Programme :=
  let lang := media.lang media_object in
  let text (c : option string) : xmltv.LangText :=
    {| xmltv.content := [c]; xmltv.lang := lang |} in
  let _title :=
    match media.info media_object with
    | Some i =>
        match media.fullname i with
        | Some f => [text (Some f)]
        | None => [text (media.name media_object)]
        end
    | None => [text (media.name media_object)]
    end in
  match media_info_object with
  | None =>
      ret {| xmltv.category := None;
             xmltv.channel := media.channel media_object;
             xmltv.clumpidx := None;
             xmltv.credits := None;
             xmltv.date := None;
             xmltv.desc := None;
             xmltv.episode_num := None;
             xmltv.icon := None;
             xmltv.language := Some (text lang);
             xmltv.rating := None;
             xmltv.start := media.startDate media_object;
             xmltv.star_rating := None;
             xmltv.stop := media.stopDate media_object;
             xmltv.sub_title := None;
             xmltv.title := _title |}
  | Some mi =>
      genres <- getattr (mediaInfo.genres mi) mediaInfo.Genres.genres ;;
      let _category := map (fun genre => text (Some genre)) genres in
      producer <- getattr (mediaInfo.productionCo mi) mediaInfo.ProductionCo.productionCo ;;
      writer <- getattr (mediaInfo.creators mi) mediaInfo.Creators.creators ;;
      let _credits := {| xmltv.producer := producer; xmltv.writer := writer |} in
      _date <- get_proper_date_time
                 (date_arg_of_option (mediaInfo.releaseDate mi))
                 _NEW_DATE_FORMAT_MINIMAL ;;
      let _desc := [text (mediaInfo.summary mi)] in
      let _icon := [ {| xmltv.src := mediaInfo.image mi |} ] in
      r <- lift (get_rating_object (mediaInfo.contentRating mi)) ;;
      let _rating := [r] in
      let _star_rating :=
        [ {| xmltv.value := py_str (mediaInfo.rating mi) @@ "/" @@ "10";
             xmltv.system := "imdb" |} ] in
      let _sub_title := [text (mediaInfo.name mi)] in
      with_episode <-
        match mediaInfo.episode mi with
        | Some ep =>
            s <- minus_one (mediaInfo.Episode.season ep) ;;
            n <- minus_one (mediaInfo.Episode.epNum ep) ;;
            ret ([text (mediaInfo.Episode.summary ep)],
                 Some [ {| xmltv.ep_content :=
                             [string_of_Z s @@ "." @@ string_of_Z n @@ ".0/1"];
                           xmltv.ep_system := "xmltv_ns" |} ],
                 [text (mediaInfo.Episode.name ep)])
        | None => ret (_desc, None, _sub_title)
        end ;;
      let '(_desc, _episode_num, _sub_title) := with_episode in
      ret {| xmltv.category := Some _category;
             xmltv.channel := media.channel media_object;
             xmltv.clumpidx := None;
             xmltv.credits := Some _credits;
             xmltv.date := _date;
             xmltv.desc := Some _desc;
             xmltv.episode_num := _episode_num;
             xmltv.icon := Some _icon;
             xmltv.language := Some (text lang);
             xmltv.rating := Some _rating;
             xmltv.start := media.startDate media_object;
             xmltv.star_rating := Some _star_rating;
             xmltv.stop := media.stopDate media_object;
             xmltv.sub_title := Some _sub_title;
             xmltv.title := _title |}
  end.

(** The body of the loop of [adapt_media_objects_to_xmltv_object]. *)
Definition adapt_media_object (media_object : media.Element) : M unit :=
  episodes <- gets all_episodes ;;
  let media_info_object := find_media_info episodes media_object in
  match media_info_object with
  | Some _ => LOGGER_debug (Msg_found_mediaInfo (media.queryUrl media_object))
  | None => ret tt
  end ;;
  try_except
    (p <- build_programme media_object media_info_object ;;
     TV_OBJECT_programme_append p)
    is_AttributeError
    (fun attributeException =>
       LOGGER_error
         (Msg_unable_to_add media_object media_info_object attributeException)).

(** [adapt_media_objects_to_xmltv_object] *)
Definition adapt_media_objects_to_xmltv_object : M unit :=
  LOGGER_debug Msg_going_to_adapt ;;
  media_objects <- gets MEDIA_GUIDE_OBJECT ;;
  for_each media_objects adapt_media_object.

(** [main], from the fresh [TV_OBJECT] to the assembled guide.
    [CHANNELS] is the catalog read from the channels file; [media_info_file]
    is the cache read from disk, when the cache is enabled and its file
    exists.  In the source both reads come before [get_channels] and can
    raise: this is [main] once they have returned.  Writing the three
    output files is left to the document writers. *)
Definition main (CHANNELS : list taChannels.Element)
  (media_info_file : option (list mediaInfo.Element)) : M unit :=
  (fun st => (Ok tt, with_TV_OBJECT_programme (with_TV_OBJECT_channel st []) [])) ;;
  match media_info_file with
  | Some episodes => fun st => (Ok tt, with_all_episodes st episodes)
  | None => ret tt
  end ;;
  get_channels CHANNELS ;;
  for_each CHANNELS get_media ;;
  adapt_media_objects_to_xmltv_object.

(** The object [__init__] leaves: nothing gathered, nothing asked. *)
Definition init : state :=
  {| TV_OBJECT_channel := [];
     TV_OBJECT_programme := [];
     MEDIA_GUIDE_OBJECT := [];
     all_episodes := [];
     LOG := [];
     requests := [];
     clock_reads := 0 |}.

(** ** Construction and the command line *)

(** A path is the list of its components; [p / name] appends one. *)
Definition path : Type := list string.
Definition joinpath (p : path) (name : string) : path := p ++ [name].

(** [pathlib.Path(s).resolve()], [pathlib.Path(__file__).parent], and
    [pathlib.Path.mkdir(p, parents=True, exist_ok=True)], which may raise. *)
Variable resolve : string -> path.
Variable module_dir : path.
Variable mkdir : path -> result unit.
(** [int(s)], as argparse applies it to the text of [--guide_items]. *)
Variable int_of_str : string -> option Z.

(** The paths that [__init_output_paths] sets on [self]. *)
Record output_paths : Type := {
  self_channels_data_file : path;
  self_data_out_dir : path;
  self_m3u_file_name : path;
  self_xmltv_file_name : path;
  self_media_info_file : path;
  self_log_dir : path;
  self_log_file : path
}.

(** [__init_output_paths], given [self.data_out_dir] and [self.log_dir] as
    [__init__] set them.  Its third statement is [self.log_dir = None]. *)
Definition __init_output_paths (data_out_dir : string) (log_dir : option string) :
  result output_paths :=
  let channels_data_file :=
    joinpath (joinpath (joinpath module_dir "ToonamiAftermath") "data") "channels.xml" in
  let data_out_dir := resolve data_out_dir in
  let log_dir : option string := None in
  match mkdir data_out_dir with
  | Raise e => Raise e
  | Ok _ =>
      let m3u_file_name := joinpath data_out_dir "ToonamiAftermath.m3u" in
      let xmltv_file_name := joinpath data_out_dir "ToonamiAftermathGuide.xml" in
      let media_info_file := joinpath data_out_dir "ToonamiAftermathMediaInfo.xml" in
      let log_dir :=
        match log_dir with
        | None => joinpath data_out_dir "log"
        | Some d => resolve d
        end in
      match mkdir log_dir with
      | Raise e => Raise e
      | Ok _ =>
          Ok {| self_channels_data_file := channels_data_file;
                self_data_out_dir := data_out_dir;
                self_m3u_file_name := m3u_file_name;
                self_xmltv_file_name := xmltv_file_name;
                self_media_info_file := media_info_file;
                self_log_dir := log_dir;
                self_log_file := joinpath log_dir "ToonamiAftermath.log" |}
      end
  end.

Definition validLogging : list string :=
  ["WARNING"; "ERROR"; "CRITICAL"; "INFO"; "WARN"; "DEBUG"].

(** What [__init__] leaves on [self], besides the empty collections of
    [init]. *)
Record settings : Type := {
  self_GUIDE_ITEMS_PER_CHANNEL : Z;
  self_USE_EPISODE_CACHE : bool;
  self_LOG_LEVEL : string;
  self_paths : output_paths
}.

(** [__init__], up to the set-up of the logger. *)
Definition __init__ (out_dir : string) (log_dir : option string)
  (guide_items : Z) (ep_cache : bool) (log_level : string) : result settings :=
  let log_level :=
    if existsb (String.eqb log_level) validLogging then log_level else "ERROR" in
  match __init_output_paths out_dir log_dir with
  | Raise e => Raise e
  | Ok paths =>
      Ok {| self_GUIDE_ITEMS_PER_CHANNEL := guide_items;
            self_USE_EPISODE_CACHE := ep_cache;
            self_LOG_LEVEL := log_level;
            self_paths := paths |}
  end.

(** The texts given on the command line, an option that is left out being
    [None]. *)
Record command_line : Type := {
  arg_out_dir : option string;
  arg_log_dir : option string;
  arg_guide_items : option string;
  arg_ep_cache : option string;
  arg_log_level : option string
}.

(** [bool(s)] of a text: only the empty text is false. *)
Definition py_bool_of_str (s : string) : bool := negb (String.eqb s "").

(** The module's [main], up to the construction of the object: each option
    is converted with its [type=], and the options that are not [None] are
    passed as keyword arguments, the others taking the defaults of
    [__init__].  A text that [int] refuses makes argparse exit. *)
Definition module_main (argv : command_line) : result settings :=
  let guide_items : result (option Z) :=
    match arg_guide_items argv with
    | None => Ok None
    | Some s =>
        match int_of_str s with
        | Some z => Ok (Some z)
        | None => Raise SystemExit
        end
    end in
  match guide_items with
  | Raise e => Raise e
  | Ok guide_items =>
      let ep_cache := option_map py_bool_of_str (arg_ep_cache argv) in
      let default {A : Type} (o : option A) (d : A) : A :=
        match o with Some a => a | None => d end in
      __init__ (default (arg_out_dir argv) "output/")
               (arg_log_dir argv)
               (default guide_items 200%Z)
               (default ep_cache false)
               (default (arg_log_level argv) "ERROR")
  end.

(** The [Channel] that [get_channels] builds for a catalog entry. *)
Definition Channel_of (channel : taChannels.Element) : xmltv.Channel :=
  {| xmltv.id := taChannels.id channel;
     xmltv.display_name :=
       [ {| xmltv.content := [Some (taChannels.displayName channel)];
            xmltv.lang := Some (taChannels.lang channel) |} ];
     xmltv.channel_icon := [ {| xmltv.src := Some (taChannels.icon channel) |} ];
     xmltv.url := [taChannels.url channel] |}.

(** ** The vocabulary of the properties *)

(** [preserves R c]: whatever [c] does, returning or raising, the state it
    leaves is [R]-related to the state it started from. *)
Definition preserves {A : Type} (R : state -> state -> Prop) (c : M A) : Prop :=
  forall st, R st (snd (c st)).

(** The component [f] of the state is unchanged. *)
Definition same {X : Type} (f : state -> X) : state -> state -> Prop :=
  fun st st' => f st' = f st.

(** The cache only grows, at its end. *)
Definition cache_extends : state -> state -> Prop :=
  fun st st' => exists tail, all_episodes st' = all_episodes st ++ tail.

(** [key] has an entry in the cache: the test of the loop of
    [get_media_info]. *)
Definition cached (key : string) (st : state) : bool :=
  existsb (fun element => option_string_eqb (mediaInfo.queryUrl element) (Some key))
          (all_episodes st).

(** The state in which [main] starts to gather: a fresh [TV_OBJECT], and
    the cache read from disk when there is one. *)
Definition loaded (media_info_file : option (list mediaInfo.Element)) (st : state) : state :=
  let st := with_TV_OBJECT_programme (with_TV_OBJECT_channel st []) [] in
  match media_info_file with
  | Some episodes => with_all_episodes st episodes
  | None => st
  end.

(** The two failures of a fetch: the connection error that
    [get_json_obj_from_url] catches, and a body of length zero. *)
Definition fetch_fails (json_url : string) (st : state) : Prop :=
  urlopen_read (length (requests st)) json_url = Raise URLError \/
  exists raw_data,
    urlopen_read (length (requests st)) json_url = Ok raw_data /\
    String.length raw_data = 0.

(** The state after a failed fetch: the request is on record, and the log
    has the attempt and the failure. *)
Definition after_failed_fetch (json_url : string) (failure : log_record)
  (st : state) : state :=
  with_LOG
    (with_requests st (requests st ++ [json_url]))
    (LOG st ++ [{| levelname := DEBUG; message := Msg_attempting_download json_url |}]
            ++ [failure]).

Definition is_failure_record (json_url : string) (r : log_record) : Prop :=
  r = {| levelname := ERROR; message := Msg_connection_issue json_url URLError |} \/
  r = {| levelname := DEBUG; message := Msg_could_not_scrape json_url |}.

(** The placeholder programme of the block that starts at [block]. *)
Definition mock_block (channel_object : taChannels.Element) (block : datetime) :
  xmltv.Programme :=
  mock_programme channel_object
    (Some (strftime block _NEW_DATE_FORMAT_NO_TZ))
    (Some (strftime (block + timedelta_hours 1)%Z _NEW_DATE_FORMAT_NO_TZ)).

(** The programme list only grows, at its end. *)
Definition programme_extends : state -> state -> Prop :=
  fun st st' =>
    exists tail, TV_OBJECT_programme st' = TV_OBJECT_programme st ++ tail.

(** The state in which the [try] block of the assembly loop starts: the
    lookup has logged its match, if it found one. *)
Definition after_lookup (media_object : media.Element) (st : state) : state :=
  match find_media_info (all_episodes st) media_object with
  | Some _ =>
      with_LOG st
        (LOG st ++ [{| levelname := DEBUG;
                       message := Msg_found_mediaInfo (media.queryUrl media_object) |}])
  | None => st
  end.

(** The value of the expression the loop of [get_media] uses for a stop time
    and for a start time: the entry's start date, printed, followed by the
    channel's offset, and reformatted. *)
Definition adjusted_start (channel_object : taChannels.Element)
  (e : media.Element) : result (option string) :=
  proper_date_time
    (DateStr (py_str (media.startDate e) @@ taChannels.offset channel_object))
    _NEW_DATE_FORMAT.

(** [name] if present, else [blockName]. *)
Definition resolved_title (e : media.Element) : option string :=
  match media.name e with
  | Some n => Some n
  | None => media.blockName e
  end.

(** [out] is the entry that the loop appends for the decoded entry [e] at
    index [i] of [elements]. *)
Definition normalized (channel_object : taChannels.Element)
  (elements : list media.Element) (i : nat) (e out : media.Element) : Prop :=
  match nth_error elements (S i) with
  | Some next => adjusted_start channel_object next = Ok (media.stopDate out)
  | None => media.stopDate out = media.stopDate e
  end /\
  media.name out = resolved_title e /\
  media.blockName out = media.blockName e /\
  media.episodeNumber out = media.episodeNumber e /\
  media.info out = media.info e /\
  match resolved_title e with
  | Some title =>
      adjusted_start channel_object e = Ok (media.startDate out) /\
      media.channel out = Some (taChannels.id channel_object) /\
      media.lang out = Some (taChannels.lang channel_object) /\
      media.channelUrl out = Some (taChannels.url channel_object) /\
      exists base,
        taChannels.episodeQueryUrl channel_object = Some base /\
        media.queryUrl out = Some (full_query_url base title e)
  | None =>
      media.startDate out = media.startDate e /\
      media.channel out = media.channel e /\
      media.lang out = media.lang e /\
      media.channelUrl out = media.channelUrl e /\
      media.queryUrl out = media.queryUrl e
  end.

(** [outs] are the entries appended for the decoded entries [rest], which
    stand at the indices [i], [i + 1], ... of [elements]. *)
Inductive normalized_from (channel_object : taChannels.Element)
  (elements : list media.Element) :
  nat -> list media.Element -> list media.Element -> Prop :=
| normalized_nil : forall i, normalized_from channel_object elements i [] []
| normalized_cons : forall i e rest out outs,
    normalized channel_object elements i e out ->
    normalized_from channel_object elements (S i) rest outs ->
    normalized_from channel_object elements i (e :: rest) (out :: outs).

(** The schedule request of [channel_object], made in state [st], is
    answered with a body that is not empty and decodes to [elements]. *)
Definition fetched_schedule (channel_object : taChannels.Element) (st : state)
  (elements : list media.Element) : Prop :=
  exists raw_data j,
    urlopen_read (length (requests st))
                 (getScheduleUrl channel_object GUIDE_ITEMS_PER_CHANNEL) = Ok raw_data /\
    String.length raw_data <> 0 /\
    json_loads raw_data = Ok j /\
    from_bytes_media_Root [j] = Ok elements.

(** The outcome of the [try] block of the assembly loop for a queued entry,
    given the cache: the programme built, or the exception raised.  The
    block writes nothing but log records, and its outcome is the same in
    every state (lemma [build_programme_outcome]), so it is read off a run
    in the initial one. *)
Definition built (episodes : list mediaInfo.Element) (media_object : media.Element) :
  result xmltv.Programme :=
  fst (build_programme media_object (find_media_info episodes media_object) init).

(** The programmes the assembly loop appends for a queued entry: the one
    built, or none when building raised. *)
Definition emitted (episodes : list mediaInfo.Element) (media_object : media.Element) :
  list xmltv.Programme :=
  match built episodes media_object with
  | Ok p => [p]
  | Raise _ => []
  end.

(** The placeholder programmes of a channel, made at the [k]-th reading of
    the clock: 25 hourly blocks from the top of the hour. *)
Definition placeholder_blocks (k : nat) (channel_object : taChannels.Element) :
  list xmltv.Programme :=
  map (mock_block channel_object)
      (map (fun i => (replace_minute_second_microsecond_0 (datetime_now k)
                      + timedelta_hours (Z.of_nat i))%Z)
           (seq 0 25)).

(** The schedule request of [channel_object], made as the [n]-th request of
    the run, is answered with a body that is not empty and decodes to
    [elements]. *)
Definition schedule_at (n : nat) (channel_object : taChannels.Element)
  (elements : list media.Element) : Prop :=
  exists raw_data j,
    urlopen_read n (getScheduleUrl channel_object GUIDE_ITEMS_PER_CHANNEL) = Ok raw_data /\
    String.length raw_data <> 0 /\
    json_loads raw_data = Ok j /\
    from_bytes_media_Root [j] = Ok elements.

(** What the loop of [main] over the catalog gathers when it starts after
    [n] requests and [k] readings of the clock: [placeholders] are the
    programmes it appends to the guide and [entries] the normalized entries
    it queues, channel after channel.  A channel without a schedule URL
    gives its 25 placeholder programmes and no entry.  A channel with one
    gives no programme, and the normalization of its schedule as decoded
    from the answer to request [n], each entry costing at most one further
    request; when that request is not answered with a schedule, it gives
    nothing. *)
Inductive gathered :
  nat -> nat -> list taChannels.Element -> list xmltv.Programme ->
  list media.Element -> Prop :=
| gathered_nil : forall n k, gathered n k [] [] []
| gathered_mock : forall n k c cs placeholders entries,
    taChannels.scheduleUrl c = None ->
    gathered n (S k) cs placeholders entries ->
    gathered n k (c :: cs) (placeholder_blocks k c ++ placeholders) entries
| gathered_schedule : forall n n' k c cs elements ms placeholders entries,
    taChannels.scheduleUrl c <> None ->
    schedule_at n c elements ->
    normalized_from c elements 0 elements ms ->
    n + 1 <= n' <= n + 1 + length elements ->
    gathered n' k cs placeholders entries ->
    gathered n k (c :: cs) placeholders (ms ++ entries)
| gathered_unanswered : forall n k c cs placeholders entries,
    taChannels.scheduleUrl c <> None ->
    (forall elements, ~ schedule_at n c elements) ->
    gathered (n + 1) k cs placeholders entries ->
    gathered n k (c :: cs) placeholders entries.

(** The programme list is grouped by channel, the groups in catalog
    order. *)
Definition in_catalog_order (CHANNELS : list taChannels.Element)
  (programmes : list xmltv.Programme) : Prop :=
  exists groups,
    Forall2 (fun c g => Forall (fun p => xmltv.channel p = Some (taChannels.id c)) g)
            CHANNELS groups /\
    programmes = concat groups.

(** Every record of the cache has a key, and no two records share one. *)
Definition cache_keys_ok (st : state) : Prop :=
  NoDup (map mediaInfo.queryUrl (all_episodes st)) /\
  Forall (fun element => mediaInfo.queryUrl element <> None) (all_episodes st).

(** The keys of the cache stay present and distinct. *)
Definition keeps_cache_keys : state -> state -> Prop :=
  fun st st' => cache_keys_ok st -> cache_keys_ok st'.

(** The metadata request for [media_info_url], made in state [st], is
    answered with a body that is not empty and decodes to [element]. *)
Definition fetched_media_info (media_info_url : string) (st : state)
  (element : mediaInfo.Element) : Prop :=
  exists raw_data j,
    urlopen_read (length (requests st)) media_info_url = Ok raw_data /\
    String.length raw_data <> 0 /\
    json_loads raw_data = Ok j /\
    from_bytes_mediaInfo_Element [j] = Ok element.

(** [channel_object.scheduleUrl is not None] *)
Definition has_schedule (channel_object : taChannels.Element) : bool :=
  match taChannels.scheduleUrl channel_object with
  | Some _ => true
  | None => false
  end.

(** The request for [json_url], made in state [st], ends in the exception
    [e], which is not the connection error that [get_json_obj_from_url]
    catches: [urlopen] raises it, or the body is not empty and [json.loads]
    raises it. *)
Definition fetch_breaks (json_url : string) (st : state) (e : exn) : Prop :=
  is_URLError e = false /\
  (urlopen_read (length (requests st)) json_url = Raise e \/
   exists raw_data,
     urlopen_read (length (requests st)) json_url = Ok raw_data /\
     String.length raw_data <> 0 /\
     json_loads raw_data = Raise e).

(** The start date of every entry converts, with the channel's offset. *)
Definition dates_convert (channel_object : taChannels.Element)
  (elements : list media.Element) : Prop :=
  Forall (fun e => exists s, adjusted_start channel_object e = Ok s) elements.

(** No request is ever answered with data: each meets a connection error or
    an empty body. *)
Definition network_down : Prop :=
  forall n json_url,
    urlopen_read n json_url = Raise URLError \/
    exists raw_data,
      urlopen_read n json_url = Ok raw_data /\ String.length raw_data = 0.

(** [p] is a placeholder programme of a channel of [CHANNELS] that has no
    schedule URL. *)
Definition is_placeholder_of (CHANNELS : list taChannels.Element)
  (p : xmltv.Programme) : Prop :=
  exists channel_object block,
    In channel_object CHANNELS /\
    taChannels.scheduleUrl channel_object = None /\
    p = mock_block channel_object block.

(** The cache only grows, and every request made is for an address of
    [allowed] or for a key that the cache lacked at the start. *)
Definition asks_only (allowed : string -> Prop) : state -> state -> Prop :=
  fun st st' =>
    cache_extends st st' /\
    exists asked,
      requests st' = requests st ++ asked /\
      Forall (fun key => cached key st = false \/ allowed key) asked.

(** The command line [argv] with its [--log_dir] replaced. *)
Definition with_arg_log_dir (argv : command_line) (d : option string) : command_line :=
  {| arg_out_dir := arg_out_dir argv;
     arg_log_dir := d;
     arg_guide_items := arg_guide_items argv;
     arg_ep_cache := arg_ep_cache argv;
     arg_log_level := arg_log_level argv |}.

(** ** Properties *)

(** *** Inversion of the monad's operations *)

Lemma bind_Ok_inv (A B : Type) (c : M A) (k : A -> M B) st b st' :
  bind c k st = (Ok b, st') ->
  exists a st1, c st = (Ok a, st1) /\ k a st1 = (Ok b, st').
Proof.
  unfold bind. destruct (c st) as [[a|e] st1]; intros H.
  - exists a, st1. split; [reflexivity | exact H].
  - discriminate H.
Qed.

Lemma bind_Ok {A B : Type} {c : M A} (k : A -> M B) {st a st1} :
  c st = (Ok a, st1) -> bind c k st = k a st1.
Proof. unfold bind. intros ->. reflexivity. Qed.

Lemma bind_Raise {A B : Type} {c : M A} (k : A -> M B) {st e st1} :
  c st = (Raise e, st1) -> bind c k st = (Raise e, st1).
Proof. unfold bind. intros ->. reflexivity. Qed.

Lemma ret_inv (A : Type) (a b : A) st st' :
  ret a st = (Ok b, st') -> a = b /\ st = st'.
Proof. unfold ret. intros H. inversion H. split; reflexivity. Qed.

Lemma lift_inv (A : Type) (r : result A) (b : A) st st' :
  lift r st = (Ok b, st') -> r = Ok b /\ st = st'.
Proof. unfold lift. intros H. inversion H. split; reflexivity. Qed.

Lemma LOGGER_log_inv lvl msg u st st' :
  LOGGER_log lvl msg st = (Ok u, st') ->
  st' = with_LOG st (LOG st ++ [{| levelname := lvl; message := msg |}]).
Proof. unfold LOGGER_log. intros H. inversion H. reflexivity. Qed.

Lemma get_proper_date_time_eq d fmt st :
  get_proper_date_time d fmt st =
  (proper_date_time d fmt,
   with_LOG st (LOG st ++ [{| levelname := DEBUG; message := Msg_converting d fmt |}])).
Proof. reflexivity. Qed.

(** Takes a successful run of a sequence apart, statement by statement. *)
Ltac inv_run H :=
  repeat match type of H with
    | bind _ _ _ = (Ok _, _) =>
        let a := fresh "a" in
        let s := fresh "st" in
        let H1 := fresh "Hrun" in
        apply bind_Ok_inv in H; destruct H as (a & s & H1 & H)
    end.

(** *** The string converter *)

Lemma is_excluded_In (s : string) :
  CustomStringConverter.is_excluded s = true <->
  In s CustomStringConverter._EXCLUDED_STRINGS.
Proof.
  unfold CustomStringConverter.is_excluded. rewrite existsb_exists. split.
  - intros (x & Hin & Heq). apply String.eqb_eq in Heq. subst x. exact Hin.
  - intros Hin. exists s. split; [exact Hin | apply String.eqb_refl].
Qed.

(** C7: a string of the denylist decodes to [None]; every other string
    decodes to itself. *)
Theorem deserialize_denylist (s : string) :
  (In s CustomStringConverter._EXCLUDED_STRINGS ->
   CustomStringConverter.deserialize (PyStr s) = None) /\
  (~ In s CustomStringConverter._EXCLUDED_STRINGS ->
   CustomStringConverter.deserialize (PyStr s) = Some s).
Proof.
  simpl. destruct (CustomStringConverter.is_excluded s) eqn:E; split; intros H.
  - reflexivity.
  - exfalso. apply H. apply is_excluded_In. exact E.
  - apply is_excluded_In in H. congruence.
  - reflexivity.
Qed.

(** C9: a value that is not a string decodes to [None]. *)
Theorem deserialize_non_string (v : py_value) :
  (forall s, v <> PyStr s) -> CustomStringConverter.deserialize v = None.
Proof.
  intros H. destruct v; try reflexivity.
  exfalso. exact (H s eq_refl).
Qed.

(** *** The timestamp reformatter *)

(** A text that is not empty is never reformatted to [None]: the parser's
    result is kept, or its exception goes through. *)
Lemma proper_date_time_nonempty (s fmt : string) :
  s <> "" -> proper_date_time (DateStr s) fmt <> Ok None.
Proof.
  intros Hs. simpl. destruct (String.eqb s "") eqn:E.
  - apply String.eqb_eq in E. contradiction.
  - destruct (parser_parse_format s fmt); discriminate.
Qed.

Lemma getattr_inv (A B : Type) (x : option A) (f : A -> B) b st st' :
  getattr x f st = (Ok b, st') -> exists a, x = Some a /\ b = f a /\ st' = st.
Proof.
  destruct x as [a|]; simpl; intros H; inversion H.
  exists a. repeat split.
Qed.

(** The date of a programme built with metadata is the reformatted release
    date. *)
Lemma build_programme_date media_object mi st p st' :
  build_programme media_object (Some mi) st = (Ok p, st') ->
  proper_date_time (date_arg_of_option (mediaInfo.releaseDate mi))
                   _NEW_DATE_FORMAT_MINIMAL = Ok (xmltv.date p).
Proof.
  unfold build_programme. intros H. inv_run H.
  rewrite get_proper_date_time_eq in Hrun2. inversion Hrun2 as [[Hd Hst]].
  destruct a4 as [[d e] t]. apply ret_inv in H. destruct H as [<- _].
  simpl. exact Hd.
Qed.

(** C10 (amended): for every target format the reformatter returns [None],
    and does not raise, on [None] and on the empty string; so a metadata
    record whose release date is missing or empty yields a programme with no
    date.  A text that is not empty is never reformatted to [None]. *)
Theorem get_proper_date_time_absent (new_format : string) (st : state)
  (media_object : media.Element) (mi : mediaInfo.Element) :
  fst (get_proper_date_time DateNone new_format st) = Ok None /\
  fst (get_proper_date_time (DateStr "") new_format st) = Ok None /\
  (mediaInfo.releaseDate mi = None \/ mediaInfo.releaseDate mi = Some "" ->
   forall p st',
     build_programme media_object (Some mi) st = (Ok p, st') ->
     xmltv.date p = None) /\
  (forall s, s <> "" ->
     fst (get_proper_date_time (DateStr s) new_format st) <> Ok None).
Proof.
  repeat split.
  - intros Hrel p st' Hrun. apply build_programme_date in Hrun.
    destruct Hrel as [Hrel | Hrel]; rewrite Hrel in Hrun; simpl in Hrun;
      inversion Hrun; reflexivity.
  - intros s Hs. rewrite get_proper_date_time_eq. simpl fst.
    apply proper_date_time_nonempty. exact Hs.
Qed.

(** *** What a computation leaves alone *)

#[local] Instance same_PreOrder (X : Type) (f : state -> X) : PreOrder (same f).
Proof.
  split.
  - intros st. reflexivity.
  - intros a b c Hab Hbc. unfold same in *. congruence.
Qed.

#[local] Instance cache_extends_PreOrder : PreOrder cache_extends.
Proof.
  split.
  - intros st. exists []. symmetry. apply app_nil_r.
  - intros a b c [t1 H1] [t2 H2]. exists (t1 ++ t2).
    rewrite H2, H1. symmetry. apply app_assoc.
Qed.

Section Preserves.

Variable R : state -> state -> Prop.
Context {R_PreOrder : PreOrder R}.

Lemma preserves_ret (A : Type) (a : A) : preserves R (ret a).
Proof. intros st. simpl. reflexivity. Qed.

Lemma preserves_raise (A : Type) (e : exn) : preserves R (@raise A e).
Proof. intros st. simpl. reflexivity. Qed.

Lemma preserves_lift (A : Type) (r : result A) : preserves R (lift r).
Proof. intros st. simpl. reflexivity. Qed.

Lemma preserves_gets (A : Type) (f : state -> A) : preserves R (gets f).
Proof. intros st. simpl. reflexivity. Qed.

Lemma preserves_bind (A B : Type) (c : M A) (k : A -> M B) :
  preserves R c -> (forall a, preserves R (k a)) -> preserves R (bind c k).
Proof.
  intros Hc Hk st. unfold bind. specialize (Hc st).
  destruct (c st) as [[a|e] st1]; simpl in *.
  - transitivity st1; [exact Hc | apply Hk].
  - exact Hc.
Qed.

Lemma preserves_try_except (A : Type) (body : M A) catches (handler : exn -> M A) :
  preserves R body -> (forall e, preserves R (handler e)) ->
  preserves R (try_except body catches handler).
Proof.
  intros Hb Hh st. unfold try_except. specialize (Hb st).
  destruct (body st) as [[a|e] st1]; simpl in *.
  - exact Hb.
  - destruct (catches e); simpl.
    + transitivity st1; [exact Hb | apply Hh].
    + exact Hb.
Qed.

Lemma preserves_for_each (A : Type) (l : list A) (body : A -> M unit) :
  (forall x, preserves R (body x)) -> preserves R (for_each l body).
Proof.
  intros Hb. induction l as [|x l IH]; simpl.
  - apply preserves_ret.
  - apply preserves_bind; [apply Hb | intros _; exact IH].
Qed.

End Preserves.

(** Walks through a computation along its structure; what is left are the
    statements that write to the state. *)
Ltac preserves_walk :=
  repeat first
    [ match goal with |- PreOrder _ => exact _ end
    | apply preserves_ret
    | apply preserves_raise
    | apply preserves_lift
    | apply preserves_gets
    | apply preserves_bind; [ | | intros ? ]
    | apply preserves_try_except; [ | | intros ? ]
    | apply preserves_for_each; [ | intros ? ]
    | match goal with
      | |- preserves _ (if ?b then _ else _) => destruct b
      | |- preserves _ (match ?x with _ => _ end) => destruct x
      | |- preserves _ (let _ := _ in _) => cbv zeta
      end ].

(** A statement that writes a component the relation does not look at. *)
Ltac same_write := intros ?; reflexivity.

(** A statement that leaves the cache as it is, or appends to it. *)
Ltac cache_write :=
  intros ?; simpl;
  first [ exists []; simpl; symmetry; apply app_nil_r
        | eexists; simpl; reflexivity ].

Lemma cache_extends_get_json_obj_from_url json_url :
  preserves cache_extends (get_json_obj_from_url json_url).
Proof. unfold get_json_obj_from_url. preserves_walk; cache_write. Qed.

Lemma cache_extends_get_media_info media_info_url :
  preserves cache_extends (get_media_info media_info_url).
Proof.
  unfold get_media_info. preserves_walk;
    try apply cache_extends_get_json_obj_from_url; cache_write.
Qed.

Lemma cache_extends_get_proper_date_time d fmt :
  preserves cache_extends (get_proper_date_time d fmt).
Proof. unfold get_proper_date_time. preserves_walk; cache_write. Qed.

Lemma cache_extends_get_media_loop channel_object elements rest :
  forall position,
    preserves cache_extends (get_media_loop channel_object elements position rest).
Proof.
  induction rest as [|media_element rest IH]; intros position; simpl.
  - apply preserves_ret. exact _.
  - apply preserves_bind; [ exact _ | | intros _; apply IH ].
    unfold get_media_loop_body. preserves_walk;
      try apply cache_extends_get_proper_date_time;
      try apply cache_extends_get_media_info; cache_write.
Qed.

Lemma cache_extends_get_media channel_object :
  preserves cache_extends (get_media channel_object).
Proof.
  unfold get_media. destruct (taChannels.scheduleUrl channel_object).
  - preserves_walk;
      try apply cache_extends_get_json_obj_from_url;
      try apply cache_extends_get_media_loop; cache_write.
  - unfold get_media_mock_body. preserves_walk;
      try apply cache_extends_get_proper_date_time; cache_write.
Qed.

Lemma cache_extends_adapt :
  preserves cache_extends adapt_media_objects_to_xmltv_object.
Proof.
  unfold adapt_media_objects_to_xmltv_object, adapt_media_object, build_programme,
    getattr, minus_one.
  preserves_walk; try apply cache_extends_get_proper_date_time; cache_write.
Qed.

Lemma cache_extends_get_channels CHANNELS :
  preserves cache_extends (get_channels CHANNELS).
Proof. unfold get_channels. preserves_walk; cache_write. Qed.

(** *** The episode cache *)

Lemma main_eq CHANNELS media_info_file st :
  main CHANNELS media_info_file st =
  (get_channels CHANNELS ;;
   for_each CHANNELS get_media ;;
   adapt_media_objects_to_xmltv_object) (loaded media_info_file st).
Proof. destruct media_info_file; reflexivity. Qed.

Lemma cache_extends_gathering CHANNELS :
  preserves cache_extends
    (get_channels CHANNELS ;;
     for_each CHANNELS get_media ;;
     adapt_media_objects_to_xmltv_object).
Proof.
  apply preserves_bind; [ exact _ | apply cache_extends_get_channels | intros _ ].
  apply preserves_bind; [ exact _ | | intros _; apply cache_extends_adapt ].
  apply preserves_for_each; [ exact _ | apply cache_extends_get_media ].
Qed.

(** A request for a key that is in the cache: nothing is fetched and the
    cache is as before. *)
Lemma get_media_info_hit media_info_url st :
  cached media_info_url st = true ->
  get_media_info media_info_url st =
  (Ok tt,
   with_LOG st
     (LOG st ++ [{| levelname := DEBUG;
                    message := Msg_checking_mediaInfo media_info_url |}])).
Proof.
  unfold cached. intros H. unfold get_media_info, bind. simpl.
  rewrite H. reflexivity.
Qed.

(** C3: enriching a key that has a cache entry fetches nothing and leaves
    the cache unchanged; enrichment and the whole run only append to the
    cache, so a stored entry is neither overwritten nor evicted. *)
Theorem get_media_info_idempotent (media_info_url : string) (st : state)
  (CHANNELS : list taChannels.Element)
  (media_info_file : option (list mediaInfo.Element)) :
  (cached media_info_url st = true ->
   fst (get_media_info media_info_url st) = Ok tt /\
   requests (snd (get_media_info media_info_url st)) = requests st /\
   all_episodes (snd (get_media_info media_info_url st)) = all_episodes st) /\
  (exists tail,
     all_episodes (snd (get_media_info media_info_url st)) =
     all_episodes st ++ tail) /\
  (exists tail,
     all_episodes (snd (main CHANNELS media_info_file st)) =
     all_episodes (loaded media_info_file st) ++ tail).
Proof.
  split; [ | split ].
  - intros H. rewrite (get_media_info_hit _ _ H). repeat split.
  - apply cache_extends_get_media_info.
  - rewrite main_eq. apply cache_extends_gathering.
Qed.

(** *** Failed fetches *)

Lemma get_json_obj_from_url_fails json_url st :
  fetch_fails json_url st ->
  exists failure,
    is_failure_record json_url failure /\
    get_json_obj_from_url json_url st =
    (Ok None, after_failed_fetch json_url failure st).
Proof.
  intros [H | (raw & H & Hlen)].
  - eexists. split; [left; reflexivity | ].
    unfold get_json_obj_from_url, try_except, bind, urlopen. simpl.
    rewrite H. simpl. unfold after_failed_fetch. simpl.
    rewrite <- app_assoc. reflexivity.
  - eexists. split; [right; reflexivity | ].
    unfold get_json_obj_from_url, try_except, bind, urlopen. simpl.
    rewrite H. rewrite Hlen. simpl. unfold after_failed_fetch. simpl.
    rewrite <- app_assoc. reflexivity.
Qed.

Lemma get_media_info_miss_fails json_url st :
  fetch_fails json_url st ->
  cached json_url st = false ->
  exists st',
    get_media_info json_url st = (Ok tt, st') /\
    all_episodes st' = all_episodes st /\
    requests st' = requests st ++ [json_url].
Proof.
  intros Hfail Hmiss. unfold cached in Hmiss.
  unfold get_media_info, bind at 1. simpl. unfold bind at 1. simpl.
  rewrite Hmiss. simpl. unfold bind at 1. simpl. unfold bind at 1.
  match goal with
  | |- context [get_json_obj_from_url json_url ?s] =>
      destruct (@get_json_obj_from_url_fails json_url s Hfail)
        as (failure & _ & Hrun)
  end.
  rewrite Hrun. eexists. repeat split.
Qed.

(** C5 (amended): a fetch that meets a connection error or an empty body is
    logged and gives no data, without raising; the metadata request then
    returns normally and creates no cache entry, so the key is still
    uncached and the next request for it is made again; the schedule
    request then returns normally, logs the missing schedule and gathers
    nothing. *)
Theorem failed_fetch_is_empty_source (json_url : string) (st : state) :
  fetch_fails json_url st ->
  (exists failure,
     is_failure_record json_url failure /\
     get_json_obj_from_url json_url st =
     (Ok None, after_failed_fetch json_url failure st)) /\
  (cached json_url st = false ->
   fst (get_media_info json_url st) = Ok tt /\
   all_episodes (snd (get_media_info json_url st)) = all_episodes st /\
   cached json_url (snd (get_media_info json_url st)) = false /\
   requests (snd (get_media_info json_url st)) = requests st ++ [json_url]) /\
  (forall channel_object,
     taChannels.scheduleUrl channel_object <> None ->
     getScheduleUrl channel_object GUIDE_ITEMS_PER_CHANNEL = json_url ->
     fst (get_media channel_object st) = Ok tt /\
     MEDIA_GUIDE_OBJECT (snd (get_media channel_object st)) = MEDIA_GUIDE_OBJECT st /\
     TV_OBJECT_programme (snd (get_media channel_object st)) = TV_OBJECT_programme st /\
     all_episodes (snd (get_media channel_object st)) = all_episodes st /\
     In {| levelname := ERROR; message := Msg_no_media_info json_url |}
        (LOG (snd (get_media channel_object st)))).
Proof.
  intros Hfail. split; [ | split ].
  - apply get_json_obj_from_url_fails. exact Hfail.
  - intros Hmiss.
    destruct (get_media_info_miss_fails Hfail Hmiss)
      as (st' & Hrun & Hsame & Hreq).
    rewrite Hrun. simpl. split; [reflexivity | ]. split; [exact Hsame | ].
    split; [ | exact Hreq ].
    unfold cached in *. rewrite Hsame. exact Hmiss.
  - intros channel_object Hsched Hurl. unfold get_media.
    destruct (taChannels.scheduleUrl channel_object) as [u|]; [ | congruence ].
    rewrite Hurl.
    destruct (get_json_obj_from_url_fails Hfail) as (failure & _ & Hrun).
    rewrite (bind_Ok _ Hrun). simpl. repeat split.
    apply in_or_app. right. left. reflexivity.
Qed.

(** *** The placeholder guide *)

(** The recurrence from [t] until one day later has 25 occurrences: both
    ends are in it. *)
Lemma rrule_HOURLY_one_day (t : datetime) :
  rrule_HOURLY t (t + timedelta_days 1)%Z =
  map (fun k => (t + timedelta_hours (Z.of_nat k))%Z) (seq 0 25).
Proof.
  unfold rrule_HOURLY.
  replace (t + timedelta_days 1 - t)%Z with (timedelta_days 1) by lia.
  reflexivity.
Qed.

Lemma get_media_mock_body_run channel_object block st :
  exists st',
    get_media_mock_body channel_object block st = (Ok tt, st') /\
    TV_OBJECT_programme st' = TV_OBJECT_programme st ++ [mock_block channel_object block] /\
    MEDIA_GUIDE_OBJECT st' = MEDIA_GUIDE_OBJECT st /\
    all_episodes st' = all_episodes st /\
    requests st' = requests st.
Proof. eexists. repeat split. Qed.

Lemma for_each_mock_run channel_object blocks :
  forall st,
  exists st',
    for_each blocks (get_media_mock_body channel_object) st = (Ok tt, st') /\
    TV_OBJECT_programme st' =
      TV_OBJECT_programme st ++ map (mock_block channel_object) blocks /\
    MEDIA_GUIDE_OBJECT st' = MEDIA_GUIDE_OBJECT st /\
    all_episodes st' = all_episodes st /\
    requests st' = requests st.
Proof.
  induction blocks as [|block blocks IH]; intros st.
  - exists st. simpl. rewrite app_nil_r. repeat split.
  - destruct (get_media_mock_body_run channel_object block st)
      as (st1 & Hrun & Htv & Hmedia & Hcache & Hreq).
    destruct (IH st1) as (st2 & Hrun2 & Htv2 & Hmedia2 & Hcache2 & Hreq2).
    exists st2. simpl for_each. rewrite (bind_Ok _ Hrun). split; [exact Hrun2 | ].
    rewrite Htv2, Htv, Hmedia2, Hmedia, Hcache2, Hcache, Hreq2, Hreq.
    rewrite <- app_assoc. repeat split.
Qed.

(** C2 (what the code does): for a channel with no schedule URL, [get_media]
    appends 25 placeholder programmes, one for each hour from the top of the
    current hour up to and including the same hour of the next day; each is
    titled with the channel's display name and ends where the next starts;
    nothing is fetched, and neither the normalized entries nor the cache
    change. *)
Theorem get_media_mock_guide (channel_object : taChannels.Element) (st : state) :
  taChannels.scheduleUrl channel_object = None ->
  let _start_time :=
    replace_minute_second_microsecond_0 (datetime_now (clock_reads st)) in
  let blocks :=
    map (fun k => (_start_time + timedelta_hours (Z.of_nat k))%Z) (seq 0 25) in
  exists st',
    get_media channel_object st = (Ok tt, st') /\
    TV_OBJECT_programme st' =
      TV_OBJECT_programme st ++ map (mock_block channel_object) blocks /\
    length (map (mock_block channel_object) blocks) = 25 /\
    (forall block,
       xmltv.title (mock_block channel_object block) =
         [ {| xmltv.content := [Some (taChannels.displayName channel_object)];
              xmltv.lang := Some (taChannels.lang channel_object) |} ] /\
       xmltv.channel (mock_block channel_object block) =
         Some (taChannels.id channel_object)) /\
    (forall k,
       xmltv.stop (mock_block channel_object
                     (_start_time + timedelta_hours (Z.of_nat k))%Z) =
       xmltv.start (mock_block channel_object
                      (_start_time + timedelta_hours (Z.of_nat (S k)))%Z)) /\
    MEDIA_GUIDE_OBJECT st' = MEDIA_GUIDE_OBJECT st /\
    all_episodes st' = all_episodes st /\
    requests st' = requests st.
Proof.
  intros Hnone _start_time blocks.
  set (st1 := with_clock_reads st (S (clock_reads st))).
  set (st2 := with_LOG st1 (LOG st1 ++
         [{| levelname := DEBUG;
             message := Msg_mock_guide (taChannels.displayName channel_object)
                          _start_time (_start_time + timedelta_days 1)%Z |}])).
  destruct (for_each_mock_run channel_object blocks st2)
    as (st' & Hrun & Htv & Hmedia & Hcache & Hreq).
  exists st'. split; [ | split; [ | split; [ | split; [ | split ] ] ] ].
  - unfold get_media. rewrite Hnone.
    unfold bind, now. simpl. fold _start_time.
    rewrite rrule_HOURLY_one_day. exact Hrun.
  - exact Htv.
  - reflexivity.
  - intros block. split; reflexivity.
  - intros k. unfold mock_block, mock_programme. cbn [xmltv.stop xmltv.start].
    do 2 f_equal. unfold timedelta_hours. lia.
  - repeat split; assumption.
Qed.

(** *** Guide assembly *)

#[local] Instance programme_extends_PreOrder : PreOrder programme_extends.
Proof.
  split.
  - intros st. exists []. symmetry. apply app_nil_r.
  - intros a b c [t1 H1] [t2 H2]. exists (t1 ++ t2).
    rewrite H2, H1. symmetry. apply app_assoc.
Qed.

Ltac programme_write :=
  intros ?; simpl;
  first [ exists []; simpl; symmetry; apply app_nil_r
        | eexists; simpl; reflexivity ].

Lemma adapt_media_object_eq media_object st :
  adapt_media_object media_object st =
  try_except
    (p <- build_programme media_object
            (find_media_info (all_episodes st) media_object) ;;
     TV_OBJECT_programme_append p)
    is_AttributeError
    (fun attributeException =>
       LOGGER_error
         (Msg_unable_to_add media_object
            (find_media_info (all_episodes st) media_object) attributeException))
    (after_lookup media_object st).
Proof.
  unfold adapt_media_object, after_lookup, bind at 1. simpl.
  destruct (find_media_info (all_episodes st) media_object); reflexivity.
Qed.

Lemma build_programme_same (X : Type) (f : state -> X) media_object media_info_object :
  (forall st v, f (with_LOG st v) = f st) ->
  preserves (same f) (build_programme media_object media_info_object).
Proof.
  intros Hlog.
  unfold build_programme, get_proper_date_time, getattr, minus_one.
  preserves_walk; intros ?; apply Hlog.
Qed.

Lemma is_AttributeError_true e : is_AttributeError e = true -> e = AttributeError.
Proof. destruct e; simpl; intros H; congruence. Qed.

Lemma adapt_media_object_no_AttributeError media_object st :
  fst (adapt_media_object media_object st) <> Raise AttributeError.
Proof.
  rewrite adapt_media_object_eq. unfold try_except.
  match goal with |- context [bind ?c ?k ?s] => destruct (bind c k s) as [[u|e] st1] end.
  - discriminate.
  - destruct (is_AttributeError e) eqn:E.
    + discriminate.
    + simpl. intros H. inversion H. subst e. discriminate E.
Qed.

Lemma for_each_adapt_no_AttributeError l :
  forall st, fst (for_each l adapt_media_object st) <> Raise AttributeError.
Proof.
  induction l as [|m l IH]; intros st; simpl.
  - discriminate.
  - unfold bind. pose proof (adapt_media_object_no_AttributeError m st) as Hm.
    destruct (adapt_media_object m st) as [[u|e] st1]; simpl in *.
    + apply IH.
    + exact Hm.
Qed.

Lemma programme_extends_adapt_media_object media_object :
  preserves programme_extends (adapt_media_object media_object).
Proof.
  unfold adapt_media_object, build_programme, get_proper_date_time, getattr, minus_one.
  preserves_walk; programme_write.
Qed.

(** Reading the list inside a missing genre, producer or writer record is
    such a failure. *)
Lemma build_programme_missing_field media_object mi st :
  mediaInfo.genres mi = None \/
  mediaInfo.productionCo mi = None \/
  mediaInfo.creators mi = None ->
  fst (build_programme media_object (Some mi) st) = Raise AttributeError.
Proof.
  unfold build_programme, bind, getattr. intros H.
  destruct (mediaInfo.genres mi) as [g|]; [ | reflexivity ].
  destruct (mediaInfo.productionCo mi) as [pc|]; [ | reflexivity ].
  destruct (mediaInfo.creators mi) as [cr|]; [ | reflexivity ].
  destruct H as [H | [H | H]]; discriminate H.
Qed.

(** *** Normalization of a schedule *)

Lemma full_query_url_ext base title a b :
  media.info a = media.info b ->
  media.episodeNumber a = media.episodeNumber b ->
  full_query_url base title a = full_query_url base title b.
Proof. unfold full_query_url. intros -> ->. reflexivity. Qed.

Lemma get_media_info_same (X : Type) (f : state -> X) media_info_url :
  (forall st v, f (with_LOG st v) = f st) ->
  (forall st v, f (with_requests st v) = f st) ->
  (forall st v, f (with_all_episodes st v) = f st) ->
  preserves (same f) (get_media_info media_info_url).
Proof.
  intros Hlog Hreq Hcache. unfold get_media_info, get_json_obj_from_url.
  preserves_walk; intros ?; unfold same; simpl;
    rewrite ?Hlog, ?Hreq, ?Hcache, ?Hlog; reflexivity.
Qed.

Lemma set_stopDate_self e : e = media.set_stopDate e (media.stopDate e).
Proof. destruct e; reflexivity. Qed.

(** The first statement of the loop body: the stop time. *)
Lemma stop_stage_Ok channel_object elements i e st a st0 :
  (if (Z.of_nat i <? Z.of_nat (length elements) - 1)%Z then
     match nth_error elements (i + 1) with
     | None => raise IndexError
     | Some next =>
         stop <- get_proper_date_time
                   (DateStr (py_str (media.startDate next)
                             @@ taChannels.offset channel_object))
                   _NEW_DATE_FORMAT ;;
         ret (media.set_stopDate e stop)
     end
   else ret e) st = (Ok a, st0) ->
  (exists stop,
     a = media.set_stopDate e stop /\
     match nth_error elements (S i) with
     | Some next => adjusted_start channel_object next = Ok stop
     | None => stop = media.stopDate e
     end) /\
  TV_OBJECT_programme st0 = TV_OBJECT_programme st /\
  MEDIA_GUIDE_OBJECT st0 = MEDIA_GUIDE_OBJECT st /\
  requests st0 = requests st /\
  all_episodes st0 = all_episodes st.
Proof.
  rewrite Nat.add_1_r.
  destruct (Z.of_nat i <? Z.of_nat (length elements) - 1)%Z eqn:Hguard.
  - destruct (nth_error elements (S i)) as [next|]; intros H.
    + inv_run H. rewrite get_proper_date_time_eq in Hrun.
      injection Hrun as Hstop Hst. apply ret_inv in H. destruct H as [<- <-].
      subst st1. split; [ | repeat split ].
      exists a0. split; [reflexivity | exact Hstop].
    + discriminate H.
  - intros H. apply ret_inv in H. destruct H as [<- <-].
    assert (Hnone : nth_error elements (S i) = None).
    { apply nth_error_None. apply Z.ltb_ge in Hguard. lia. }
    rewrite Hnone. split; [ | repeat split ].
    exists (media.stopDate e). split; [apply set_stopDate_self | reflexivity].
Qed.

Lemma resolve_name_fields e :
  media.name (resolve_name e) = resolved_title e /\
  media.startDate (resolve_name e) = media.startDate e /\
  media.stopDate (resolve_name e) = media.stopDate e /\
  media.blockName (resolve_name e) = media.blockName e /\
  media.episodeNumber (resolve_name e) = media.episodeNumber e /\
  media.info (resolve_name e) = media.info e /\
  media.queryUrl (resolve_name e) = media.queryUrl e /\
  media.lang (resolve_name e) = media.lang e /\
  media.channelUrl (resolve_name e) = media.channelUrl e /\
  media.channel (resolve_name e) = media.channel e.
Proof.
  unfold resolve_name, resolved_title.
  destruct e as [sd st nm bn en inf q l cu c]; simpl.
  destruct nm, bn; simpl; repeat split.
Qed.

Lemma get_media_loop_body_Ok channel_object elements i e st st' :
  get_media_loop_body channel_object elements i e st = (Ok tt, st') ->
  exists out,
    MEDIA_GUIDE_OBJECT st' = MEDIA_GUIDE_OBJECT st ++ [out] /\
    TV_OBJECT_programme st' = TV_OBJECT_programme st /\
    normalized channel_object elements i e out /\
    (resolved_title e = None ->
     requests st' = requests st /\ all_episodes st' = all_episodes st).
Proof.
  unfold get_media_loop_body. intros H. inv_run H.
  apply stop_stage_Ok in Hrun.
  destruct Hrun as ((stop & Ha & Hstop) & Htv & Hmedia & Hreq & Hcache).
  unfold MEDIA_GUIDE_OBJECT_append in H. injection H as <-.
  destruct (resolve_name_fields a)
    as (Hname & Hstart & Hstop' & Hblock & Hep & Hinfo & Hq & Hlang & Hcu & Hch).
  assert (Htitle : resolved_title a = resolved_title e) by (subst a; reflexivity).
  rewrite Htitle in Hname.
  exists a0. simpl.
  assert (Hstopa : media.stopDate (resolve_name a) = stop)
    by (rewrite Hstop'; subst a; reflexivity).
  assert (Hfields :
            media.startDate (resolve_name a) = media.startDate e /\
            media.blockName (resolve_name a) = media.blockName e /\
            media.episodeNumber (resolve_name a) = media.episodeNumber e /\
            media.info (resolve_name a) = media.info e /\
            media.queryUrl (resolve_name a) = media.queryUrl e /\
            media.lang (resolve_name a) = media.lang e /\
            media.channelUrl (resolve_name a) = media.channelUrl e /\
            media.channel (resolve_name a) = media.channel e).
  { rewrite Hstart, Hblock, Hep, Hinfo, Hq, Hlang, Hcu, Hch. subst a.
    repeat split. }
  destruct Hfields as (Fstart & Fblock & Fep & Finfo & Fq & Flang & Fcu & Fch).
  assert (Hstop2 : match nth_error elements (S i) with
                   | Some next =>
                       adjusted_start channel_object next =
                       Ok (media.stopDate (resolve_name a))
                   | None => media.stopDate (resolve_name a) = media.stopDate e
                   end).
  { rewrite Hstopa. exact Hstop. }
  clear Hstop Hstop' Hstopa Hstart Hblock Hep Hinfo Hq Hlang Hcu Hch Ha Htitle.
  generalize dependent (resolve_name a). intros r Hrun0 Hname.
  intros Fstart Fblock Fep Finfo Fq Flang Fcu Fch Hstop2.
  unfold normalized. rewrite Hname in Hrun0.
  destruct (resolved_title e) as [title|] eqn:Etitle.
  - destruct (taChannels.episodeQueryUrl channel_object) as [base|] eqn:Ebase;
      [ | discriminate Hrun0 ].
    inv_run Hrun0. rewrite get_proper_date_time_eq in Hrun.
    injection Hrun as Hstart Hst. apply ret_inv in Hrun0.
    destruct Hrun0 as [<- <-].
    pose proof (@get_media_info_same _ TV_OBJECT_programme
                  (full_query_url base title r)
                  (fun _ _ => eq_refl) (fun _ _ => eq_refl) (fun _ _ => eq_refl) st2)
      as Ktv.
    pose proof (@get_media_info_same _ MEDIA_GUIDE_OBJECT
                  (full_query_url base title r)
                  (fun _ _ => eq_refl) (fun _ _ => eq_refl) (fun _ _ => eq_refl) st2)
      as Kmedia.
    unfold same in Ktv, Kmedia. rewrite Hrun1 in Ktv, Kmedia. simpl in Ktv, Kmedia.
    subst st2. simpl in Ktv, Kmedia.
    split; [ rewrite Kmedia, Hmedia; reflexivity | ].
    split; [ rewrite Ktv, Htv; reflexivity | ].
    split; [ | discriminate ].
    simpl. split; [ exact Hstop2 | ].
    repeat split; try assumption.
    + unfold adjusted_start. rewrite <- Fstart. exact Hstart.
    + exists base. split; [reflexivity | ]. f_equal.
      apply full_query_url_ext; assumption.
  - apply ret_inv in Hrun0. destruct Hrun0 as [<- <-].
    split; [ rewrite Hmedia; reflexivity | ].
    split; [ exact Htv | ].
    split; [ | intros _; split; assumption ].
    repeat split; assumption.
Qed.

Lemma get_media_loop_Ok channel_object elements rest :
  forall i st st',
    get_media_loop channel_object elements i rest st = (Ok tt, st') ->
    exists outs,
      MEDIA_GUIDE_OBJECT st' = MEDIA_GUIDE_OBJECT st ++ outs /\
      TV_OBJECT_programme st' = TV_OBJECT_programme st /\
      normalized_from channel_object elements i rest outs.
Proof.
  induction rest as [|e rest IH]; intros i st st' H; simpl in H.
  - apply ret_inv in H. destruct H as [_ <-]. exists [].
    rewrite app_nil_r. repeat split. constructor.
  - inv_run H. destruct a. rewrite Nat.add_1_r in H.
    apply get_media_loop_body_Ok in Hrun.
    destruct Hrun as (out & Hmedia & Htv & Hnorm & _).
    apply IH in H. destruct H as (outs & Hmedia' & Htv' & Hnorms).
    exists (out :: outs). rewrite Hmedia', Hmedia, Htv', Htv, <- app_assoc.
    repeat split. constructor; assumption.
Qed.

Lemma normalized_from_length channel_object elements i rest outs :
  normalized_from channel_object elements i rest outs ->
  length outs = length rest.
Proof. induction 1; simpl; congruence. Qed.

Lemma normalized_from_nth channel_object elements i rest outs :
  normalized_from channel_object elements i rest outs ->
  forall k e,
    nth_error rest k = Some e ->
    exists out,
      nth_error outs k = Some out /\
      normalized channel_object elements (i + k) e out.
Proof.
  induction 1 as [i | i e0 rest out outs Hn Hrest IH]; intros k e Hk.
  - destruct k; discriminate Hk.
  - destruct k as [|k]; simpl in Hk.
    + injection Hk as <-. exists out. rewrite Nat.add_0_r. split; [reflexivity | exact Hn].
    + destruct (IH k e Hk) as (o & Ho & Hno). exists o.
      rewrite Nat.add_succ_r. split; [exact Ho | exact Hno].
Qed.

Lemma get_json_obj_from_url_Ok json_url st raw_data j :
  urlopen_read (length (requests st)) json_url = Ok raw_data ->
  String.length raw_data <> 0 ->
  json_loads raw_data = Ok j ->
  exists st1,
    get_json_obj_from_url json_url st = (Ok (Some [j]), st1) /\
    MEDIA_GUIDE_OBJECT st1 = MEDIA_GUIDE_OBJECT st /\
    TV_OBJECT_programme st1 = TV_OBJECT_programme st /\
    all_episodes st1 = all_episodes st.
Proof.
  intros Hread Hlen Hjson.
  unfold get_json_obj_from_url, try_except, bind, urlopen. simpl.
  rewrite Hread. apply Nat.eqb_neq in Hlen. rewrite Hlen. simpl.
  unfold lift. rewrite Hjson. simpl. eexists. repeat split.
Qed.

Lemma get_media_fetched channel_object st elements :
  taChannels.scheduleUrl channel_object <> None ->
  fetched_schedule channel_object st elements ->
  exists st1,
    get_media channel_object st =
      get_media_loop channel_object elements 0 elements st1 /\
    MEDIA_GUIDE_OBJECT st1 = MEDIA_GUIDE_OBJECT st /\
    TV_OBJECT_programme st1 = TV_OBJECT_programme st /\
    all_episodes st1 = all_episodes st.
Proof.
  intros Hsched (raw_data & j & Hread & Hlen & Hjson & Hdecode).
  unfold get_media.
  destruct (taChannels.scheduleUrl channel_object) as [u|]; [ | congruence ].
  destruct (get_json_obj_from_url_Ok _ Hread Hlen Hjson)
    as (st1 & Hrun & Hmedia & Htv & Hcache).
  rewrite (bind_Ok _ Hrun).
  unfold bind at 1. simpl. unfold bind at 1. unfold lift. rewrite Hdecode.
  unfold bind at 1. simpl.
  eexists. split; [reflexivity | ]. simpl. repeat split; assumption.
Qed.

(** C1: when the schedule of a channel is fetched and decodes to [elements],
    none of which carries a stop time, a run of [get_media] that returns
    appends one entry per decoded entry, in order; the stop time of entry
    [i] is the start time of decoded entry [i + 1] followed by the channel's
    offset and reformatted, which is also the start time of appended entry
    [i + 1] when that entry has a title; and the last entry has no stop
    time. *)
Theorem stop_is_next_start (channel_object : taChannels.Element)
  (elements : list media.Element) (st st' : state) :
  taChannels.scheduleUrl channel_object <> None ->
  fetched_schedule channel_object st elements ->
  Forall (fun e => media.stopDate e = None) elements ->
  get_media channel_object st = (Ok tt, st') ->
  exists outs,
    MEDIA_GUIDE_OBJECT st' = MEDIA_GUIDE_OBJECT st ++ outs /\
    length outs = length elements /\
    (forall i next,
       nth_error elements (S i) = Some next ->
       exists out,
         nth_error outs i = Some out /\
         adjusted_start channel_object next = Ok (media.stopDate out) /\
         forall out',
           nth_error outs (S i) = Some out' ->
           media.name out' <> None ->
           media.startDate out' = media.stopDate out) /\
    (forall out,
       nth_error outs (length elements - 1) = Some out ->
       media.stopDate out = None).
Proof.
  intros Hsched Hfetched Hraw Hrun.
  destruct (get_media_fetched Hsched Hfetched) as (st1 & Heq & Hmedia & _ & _).
  rewrite Heq in Hrun. apply get_media_loop_Ok in Hrun.
  destruct Hrun as (outs & Hmedia' & _ & Hnorm).
  exists outs. rewrite Hmedia', Hmedia.
  pose proof (normalized_from_length Hnorm) as Hlen.
  pose proof (normalized_from_nth Hnorm) as Hnth. simpl in Hnth.
  split; [reflexivity | ]. split; [exact Hlen | ]. split.
  - intros i next Hnext.
    assert (Hi : i < length elements).
    { apply Nat.lt_succ_l. apply nth_error_Some. congruence. }
    destruct (nth_error elements i) as [e|] eqn:He;
      [ | apply nth_error_None in He; lia ].
    destruct (Hnth i e He) as (out & Hout & Hn).
    exists out. split; [exact Hout | ].
    destruct Hn as (Hstop & _). rewrite Hnext in Hstop.
    split; [exact Hstop | ].
    intros out' Hout' Htitled.
    destruct (Hnth (S i) next Hnext) as (o & Ho & Hn').
    rewrite Hout' in Ho. injection Ho as <-.
    destruct Hn' as (_ & Hname & _ & _ & _ & Hstart).
    rewrite Hname in Htitled.
    destruct (resolved_title next) as [title|]; [ | contradiction ].
    destruct Hstart as (Hstart & _). rewrite Hstop in Hstart.
    injection Hstart as Hstart. symmetry. exact Hstart.
  - intros out Hout.
    destruct (nth_error elements (length elements - 1)) as [e|] eqn:He.
    + destruct (Hnth _ e He) as (o & Ho & Hn).
      rewrite Hout in Ho. injection Ho as <-.
      destruct Hn as (Hstop & _).
      assert (Hnone : nth_error elements (S (length elements - 1)) = None).
      { apply nth_error_None. lia. }
      rewrite Hnone in Hstop. rewrite Hstop.
      rewrite Forall_forall in Hraw. apply Hraw.
      eapply nth_error_In. exact He.
    + apply nth_error_None in He.
      assert (Ho : nth_error outs (length elements - 1) = None).
      { apply nth_error_None. lia. }
      congruence.
Qed.

(** *** Entries without a title *)

Lemma find_media_info_no_key episodes media_object :
  media.queryUrl media_object = None ->
  Forall (fun element => mediaInfo.queryUrl element <> None) episodes ->
  find_media_info episodes media_object = None.
Proof.
  intros Hkey Hkeyed. unfold find_media_info. rewrite Hkey.
  induction Hkeyed as [|element episodes Hel _ IH]; simpl.
  - reflexivity.
  - destruct (mediaInfo.queryUrl element); [exact IH | contradiction].
Qed.

(** A programme with no metadata match is always emitted. *)
Lemma adapt_media_object_no_info media_object st :
  find_media_info (all_episodes st) media_object = None ->
  exists p,
    adapt_media_object media_object st =
      (Ok tt, with_TV_OBJECT_programme st (TV_OBJECT_programme st ++ [p])) /\
    xmltv.start p = media.startDate media_object /\
    xmltv.stop p = media.stopDate media_object /\
    xmltv.channel p = media.channel media_object /\
    xmltv.category p = None /\
    xmltv.desc p = None.
Proof.
  intros Hfind. rewrite adapt_media_object_eq. unfold after_lookup.
  rewrite Hfind. unfold try_except, bind, build_programme, ret. simpl.
  eexists. split; [reflexivity | ]. repeat split.
Qed.

(** C8: the entry appended for a decoded entry has as its name the decoded
    [name] when present, else the decoded [blockName].  When neither is
    present the appended entry keeps the key it was decoded with, nothing is
    fetched and the cache is unchanged; and the assembly step emits a
    programme for it whenever it has no key and every cache record has
    one. *)
Theorem untitled_entry_is_emitted (channel_object : taChannels.Element)
  (elements : list media.Element) (i : nat) (e : media.Element)
  (st st' : state) :
  get_media_loop_body channel_object elements i e st = (Ok tt, st') ->
  exists out,
    MEDIA_GUIDE_OBJECT st' = MEDIA_GUIDE_OBJECT st ++ [out] /\
    media.name out =
      match media.name e with
      | Some n => Some n
      | None => media.blockName e
      end /\
    (media.name e = None ->
     media.blockName e = None ->
     media.name out = None /\
     media.queryUrl out = media.queryUrl e /\
     requests st' = requests st /\
     all_episodes st' = all_episodes st /\
     forall st2,
       media.queryUrl e = None ->
       Forall (fun element => mediaInfo.queryUrl element <> None) (all_episodes st2) ->
       exists p,
         adapt_media_object out st2 =
           (Ok tt, with_TV_OBJECT_programme st2 (TV_OBJECT_programme st2 ++ [p])) /\
         xmltv.start p = media.startDate e /\
         xmltv.stop p = media.stopDate out).
Proof.
  intros Hrun. apply get_media_loop_body_Ok in Hrun.
  destruct Hrun as (out & Hmedia & _ & Hnorm & Hquiet).
  destruct Hnorm as (_ & Hname & _ & _ & _ & Hrest).
  exists out. split; [exact Hmedia | ]. split; [exact Hname | ].
  intros Hn Hb.
  assert (Htitle : resolved_title e = None).
  { unfold resolved_title. rewrite Hn. exact Hb. }
  rewrite Htitle in Hrest, Hname.
  destruct Hrest as (Hstart & _ & _ & _ & Hkey).
  destruct (Hquiet Htitle) as (Hreq & Hcache).
  repeat (split; [assumption | ]).
  intros st2 Hnokey Hkeyed.
  assert (Hfind : find_media_info (all_episodes st2) out = None).
  { apply find_media_info_no_key; [congruence | exact Hkeyed]. }
  destruct (adapt_media_object_no_info _ _ Hfind) as (p & Hrun & Hs & Hstop & _).
  exists p. split; [exact Hrun | ]. split; [congruence | exact Hstop].
Qed.

(** *** Components that a computation leaves alone *)

Lemma get_json_obj_from_url_same (X : Type) (f : state -> X) json_url :
  (forall st v, f (with_LOG st v) = f st) ->
  (forall st v, f (with_requests st v) = f st) ->
  preserves (same f) (get_json_obj_from_url json_url).
Proof.
  intros Hlog Hreq. unfold get_json_obj_from_url.
  preserves_walk; intros ?; unfold same; simpl; rewrite ?Hlog, ?Hreq; reflexivity.
Qed.

Lemma get_channels_same (X : Type) (f : state -> X) CHANNELS :
  (forall st v, f (with_LOG st v) = f st) ->
  (forall st v, f (with_TV_OBJECT_channel st v) = f st) ->
  preserves (same f) (get_channels CHANNELS).
Proof.
  intros Hlog Hch. unfold get_channels.
  preserves_walk; intros ?; unfold same; simpl; rewrite ?Hlog, ?Hch; reflexivity.
Qed.

(** *** The keys of the cache *)

#[local] Instance keeps_cache_keys_PreOrder : PreOrder keeps_cache_keys.
Proof.
  split.
  - intros st H. exact H.
  - intros a b c Hab Hbc H. apply Hbc, Hab, H.
Qed.

(** As [preserves_walk], with [leaf] tried first on every computation. *)
Ltac preserves_walk_using leaf :=
  repeat first
    [ match goal with |- PreOrder _ => exact _ end
    | leaf
    | apply preserves_ret
    | apply preserves_raise
    | apply preserves_lift
    | apply preserves_gets
    | apply preserves_bind; [ | | intros ? ]
    | apply preserves_try_except; [ | | intros ? ]
    | apply preserves_for_each; [ | intros ? ]
    | match goal with
      | |- preserves _ (if ?b then _ else _) => destruct b
      | |- preserves _ (match ?x with _ => _ end) => destruct x
      | |- preserves _ (let _ := _ in _) => cbv zeta
      end ].

Lemma option_string_eqb_eq (a b : option string) :
  option_string_eqb a b = true <-> a = b.
Proof.
  destruct a as [x|], b as [y|]; simpl; split; intros H;
    try reflexivity; try discriminate H.
  - apply String.eqb_eq in H. congruence.
  - injection H as ->. apply String.eqb_refl.
Qed.

Lemma cached_false_not_In key st :
  cached key st = false ->
  ~ In (Some key) (map mediaInfo.queryUrl (all_episodes st)).
Proof.
  unfold cached. induction (all_episodes st) as [|element l IH]; simpl.
  - intros _ [].
  - intros H. apply Bool.orb_false_iff in H. destruct H as [Hel Hl].
    intros [Heq | Hin].
    + apply option_string_eqb_eq in Heq. congruence.
    + exact (IH Hl Hin).
Qed.

Lemma cached_true_In key st :
  cached key st = true ->
  In (Some key) (map mediaInfo.queryUrl (all_episodes st)).
Proof.
  unfold cached. rewrite existsb_exists. intros (element & Hin & Heq).
  apply option_string_eqb_eq in Heq. rewrite <- Heq. apply in_map. exact Hin.
Qed.

Lemma keeps_cache_keys_get_media_info media_info_url :
  preserves keeps_cache_keys (get_media_info media_info_url).
Proof.
  intros st Hok. unfold get_media_info, bind at 1. simpl. unfold bind at 1. simpl.
  fold (cached media_info_url st).
  destruct (cached media_info_url st) eqn:Hcached; simpl; [exact Hok | ].
  unfold bind at 1. simpl. unfold bind at 1.
  match goal with
  | |- context [get_json_obj_from_url media_info_url ?s] =>
      pose proof (@get_json_obj_from_url_same _ all_episodes media_info_url
                    (fun _ _ => eq_refl) (fun _ _ => eq_refl) s) as Hsame;
      destruct (get_json_obj_from_url media_info_url s) as [[[obj|]|e] st1]
  end; unfold same in Hsame; simpl in Hsame; simpl.
  - unfold bind, lift. simpl.
    destruct (from_bytes_mediaInfo_Element obj) as [element|e]; simpl.
    + destruct Hok as [Hnodup Hkeyed]. unfold cache_keys_ok. simpl.
      rewrite Hsame. split.
      * rewrite map_app. apply NoDup_app.
        -- exact Hnodup.
        -- simpl. constructor; [intros [] | constructor].
        -- intros key Hin [Hkey | []]. simpl in Hkey. subst key.
           exact (cached_false_not_In _ _ Hcached Hin).
      * apply Forall_app. split; [exact Hkeyed | ].
        constructor; [simpl; discriminate | constructor].
    + unfold cache_keys_ok. simpl. rewrite Hsame. exact Hok.
  - unfold cache_keys_ok. simpl. rewrite Hsame. exact Hok.
  - unfold cache_keys_ok. simpl. rewrite Hsame. exact Hok.
Qed.

Ltac keys_write := intros ? ?; assumption.

Lemma keeps_cache_keys_get_media channel_object :
  preserves keeps_cache_keys (get_media channel_object).
Proof.
  assert (Hloop : forall elements rest position,
            preserves keeps_cache_keys
              (get_media_loop channel_object elements position rest)).
  { intros elements rest. induction rest as [|e rest IH]; intros position; simpl.
    - apply preserves_ret. exact _.
    - apply preserves_bind; [ exact _ | | intros _; apply IH ].
      unfold get_media_loop_body, get_proper_date_time.
      preserves_walk_using ltac:(apply keeps_cache_keys_get_media_info);
        keys_write. }
  unfold get_media, get_json_obj_from_url, get_media_mock_body, get_proper_date_time.
  preserves_walk_using ltac:(apply Hloop); keys_write.
Qed.

Lemma keeps_cache_keys_gathering CHANNELS :
  preserves keeps_cache_keys
    (get_channels CHANNELS ;;
     for_each CHANNELS get_media ;;
     adapt_media_objects_to_xmltv_object).
Proof.
  unfold get_channels, adapt_media_objects_to_xmltv_object, adapt_media_object,
    build_programme, get_proper_date_time, getattr, minus_one.
  preserves_walk_using ltac:(apply keeps_cache_keys_get_media); keys_write.
Qed.

(** X1: if every record of the cache that [main] starts with has a key and
    no two records share one, the same holds of the cache at the end of the
    run, however the run ends; so the lookup of the assembly finds at most
    one record for a key. *)
Theorem cache_keys_stay_unique (CHANNELS : list taChannels.Element)
  (media_info_file : option (list mediaInfo.Element)) (st : state) :
  cache_keys_ok (loaded media_info_file st) ->
  cache_keys_ok (snd (main CHANNELS media_info_file st)) /\
  forall key a b,
    In a (all_episodes (snd (main CHANNELS media_info_file st))) ->
    In b (all_episodes (snd (main CHANNELS media_info_file st))) ->
    mediaInfo.queryUrl a = Some key ->
    mediaInfo.queryUrl b = Some key ->
    a = b.
Proof.
  intros Hok.
  assert (Hend : cache_keys_ok (snd (main CHANNELS media_info_file st))).
  { rewrite main_eq. apply (@keeps_cache_keys_gathering CHANNELS). exact Hok. }
  split; [exact Hend | ].
  destruct Hend as [Hnodup _].
  intros key a b Ha Hb Hka Hkb.
  induction (all_episodes (snd (main CHANNELS media_info_file st)))
    as [|x l IH]; [contradiction | ].
  simpl in Hnodup. inversion Hnodup as [|k ks Hnotin Hrest]; subst.
  destruct Ha as [-> | Ha], Hb as [-> | Hb].
  - reflexivity.
  - exfalso. apply Hnotin. rewrite Hka, <- Hkb. apply in_map. exact Hb.
  - exfalso. apply Hnotin. rewrite Hkb, <- Hka. apply in_map. exact Ha.
  - apply IH; assumption.
Qed.

(** *** Enrichment and lookup *)

Lemma find_media_info_app_miss episodes record media_object key :
  media.queryUrl media_object = Some key ->
  ~ In (Some key) (map mediaInfo.queryUrl episodes) ->
  mediaInfo.queryUrl record = Some key ->
  find_media_info (episodes ++ [record]) media_object = Some record.
Proof.
  intros Hm Hnotin Hrec. unfold find_media_info. rewrite Hm.
  induction episodes as [|x l IH]; simpl.
  - rewrite Hrec. simpl. rewrite String.eqb_refl. reflexivity.
  - destruct (option_string_eqb (mediaInfo.queryUrl x) (Some key)) eqn:E.
    + apply option_string_eqb_eq in E. exfalso. apply Hnotin. left. exact E.
    + apply IH. intros Hin. apply Hnotin. right. exact Hin.
Qed.

Lemma get_media_info_stores media_info_url st element :
  cached media_info_url st = false ->
  fetched_media_info media_info_url st element ->
  exists st',
    get_media_info media_info_url st = (Ok tt, st') /\
    all_episodes st' =
      all_episodes st ++ [mediaInfo.set_queryUrl element (Some media_info_url)] /\
    requests st' = requests st ++ [media_info_url] /\
    TV_OBJECT_programme st' = TV_OBJECT_programme st /\
    MEDIA_GUIDE_OBJECT st' = MEDIA_GUIDE_OBJECT st.
Proof.
  intros Hmiss (raw_data & j & Hread & Hlen & Hjson & Hdecode).
  unfold cached in Hmiss.
  unfold get_media_info, bind at 1. simpl. unfold bind at 1. simpl.
  rewrite Hmiss. simpl. unfold bind at 1. simpl. unfold bind at 1.
  unfold get_json_obj_from_url, try_except, bind, urlopen. simpl.
  rewrite Hread. apply Nat.eqb_neq in Hlen. rewrite Hlen. simpl.
  unfold lift. rewrite Hjson. simpl. rewrite Hdecode. simpl.
  eexists. repeat split.
Qed.

(** X2: a metadata request for a key that the cache lacks, answered with a
    body that decodes, stores the decoded record under that key at the end
    of the cache; from then on the key is cached, the assembly's lookup of
    an entry with that key returns this record, and a second request for
    the key fetches nothing. *)
Theorem enriched_key_is_found (media_info_url : string) (st : state)
  (element : mediaInfo.Element) :
  cached media_info_url st = false ->
  fetched_media_info media_info_url st element ->
  let record := mediaInfo.set_queryUrl element (Some media_info_url) in
  exists st',
    get_media_info media_info_url st = (Ok tt, st') /\
    all_episodes st' = all_episodes st ++ [record] /\
    cached media_info_url st' = true /\
    (forall media_object,
       media.queryUrl media_object = Some media_info_url ->
       find_media_info (all_episodes st') media_object = Some record) /\
    fst (get_media_info media_info_url st') = Ok tt /\
    requests (snd (get_media_info media_info_url st')) = requests st' /\
    all_episodes (snd (get_media_info media_info_url st')) = all_episodes st'.
Proof.
  intros Hmiss Hfetched record.
  destruct (get_media_info_stores Hmiss Hfetched)
    as (st' & Hrun & Hcache & _ & _ & _).
  assert (Hcached : cached media_info_url st' = true).
  { unfold cached. rewrite Hcache, existsb_app. simpl.
    rewrite String.eqb_refl. rewrite Bool.orb_true_r. reflexivity. }
  exists st'. split; [exact Hrun | ]. split; [exact Hcache | ].
  split; [exact Hcached | ]. split.
  - intros media_object Hkey. rewrite Hcache.
    apply find_media_info_app_miss with (key := media_info_url).
    + exact Hkey.
    + apply cached_false_not_In. exact Hmiss.
    + reflexivity.
  - rewrite (get_media_info_hit _ _ Hcached). repeat split.
Qed.

(** *** The number of requests *)

Lemma get_json_obj_from_url_requests json_url st :
  requests (snd (get_json_obj_from_url json_url st)) = requests st ++ [json_url].
Proof.
  unfold get_json_obj_from_url, try_except, bind, urlopen. simpl.
  destruct (urlopen_read (length (requests st)) json_url) as [raw_data|e]; simpl.
  - destruct (String.length raw_data =? 0)%nat; simpl; [reflexivity | ].
    unfold lift. destruct (json_loads raw_data) as [j|e]; simpl.
    + reflexivity.
    + destruct (is_URLError e); reflexivity.
  - destruct (is_URLError e); reflexivity.
Qed.

Lemma get_media_info_requests media_info_url st :
  length (requests (snd (get_media_info media_info_url st))) <=
  length (requests st) + 1.
Proof.
  unfold get_media_info, bind at 1. simpl. unfold bind at 1. simpl.
  destruct (existsb _ (all_episodes st)); simpl; [lia | ].
  unfold bind at 1. simpl. unfold bind at 1.
  match goal with
  | |- context [get_json_obj_from_url media_info_url ?s] =>
      pose proof (get_json_obj_from_url_requests media_info_url s) as Hreq;
      destruct (get_json_obj_from_url media_info_url s) as [[[obj|]|e] st1]
  end; simpl in Hreq; simpl.
  - unfold bind, lift. simpl.
    destruct (from_bytes_mediaInfo_Element obj) as [element|e]; simpl;
      rewrite Hreq, length_app; simpl; lia.
  - rewrite Hreq, length_app. simpl. lia.
  - rewrite Hreq, length_app. simpl. lia.
Qed.

Lemma get_media_loop_body_requests channel_object elements i e st st' :
  get_media_loop_body channel_object elements i e st = (Ok tt, st') ->
  length (requests st') <= length (requests st) + 1.
Proof.
  unfold get_media_loop_body. intros H. inv_run H.
  apply stop_stage_Ok in Hrun. destruct Hrun as (_ & _ & _ & Hreq & _).
  unfold MEDIA_GUIDE_OBJECT_append in H. injection H as <-. simpl.
  destruct (media.name (resolve_name a)) as [name|].
  - destruct (taChannels.episodeQueryUrl channel_object) as [base|];
      [ | discriminate Hrun0 ].
    inv_run Hrun0. rewrite get_proper_date_time_eq in Hrun.
    injection Hrun as _ Hst. apply ret_inv in Hrun0. destruct Hrun0 as [_ <-].
    pose proof (get_media_info_requests
                  (full_query_url base name (resolve_name a)) st2) as Hinfo.
    rewrite Hrun1 in Hinfo. simpl in Hinfo. subst st2. simpl in Hinfo.
    rewrite <- Hreq. exact Hinfo.
  - apply ret_inv in Hrun0. destruct Hrun0 as [_ <-]. rewrite Hreq. lia.
Qed.

Lemma get_media_loop_requests channel_object elements rest :
  forall i st st',
    get_media_loop channel_object elements i rest st = (Ok tt, st') ->
    length (requests st') <= length (requests st) + length rest.
Proof.
  induction rest as [|e rest IH]; intros i st st' H; simpl in H.
  - apply ret_inv in H. destruct H as [_ <-]. simpl. lia.
  - inv_run H. destruct a. apply get_media_loop_body_requests in Hrun.
    apply IH in H. simpl. lia.
Qed.

Lemma get_media_no_schedule_run channel_object st :
  taChannels.scheduleUrl channel_object = None ->
  let _start_time :=
    replace_minute_second_microsecond_0 (datetime_now (clock_reads st)) in
  let blocks :=
    map (fun k => (_start_time + timedelta_hours (Z.of_nat k))%Z) (seq 0 25) in
  exists st',
    get_media channel_object st = (Ok tt, st') /\
    TV_OBJECT_programme st' =
      TV_OBJECT_programme st ++ map (mock_block channel_object) blocks /\
    MEDIA_GUIDE_OBJECT st' = MEDIA_GUIDE_OBJECT st /\
    all_episodes st' = all_episodes st /\
    requests st' = requests st.
Proof.
  intros Hnone _start_time blocks.
  set (st1 := with_clock_reads st (S (clock_reads st))).
  set (st2 := with_LOG st1 (LOG st1 ++
         [{| levelname := DEBUG;
             message := Msg_mock_guide (taChannels.displayName channel_object)
                          _start_time (_start_time + timedelta_days 1)%Z |}])).
  destruct (for_each_mock_run channel_object blocks st2)
    as (st' & Hrun & Htv & Hmedia & Hcache & Hreq).
  exists st'. split; [ | repeat split; assumption ].
  unfold get_media. rewrite Hnone.
  unfold bind, now. simpl. fold _start_time.
  rewrite rrule_HOURLY_one_day. exact Hrun.
Qed.

Lemma get_media_requests channel_object st st' :
  get_media channel_object st = (Ok tt, st') ->
  length (requests st') + length (MEDIA_GUIDE_OBJECT st) <=
  length (requests st) + (if has_schedule channel_object then 1 else 0) +
  length (MEDIA_GUIDE_OBJECT st').
Proof.
  intros Hrun. unfold has_schedule.
  destruct (taChannels.scheduleUrl channel_object) as [u|] eqn:Hsched.
  - revert Hrun. unfold get_media. rewrite Hsched. intros H. inv_run H.
    pose proof (get_json_obj_from_url_requests
                  (getScheduleUrl channel_object GUIDE_ITEMS_PER_CHANNEL) st) as Hreq.
    pose proof (@get_json_obj_from_url_same _ MEDIA_GUIDE_OBJECT
                  (getScheduleUrl channel_object GUIDE_ITEMS_PER_CHANNEL)
                  (fun _ _ => eq_refl) (fun _ _ => eq_refl) st) as Hmedia.
    unfold same in Hmedia. rewrite Hrun in Hreq, Hmedia. simpl in Hreq, Hmedia.
    destruct a as [obj|].
    + inv_run H. apply LOGGER_log_inv in Hrun0. apply lift_inv in Hrun1.
      destruct Hrun1 as [_ <-]. apply LOGGER_log_inv in Hrun2.
      pose proof (get_media_loop_requests _ _ _ _ _ H) as Hloop.
      apply get_media_loop_Ok in H. destruct H as (ms & Hmedia' & _ & Hnorm).
      apply normalized_from_length in Hnorm.
      subst st3 st1. simpl in Hmedia', Hloop.
      rewrite Hmedia', length_app, Hmedia, Hnorm.
      rewrite Hreq, length_app in Hloop. simpl in Hloop. lia.
    + apply LOGGER_log_inv in H. subst st'. simpl.
      rewrite Hreq, length_app, Hmedia. simpl. lia.
  - destruct (@get_media_no_schedule_run channel_object st Hsched)
      as (st2 & Hrun2 & _ & Hmedia & _ & Hreq).
    rewrite Hrun in Hrun2. injection Hrun2 as <-. rewrite Hmedia, Hreq. lia.
Qed.

Lemma for_each_get_media_requests CHANNELS :
  forall st st',
    for_each CHANNELS get_media st = (Ok tt, st') ->
    length (requests st') + length (MEDIA_GUIDE_OBJECT st) <=
    length (requests st) + length (filter has_schedule CHANNELS) +
    length (MEDIA_GUIDE_OBJECT st').
Proof.
  induction CHANNELS as [|c cs IH]; intros st st' H; simpl in H.
  - apply ret_inv in H. destruct H as [_ <-]. simpl. lia.
  - inv_run H. destruct a. apply get_media_requests in Hrun. apply IH in H.
    simpl. destruct (has_schedule c); simpl; lia.
Qed.

Lemma adapt_same (X : Type) (f : state -> X) :
  (forall st v, f (with_LOG st v) = f st) ->
  (forall st v, f (with_TV_OBJECT_programme st v) = f st) ->
  preserves (same f) adapt_media_objects_to_xmltv_object.
Proof.
  intros Hlog Htv.
  unfold adapt_media_objects_to_xmltv_object, adapt_media_object, build_programme,
    get_proper_date_time, getattr, minus_one.
  preserves_walk; intros ?; unfold same; simpl; rewrite ?Hlog, ?Htv; reflexivity.
Qed.

(** X3: a run of [main] that returns makes at most one request for each
    channel with a schedule URL and one for each entry it has queued. *)
Theorem requests_bounded (CHANNELS : list taChannels.Element)
  (media_info_file : option (list mediaInfo.Element)) (st st' : state) :
  main CHANNELS media_info_file st = (Ok tt, st') ->
  length (requests st') + length (MEDIA_GUIDE_OBJECT st) <=
  length (requests st) + length (filter has_schedule CHANNELS) +
  length (MEDIA_GUIDE_OBJECT st').
Proof.
  rewrite main_eq. intros H. inv_run H. destruct a, a0.
  pose proof (@get_channels_same _ requests CHANNELS
                (fun _ _ => eq_refl) (fun _ _ => eq_refl)
                (loaded media_info_file st)) as Hreq0.
  pose proof (@get_channels_same _ MEDIA_GUIDE_OBJECT CHANNELS
                (fun _ _ => eq_refl) (fun _ _ => eq_refl)
                (loaded media_info_file st)) as Hmedia0.
  unfold same in Hreq0, Hmedia0. rewrite Hrun in Hreq0, Hmedia0.
  simpl in Hreq0, Hmedia0.
  apply for_each_get_media_requests in Hrun0.
  pose proof (@adapt_same _ requests (fun _ _ => eq_refl) (fun _ _ => eq_refl) st1)
    as Hreq2.
  pose proof (@adapt_same _ MEDIA_GUIDE_OBJECT (fun _ _ => eq_refl)
                (fun _ _ => eq_refl) st1) as Hmedia2.
  unfold same in Hreq2, Hmedia2. rewrite H in Hreq2, Hmedia2.
  simpl in Hreq2, Hmedia2.
  assert (Hreq00 : requests (loaded media_info_file st) = requests st).
  { unfold loaded. destruct media_info_file; reflexivity. }
  assert (Hmedia00 : MEDIA_GUIDE_OBJECT (loaded media_info_file st) =
                     MEDIA_GUIDE_OBJECT st).
  { unfold loaded. destruct media_info_file; reflexivity. }
  rewrite Hreq2, Hmedia2. rewrite Hreq0, Hmedia0, Hreq00, Hmedia00 in Hrun0.
  exact Hrun0.
Qed.

(** *** Errors that are not connection errors *)

Lemma get_json_obj_from_url_breaks json_url st e :
  fetch_breaks json_url st e ->
  exists st',
    get_json_obj_from_url json_url st = (Raise e, st') /\
    requests st' = requests st ++ [json_url] /\
    TV_OBJECT_programme st' = TV_OBJECT_programme st /\
    MEDIA_GUIDE_OBJECT st' = MEDIA_GUIDE_OBJECT st /\
    all_episodes st' = all_episodes st.
Proof.
  intros [Hnot [Hopen | (raw_data & Hopen & Hlen & Hjson)]];
    unfold get_json_obj_from_url, try_except, bind, urlopen; simpl;
    rewrite Hopen; simpl.
  - rewrite Hnot. eexists. repeat split.
  - apply Nat.eqb_neq in Hlen. rewrite Hlen. simpl.
    unfold lift. rewrite Hjson. simpl. rewrite Hnot. eexists. repeat split.
Qed.

Lemma get_media_info_breaks media_info_url st e :
  cached media_info_url st = false ->
  fetch_breaks media_info_url st e ->
  exists st',
    get_media_info media_info_url st = (Raise e, st') /\
    all_episodes st' = all_episodes st.
Proof.
  intros Hmiss Hbreaks. unfold cached in Hmiss.
  unfold get_media_info, bind at 1. simpl. unfold bind at 1. simpl.
  rewrite Hmiss. simpl. unfold bind at 1. simpl. unfold bind at 1.
  match goal with
  | |- context [get_json_obj_from_url media_info_url ?s] =>
      destruct (@get_json_obj_from_url_breaks media_info_url s e Hbreaks)
        as (st' & Hrun & _ & _ & _ & Hcache)
  end.
  rewrite Hrun. exists st'. split; [reflexivity | exact Hcache].
Qed.

(** X4: an exception of a fetch that is not a connection error is not
    caught: it leaves [get_json_obj_from_url], it leaves [get_media_info]
    with the cache as it was, and it leaves the loop of [main] over the
    channels at the channel whose schedule was asked, so that no later
    channel is asked and nothing is queued for this one. *)
Theorem unexpected_fetch_error_propagates (json_url : string) (st : state) (e : exn) :
  fetch_breaks json_url st e ->
  fst (get_json_obj_from_url json_url st) = Raise e /\
  (cached json_url st = false ->
   fst (get_media_info json_url st) = Raise e /\
   all_episodes (snd (get_media_info json_url st)) = all_episodes st) /\
  (forall channel_object later,
     taChannels.scheduleUrl channel_object <> None ->
     getScheduleUrl channel_object GUIDE_ITEMS_PER_CHANNEL = json_url ->
     fst (for_each (channel_object :: later) get_media st) = Raise e /\
     requests (snd (for_each (channel_object :: later) get_media st)) =
       requests st ++ [json_url] /\
     MEDIA_GUIDE_OBJECT (snd (for_each (channel_object :: later) get_media st)) =
       MEDIA_GUIDE_OBJECT st /\
     TV_OBJECT_programme (snd (for_each (channel_object :: later) get_media st)) =
       TV_OBJECT_programme st).
Proof.
  intros Hbreaks. split; [ | split ].
  - destruct (get_json_obj_from_url_breaks Hbreaks) as (st' & Hrun & _).
    rewrite Hrun. reflexivity.
  - intros Hmiss.
    destruct (get_media_info_breaks Hmiss Hbreaks) as (st' & Hrun & Hcache).
    rewrite Hrun. split; [reflexivity | exact Hcache].
  - intros channel_object later Hsched Hurl.
    destruct (get_json_obj_from_url_breaks Hbreaks)
      as (st' & Hrun & Hreq & Htv & Hmedia & _).
    assert (Hget : get_media channel_object st = (Raise e, st')).
    { unfold get_media.
      destruct (taChannels.scheduleUrl channel_object); [ | congruence ].
      cbv zeta. rewrite Hurl. rewrite (bind_Raise _ Hrun). reflexivity. }
    simpl for_each. rewrite (bind_Raise _ Hget). simpl.
    repeat split; assumption.
Qed.

(** *** A channel with a schedule and no metadata address *)

Lemma stop_stage_run channel_object elements i e st :
  dates_convert channel_object elements ->
  exists stop st0,
    (if (Z.of_nat i <? Z.of_nat (length elements) - 1)%Z then
       match nth_error elements (i + 1) with
       | None => raise IndexError
       | Some next =>
           stop <- get_proper_date_time
                     (DateStr (py_str (media.startDate next)
                               @@ taChannels.offset channel_object))
                     _NEW_DATE_FORMAT ;;
           ret (media.set_stopDate e stop)
       end
     else ret e) st = (Ok (media.set_stopDate e stop), st0) /\
    TV_OBJECT_programme st0 = TV_OBJECT_programme st /\
    MEDIA_GUIDE_OBJECT st0 = MEDIA_GUIDE_OBJECT st /\
    requests st0 = requests st /\
    all_episodes st0 = all_episodes st.
Proof.
  intros Hdates. rewrite Nat.add_1_r.
  destruct (Z.of_nat i <? Z.of_nat (length elements) - 1)%Z eqn:Hguard.
  - destruct (nth_error elements (S i)) as [next|] eqn:Hnext.
    + apply nth_error_In in Hnext.
      unfold dates_convert in Hdates. rewrite Forall_forall in Hdates.
      destruct (Hdates next Hnext) as [s Hs]. unfold adjusted_start in Hs.
      exists s. eexists. unfold bind. rewrite get_proper_date_time_eq, Hs.
      split; [reflexivity | repeat split].
    + exfalso. apply nth_error_None in Hnext. apply Z.ltb_lt in Hguard. lia.
  - exists (media.stopDate e), st. rewrite <- set_stopDate_self.
    split; [reflexivity | repeat split].
Qed.

Lemma resolved_title_set_stopDate e stop :
  resolved_title (media.set_stopDate e stop) = resolved_title e.
Proof. destruct e; reflexivity. Qed.

Lemma get_media_loop_body_no_query_url channel_object elements i e st :
  taChannels.episodeQueryUrl channel_object = None ->
  dates_convert channel_object elements ->
  exists st',
    get_media_loop_body channel_object elements i e st =
      (match resolved_title e with Some _ => Raise TypeError | None => Ok tt end, st') /\
    TV_OBJECT_programme st' = TV_OBJECT_programme st /\
    requests st' = requests st /\
    all_episodes st' = all_episodes st.
Proof.
  intros Hbase Hdates.
  destruct (@stop_stage_run channel_object elements i e st Hdates)
    as (stop & st0 & Hstage & Htv & _ & Hreq & Hcache).
  unfold get_media_loop_body. rewrite (bind_Ok _ Hstage). cbv zeta.
  destruct (resolve_name_fields (media.set_stopDate e stop)) as (Hname & _).
  rewrite resolved_title_set_stopDate in Hname. rewrite Hname, Hbase.
  destruct (resolved_title e) as [title|].
  - exists st0. split; [reflexivity | repeat split; assumption].
  - eexists. split; [reflexivity | ]. simpl. repeat split; assumption.
Qed.

Lemma get_media_loop_no_query_url channel_object elements rest :
  taChannels.episodeQueryUrl channel_object = None ->
  dates_convert channel_object elements ->
  Exists (fun e => resolved_title e <> None) rest ->
  forall i st,
  exists st',
    get_media_loop channel_object elements i rest st = (Raise TypeError, st') /\
    TV_OBJECT_programme st' = TV_OBJECT_programme st /\
    requests st' = requests st /\
    all_episodes st' = all_episodes st.
Proof.
  intros Hbase Hdates Htitled.
  induction Htitled as [e rest Htitle | e rest Hrest IH]; intros i st;
    destruct (@get_media_loop_body_no_query_url
                channel_object elements i e st Hbase Hdates)
      as (st1 & Hrun & Htv & Hreq & Hcache);
    simpl get_media_loop.
  - destruct (resolved_title e) as [title|]; [ | congruence ].
    rewrite (bind_Raise _ Hrun). exists st1. repeat split; assumption.
  - destruct (resolved_title e) as [title|].
    + rewrite (bind_Raise _ Hrun). exists st1. repeat split; assumption.
    + rewrite (bind_Ok _ Hrun).
      destruct (IH (i + 1) st1) as (st' & Hrun' & Htv' & Hreq' & Hcache').
      exists st'. rewrite Htv', Hreq', Hcache'. repeat split; assumption.
Qed.

(** X5: for a channel that has a schedule URL and no episode query URL,
    [get_media] raises [TypeError] as soon as the fetched schedule has an
    entry with a name or a block name (the start dates converting): the
    only request is the one for the schedule, and neither the cache nor the
    guide's programmes change. *)
Theorem schedule_without_query_url_raises (channel_object : taChannels.Element)
  (st : state) (elements : list media.Element) :
  taChannels.scheduleUrl channel_object <> None ->
  taChannels.episodeQueryUrl channel_object = None ->
  fetched_schedule channel_object st elements ->
  dates_convert channel_object elements ->
  Exists (fun e => resolved_title e <> None) elements ->
  exists st',
    get_media channel_object st = (Raise TypeError, st') /\
    requests st' =
      requests st ++ [getScheduleUrl channel_object GUIDE_ITEMS_PER_CHANNEL] /\
    all_episodes st' = all_episodes st /\
    TV_OBJECT_programme st' = TV_OBJECT_programme st.
Proof.
  intros Hsched Hbase Hfetched Hdates Htitled.
  destruct (get_media_fetched Hsched Hfetched)
    as (st1 & Hrun & _ & Htv & Hcache).
  assert (Hreq : requests st1 =
                 requests st ++ [getScheduleUrl channel_object GUIDE_ITEMS_PER_CHANNEL]).
  { destruct Hfetched as (raw_data & j & Hread & Hlen & Hjson & Hdecode).
    revert Hrun. unfold get_media.
    destruct (taChannels.scheduleUrl channel_object) as [u|]; [ | congruence ].
    cbv zeta.
    pose proof (get_json_obj_from_url_requests
                  (getScheduleUrl channel_object GUIDE_ITEMS_PER_CHANNEL) st) as Hr.
    destruct (get_json_obj_from_url_Ok _ Hread Hlen Hjson) as (st2 & Hrun2 & _).
    rewrite Hrun2 in Hr. simpl in Hr.
    rewrite (bind_Ok _ Hrun2).
    unfold bind at 1. simpl. unfold bind at 1. unfold lift. rewrite Hdecode.
    unfold bind at 1. simpl. intros Heq.
    destruct (@get_media_loop_no_query_url channel_object elements elements
                Hbase Hdates Htitled 0 st1) as (sa & Ha & _ & Hra & _).
    match type of Heq with
    | get_media_loop _ _ _ _ ?s = _ =>
        destruct (@get_media_loop_no_query_url channel_object elements elements
                    Hbase Hdates Htitled 0 s) as (sb & Hb & _ & Hrb & _)
    end.
    rewrite Ha, Hb in Heq. injection Heq as <-.
    rewrite Hra in Hrb. rewrite Hrb. simpl. exact Hr. }
  destruct (@get_media_loop_no_query_url channel_object elements elements
              Hbase Hdates Htitled 0 st1) as (st' & Hloop & Htv' & Hreq' & Hcache').
  exists st'. rewrite Hrun, Hreq', Hcache', Htv'. repeat split; assumption.
Qed.

(** *** An episode without a season or a number *)

Lemma build_programme_episode_TypeError media_object mi ep st :
  mediaInfo.genres mi <> None ->
  mediaInfo.productionCo mi <> None ->
  mediaInfo.creators mi <> None ->
  (exists d, proper_date_time (date_arg_of_option (mediaInfo.releaseDate mi))
               _NEW_DATE_FORMAT_MINIMAL = Ok d) ->
  (exists r, get_rating_object (mediaInfo.contentRating mi) = Ok r) ->
  mediaInfo.episode mi = Some ep ->
  mediaInfo.Episode.season ep = None \/ mediaInfo.Episode.epNum ep = None ->
  exists st',
    build_programme media_object (Some mi) st = (Raise TypeError, st') /\
    TV_OBJECT_programme st' = TV_OBJECT_programme st.
Proof.
  intros Hg Hp Hc [d Hd] [r Hr] Hep Hmissing.
  unfold build_programme, bind, getattr.
  destruct (mediaInfo.genres mi) as [g|]; [ | congruence ].
  destruct (mediaInfo.productionCo mi) as [pc|]; [ | congruence ].
  destruct (mediaInfo.creators mi) as [cr|]; [ | congruence ].
  unfold ret. cbv beta iota. rewrite get_proper_date_time_eq, Hd. cbv beta iota.
  unfold lift. rewrite Hr, Hep. cbv beta iota.
  unfold minus_one.
  destruct (mediaInfo.Episode.season ep) as [s|].
  - destruct (mediaInfo.Episode.epNum ep) as [n|].
    + destruct Hmissing; discriminate.
    + eexists. split; reflexivity.
  - eexists. split; reflexivity.
Qed.

(** X6: when the cache record of a queued entry has an episode whose season
    or number is missing, and nothing before that fails, the assembly of
    the entry raises [TypeError]; the handler of the assembly loop does not
    catch it, so the loop ends there: no programme is appended for this
    entry or for any later one. *)
Theorem episode_without_number_aborts_assembly (media_object : media.Element)
  (later : list media.Element) (st : state)
  (mi : mediaInfo.Element) (ep : mediaInfo.Episode.t) :
  find_media_info (all_episodes st) media_object = Some mi ->
  mediaInfo.genres mi <> None ->
  mediaInfo.productionCo mi <> None ->
  mediaInfo.creators mi <> None ->
  (exists d, proper_date_time (date_arg_of_option (mediaInfo.releaseDate mi))
               _NEW_DATE_FORMAT_MINIMAL = Ok d) ->
  (exists r, get_rating_object (mediaInfo.contentRating mi) = Ok r) ->
  mediaInfo.episode mi = Some ep ->
  mediaInfo.Episode.season ep = None \/ mediaInfo.Episode.epNum ep = None ->
  exists st',
    for_each (media_object :: later) adapt_media_object st = (Raise TypeError, st') /\
    TV_OBJECT_programme st' = TV_OBJECT_programme st.
Proof.
  intros Hfind Hg Hp Hc Hd Hr Hep Hmissing.
  destruct (@build_programme_episode_TypeError media_object mi ep
              (after_lookup media_object st) Hg Hp Hc Hd Hr Hep Hmissing)
    as (st' & Hbuild & Htv).
  assert (Hrun : adapt_media_object media_object st = (Raise TypeError, st')).
  { rewrite adapt_media_object_eq, Hfind. unfold try_except.
    rewrite (bind_Raise _ Hbuild). reflexivity. }
  exists st'. simpl for_each. rewrite (bind_Raise _ Hrun).
  split; [reflexivity | ].
  rewrite Htv. unfold after_lookup. rewrite Hfind. reflexivity.
Qed.

(** *** The channels of the guide *)

Lemma get_channels_run CHANNELS st :
  channels_data_file_exists = true ->
  exists st',
    get_channels CHANNELS st = (Ok tt, st') /\
    TV_OBJECT_channel st' = TV_OBJECT_channel st ++ map Channel_of CHANNELS.
Proof.
  intros Hexists. unfold get_channels. rewrite Hexists. simpl negb. cbv iota.
  unfold bind at 1. unfold ret at 1.
  revert st. induction CHANNELS as [|channel CHANNELS IH]; intros st.
  - exists st. simpl. rewrite app_nil_r. split; reflexivity.
  - simpl for_each. unfold bind at 1. unfold bind at 1. simpl.
    match goal with
    | |- context [for_each CHANNELS ?body ?s] =>
        destruct (IH s) as (st' & Hrun & Hchannels)
    end.
    exists st'. split; [exact Hrun | ].
    rewrite Hchannels. simpl. rewrite <- app_assoc. reflexivity.
Qed.

Lemma get_media_same_channels channel_object :
  preserves (same TV_OBJECT_channel) (get_media channel_object).
Proof.
  assert (Hloop : forall elements rest position,
            preserves (same TV_OBJECT_channel)
              (get_media_loop channel_object elements position rest)).
  { intros elements rest. induction rest as [|e rest IH]; intros position; simpl.
    - apply preserves_ret. exact _.
    - apply preserves_bind; [ exact _ | | intros _; apply IH ].
      unfold get_media_loop_body, get_proper_date_time, get_media_info,
        get_json_obj_from_url.
      preserves_walk; same_write. }
  unfold get_media, get_json_obj_from_url, get_media_mock_body, get_proper_date_time.
  preserves_walk_using ltac:(apply Hloop); same_write.
Qed.

(** X7: once [main] has read the catalog and the cache, and the channels
    file exists, [get_channels] gives the fresh guide one channel for each
    entry of the catalog, in catalog order, with the entry's id, display
    name, language, icon and URL; the gathering loop and the assembly that
    follow leave this list as it is, whether they return or raise. *)
Theorem channels_follow_catalog (CHANNELS : list taChannels.Element)
  (media_info_file : option (list mediaInfo.Element)) (st : state) :
  channels_data_file_exists = true ->
  TV_OBJECT_channel (snd (main CHANNELS media_info_file st)) =
  map Channel_of CHANNELS.
Proof.
  intros Hexists. rewrite main_eq.
  destruct (@get_channels_run CHANNELS (loaded media_info_file st) Hexists)
    as (st1 & Hrun & Hchannels).
  rewrite (bind_Ok _ Hrun).
  assert (Hrest : preserves (same TV_OBJECT_channel)
                    (for_each CHANNELS get_media ;;
                     adapt_media_objects_to_xmltv_object)).
  { apply preserves_bind; [ exact _ | | intros _ ].
    - apply preserves_for_each; [ exact _ | apply get_media_same_channels ].
    - apply (@adapt_same _ TV_OBJECT_channel); intros; reflexivity. }
  rewrite (Hrest st1), Hchannels.
  unfold loaded. destruct media_info_file; reflexivity.
Qed.

(** *** A run without network *)

Lemma get_media_network_down channel_object st :
  network_down ->
  exists st' ps,
    get_media channel_object st = (Ok tt, st') /\
    TV_OBJECT_programme st' = TV_OBJECT_programme st ++ ps /\
    length ps = (if has_schedule channel_object then 0 else 25) /\
    Forall (is_placeholder_of [channel_object]) ps /\
    MEDIA_GUIDE_OBJECT st' = MEDIA_GUIDE_OBJECT st /\
    all_episodes st' = all_episodes st /\
    requests st' =
      requests st ++
      (if has_schedule channel_object
       then [getScheduleUrl channel_object GUIDE_ITEMS_PER_CHANNEL] else []).
Proof.
  intros Hdown. unfold has_schedule.
  destruct (taChannels.scheduleUrl channel_object) as [u|] eqn:Hsched.
  - assert (Hfail : fetch_fails
                      (getScheduleUrl channel_object GUIDE_ITEMS_PER_CHANNEL) st)
      by apply Hdown.
    destruct (get_json_obj_from_url_fails Hfail) as (failure & _ & Hrun).
    eexists. exists []. unfold get_media. rewrite Hsched. cbv zeta.
    rewrite (bind_Ok _ Hrun). split; [reflexivity | ]. simpl.
    rewrite app_nil_r. repeat split. constructor.
  - destruct (@get_media_no_schedule_run channel_object st Hsched)
      as (st' & Hrun & Htv & Hmedia & Hcache & Hreq).
    exists st'. eexists. split; [exact Hrun | ]. split; [exact Htv | ].
    split; [ rewrite length_map, length_map, length_seq; reflexivity | ].
    split; [ | rewrite app_nil_r; repeat split; assumption ].
    apply Forall_forall. intros p Hin. apply in_map_iff in Hin.
    destruct Hin as (block & <- & _).
    exists channel_object, block. split; [left; reflexivity | ].
    split; [exact Hsched | reflexivity].
Qed.

Lemma is_placeholder_of_incl CHANNELS CHANNELS' p :
  incl CHANNELS CHANNELS' ->
  is_placeholder_of CHANNELS p -> is_placeholder_of CHANNELS' p.
Proof.
  intros Hincl (c & block & Hin & Hsched & Hp).
  exists c, block. split; [apply Hincl; exact Hin | split; assumption].
Qed.

Lemma for_each_get_media_network_down CHANNELS :
  network_down ->
  forall st,
  exists st' ps,
    for_each CHANNELS get_media st = (Ok tt, st') /\
    TV_OBJECT_programme st' = TV_OBJECT_programme st ++ ps /\
    length ps = 25 * length (filter (fun c => negb (has_schedule c)) CHANNELS) /\
    Forall (is_placeholder_of CHANNELS) ps /\
    MEDIA_GUIDE_OBJECT st' = MEDIA_GUIDE_OBJECT st /\
    all_episodes st' = all_episodes st /\
    requests st' =
      requests st ++
      map (fun c => getScheduleUrl c GUIDE_ITEMS_PER_CHANNEL)
          (filter has_schedule CHANNELS).
Proof.
  intros Hdown. induction CHANNELS as [|c cs IH]; intros st.
  - exists st, []. simpl. rewrite !app_nil_r. repeat split. constructor.
  - destruct (@get_media_network_down c st Hdown)
      as (st1 & ps1 & Hrun1 & Htv1 & Hlen1 & Hps1 & Hmedia1 & Hcache1 & Hreq1).
    destruct (IH st1)
      as (st2 & ps2 & Hrun2 & Htv2 & Hlen2 & Hps2 & Hmedia2 & Hcache2 & Hreq2).
    exists st2, (ps1 ++ ps2). simpl for_each. rewrite (bind_Ok _ Hrun1).
    split; [exact Hrun2 | ].
    split; [ rewrite Htv2, Htv1, <- app_assoc; reflexivity | ].
    split.
    { rewrite length_app, Hlen1, Hlen2. simpl filter.
      destruct (has_schedule c); simpl; lia. }
    split.
    { apply Forall_app. split.
      - eapply Forall_impl; [ | exact Hps1 ]. intros p.
        apply is_placeholder_of_incl. intros x [<- | []]. left. reflexivity.
      - eapply Forall_impl; [ | exact Hps2 ]. intros p.
        apply is_placeholder_of_incl. intros x Hx. right. exact Hx. }
    split; [congruence | ]. split; [congruence | ].
    rewrite Hreq2, Hreq1, <- app_assoc. simpl filter.
    destruct (has_schedule c); reflexivity.
Qed.


(** *** The hours of the placeholder guide *)

Lemma top_of_hour_bounds (t : datetime) :
  (replace_minute_second_microsecond_0 t <= t <
   replace_minute_second_microsecond_0 t + timedelta_hours 1)%Z /\
  (replace_minute_second_microsecond_0 t mod timedelta_hours 1 = 0)%Z.
Proof.
  unfold replace_minute_second_microsecond_0, timedelta_hours.
  change (1 * 3600000000)%Z with 3600000000%Z.
  pose proof (Z.mod_pos_bound t 3600000000 eq_refl) as Hmod.
  split; [lia | ].
  rewrite Zminus_mod, Zmod_mod, Z.sub_diag. reflexivity.
Qed.

Lemma hourly_block_of (start t : datetime) :
  (start <= t < start + timedelta_hours 25)%Z ->
  exists k,
    k < 25 /\
    (start + timedelta_hours (Z.of_nat k) <= t <
     start + timedelta_hours (Z.of_nat k) + timedelta_hours 1)%Z.
Proof.
  unfold timedelta_hours. intros Ht.
  exists (Z.to_nat ((t - start) / 3600000000)).
  pose proof (Z.div_mod (t - start) 3600000000 ltac:(lia)) as Hdiv.
  pose proof (Z.mod_pos_bound (t - start) 3600000000 eq_refl) as Hmod.
  assert (Hq : (0 <= (t - start) / 3600000000 < 25)%Z).
  { split.
    - apply Z.div_pos; lia.
    - apply Z.div_lt_upper_bound; lia. }
  rewrite Z2Nat.id by lia. split; lia.
Qed.

(** X9: for a channel without a schedule URL, the placeholder programmes
    that [get_media] appends start at the top of the hour of the clock
    reading and cover the day that follows it: every instant from the
    reading up to and including 24 hours later lies in the hour of one of
    the appended blocks. *)
Theorem mock_guide_covers_next_day (channel_object : taChannels.Element)
  (st : state) (t : datetime) :
  taChannels.scheduleUrl channel_object = None ->
  (datetime_now (clock_reads st) <= t <=
   datetime_now (clock_reads st) + timedelta_days 1)%Z ->
  exists block,
    In (mock_block channel_object block)
       (TV_OBJECT_programme (snd (get_media channel_object st))) /\
    (block <= t < block + timedelta_hours 1)%Z /\
    (block mod timedelta_hours 1 = 0)%Z.
Proof.
  intros Hsched Ht.
  destruct (@get_media_no_schedule_run channel_object st Hsched)
    as (st' & Hrun & Htv & _).
  rewrite Hrun. simpl snd. rewrite Htv.
  set (start := replace_minute_second_microsecond_0 (datetime_now (clock_reads st))).
  destruct (top_of_hour_bounds (datetime_now (clock_reads st))) as [Hnow Hzero].
  fold start in Hnow, Hzero.
  destruct (@hourly_block_of start t) as (k & Hk & Hblock).
  { unfold timedelta_hours, timedelta_days in *. lia. }
  exists (start + timedelta_hours (Z.of_nat k))%Z. split; [ | split ].
  - apply in_or_app. right. apply in_map. apply in_map_iff.
    exists k. split; [reflexivity | ]. apply in_seq. lia.
  - exact Hblock.
  - unfold timedelta_hours in *.
    rewrite Z.add_mod by lia. rewrite Hzero.
    rewrite Z.mod_mul by lia. reflexivity.
Qed.

(** *** What the cache saves *)

Lemma cached_false_before st st' key :
  cache_extends st st' -> cached key st' = false -> cached key st = false.
Proof.
  intros [tail Htail]. unfold cached. rewrite Htail, existsb_app.
  intros H. apply Bool.orb_false_iff in H. exact (proj1 H).
Qed.

#[local] Instance asks_only_PreOrder allowed : PreOrder (asks_only allowed).
Proof.
  split.
  - intros st. split; [reflexivity | ]. exists [].
    split; [symmetry; apply app_nil_r | constructor].
  - intros a b c [Hab (t1 & H1 & F1)] [Hbc (t2 & H2 & F2)].
    split; [transitivity b; assumption | ].
    exists (t1 ++ t2). split; [ rewrite H2, H1; symmetry; apply app_assoc | ].
    apply Forall_app. split; [exact F1 | ].
    eapply Forall_impl; [ | exact F2 ]. intros key [Hmiss | Hallowed].
    + left. eapply cached_false_before; eassumption.
    + right. exact Hallowed.
Qed.

Lemma get_media_info_requests_eq media_info_url st :
  requests (snd (get_media_info media_info_url st)) =
  requests st ++ (if cached media_info_url st then [] else [media_info_url]).
Proof.
  unfold get_media_info, bind at 1. simpl. unfold bind at 1. simpl.
  fold (cached media_info_url st).
  destruct (cached media_info_url st); simpl; [symmetry; apply app_nil_r | ].
  unfold bind at 1. simpl. unfold bind at 1.
  match goal with
  | |- context [get_json_obj_from_url media_info_url ?s] =>
      pose proof (get_json_obj_from_url_requests media_info_url s) as Hreq;
      destruct (get_json_obj_from_url media_info_url s) as [[[obj|]|e] st1]
  end; simpl in Hreq; simpl; try exact Hreq.
  unfold bind, lift. simpl.
  destruct (from_bytes_mediaInfo_Element obj) as [element|e]; simpl; exact Hreq.
Qed.

Lemma asks_only_get_media_info allowed media_info_url :
  preserves (asks_only allowed) (get_media_info media_info_url).
Proof.
  intros st. split; [apply cache_extends_get_media_info | ].
  eexists. split; [apply get_media_info_requests_eq | ].
  destruct (cached media_info_url st) eqn:Hcached;
    [ constructor | constructor; [left; exact Hcached | constructor] ].
Qed.

Lemma asks_only_get_json_obj_from_url (allowed : string -> Prop) json_url :
  allowed json_url ->
  preserves (asks_only allowed) (get_json_obj_from_url json_url).
Proof.
  intros Hallowed st. split; [apply cache_extends_get_json_obj_from_url | ].
  eexists. split; [apply get_json_obj_from_url_requests | ].
  constructor; [right; exact Hallowed | constructor].
Qed.

(** A statement that asks nothing and leaves the cache. *)
Ltac asks_write :=
  intros ?; split;
  [ exists []; simpl; symmetry; apply app_nil_r
  | exists []; simpl; split; [symmetry; apply app_nil_r | constructor] ].

Lemma asks_only_get_media (allowed : string -> Prop) channel_object :
  allowed (getScheduleUrl channel_object GUIDE_ITEMS_PER_CHANNEL) ->
  preserves (asks_only allowed) (get_media channel_object).
Proof.
  intros Hallowed.
  assert (Hloop : forall elements rest position,
            preserves (asks_only allowed)
              (get_media_loop channel_object elements position rest)).
  { intros elements rest. induction rest as [|e rest IH]; intros position; simpl.
    - apply preserves_ret. exact _.
    - apply preserves_bind; [ exact _ | | intros _; apply IH ].
      unfold get_media_loop_body, get_proper_date_time.
      preserves_walk_using ltac:(apply asks_only_get_media_info); asks_write. }
  unfold get_media, get_media_mock_body, get_proper_date_time.
  preserves_walk_using
    ltac:(first [ apply Hloop
                | apply asks_only_get_json_obj_from_url; exact Hallowed ]);
    asks_write.
Qed.

Lemma asks_only_for_each_get_media (allowed : string -> Prop) CHANNELS :
  Forall (fun c => allowed (getScheduleUrl c GUIDE_ITEMS_PER_CHANNEL)) CHANNELS ->
  preserves (asks_only allowed) (for_each CHANNELS get_media).
Proof.
  induction 1 as [|c cs Hc Hcs IH]; simpl.
  - apply preserves_ret. exact _.
  - apply preserves_bind; [ exact _ | | intros _; exact IH ].
    apply asks_only_get_media. exact Hc.
Qed.

Lemma asks_only_gathering (allowed : string -> Prop) CHANNELS :
  Forall (fun c => allowed (getScheduleUrl c GUIDE_ITEMS_PER_CHANNEL)) CHANNELS ->
  preserves (asks_only allowed)
    (get_channels CHANNELS ;;
     for_each CHANNELS get_media ;;
     adapt_media_objects_to_xmltv_object).
Proof.
  intros Hallowed.
  apply preserves_bind; [ exact _ | | intros _ ].
  { unfold get_channels. preserves_walk; asks_write. }
  apply preserves_bind; [ exact _ | | intros _ ].
  { apply asks_only_for_each_get_media. exact Hallowed. }
  unfold adapt_media_objects_to_xmltv_object, adapt_media_object, build_programme,
    get_proper_date_time, getattr, minus_one.
  preserves_walk; asks_write.
Qed.

(** X10: whatever the outcome of [main], the requests it makes are added
    after those made before, and none of them is for a key of the cache as
    loaded from disk, unless that key is the schedule address of a channel
    of the catalog. *)
Theorem cached_keys_are_not_requested (CHANNELS : list taChannels.Element)
  (media_info_file : option (list mediaInfo.Element)) (st : state) :
  exists asked,
    requests (snd (main CHANNELS media_info_file st)) = requests st ++ asked /\
    forall key,
      In key asked ->
      cached key (loaded media_info_file st) = true ->
      In key (map (fun c => getScheduleUrl c GUIDE_ITEMS_PER_CHANNEL) CHANNELS).
Proof.
  rewrite main_eq.
  set (allowed := fun key =>
         In key (map (fun c => getScheduleUrl c GUIDE_ITEMS_PER_CHANNEL) CHANNELS)).
  assert (Hallowed :
            Forall (fun c => allowed (getScheduleUrl c GUIDE_ITEMS_PER_CHANNEL))
                   CHANNELS).
  { apply Forall_forall. intros c Hin. unfold allowed.
    apply (in_map (fun c => getScheduleUrl c GUIDE_ITEMS_PER_CHANNEL)). exact Hin. }
  destruct (@asks_only_gathering allowed CHANNELS Hallowed
              (loaded media_info_file st)) as [_ (asked & Hreq & Hasked)].
  exists asked. split.
  - rewrite Hreq. unfold loaded. destruct media_info_file; reflexivity.
  - intros key Hin Hcached. rewrite Forall_forall in Hasked.
    destruct (Hasked key Hin) as [Hmiss | Hok]; [congruence | exact Hok].
Qed.

(** *** The assembly loop *)

Lemma build_programme_outcome media_object media_info_object st st' :
  fst (build_programme media_object media_info_object st) =
  fst (build_programme media_object media_info_object st').
Proof.
  unfold build_programme. destruct media_info_object as [mi|]; [ | reflexivity ].
  unfold bind, getattr, minus_one, lift, ret.
  destruct (mediaInfo.genres mi); [ | reflexivity ].
  destruct (mediaInfo.productionCo mi); [ | reflexivity ].
  destruct (mediaInfo.creators mi); [ | reflexivity ].
  cbv beta iota. rewrite !get_proper_date_time_eq.
  destruct (proper_date_time _ _) as [d|e]; [ | reflexivity ].
  cbv beta iota.
  destruct (get_rating_object _) as [r|e]; [ | reflexivity ].
  destruct (mediaInfo.episode mi) as [ep|]; [ | reflexivity ].
  destruct (mediaInfo.Episode.season ep); [ | reflexivity ].
  destruct (mediaInfo.Episode.epNum ep); reflexivity.
Qed.

Lemma after_lookup_fields media_object st :
  TV_OBJECT_programme (after_lookup media_object st) = TV_OBJECT_programme st /\
  MEDIA_GUIDE_OBJECT (after_lookup media_object st) = MEDIA_GUIDE_OBJECT st /\
  all_episodes (after_lookup media_object st) = all_episodes st.
Proof.
  unfold after_lookup.
  destruct (find_media_info (all_episodes st) media_object); repeat split.
Qed.

(** The three outcomes of the assembly step. *)
Lemma adapt_media_object_exact media_object st :
  exists st',
    MEDIA_GUIDE_OBJECT st' = MEDIA_GUIDE_OBJECT st /\
    all_episodes st' = all_episodes st /\
    match built (all_episodes st) media_object with
    | Ok p =>
        adapt_media_object media_object st = (Ok tt, st') /\
        TV_OBJECT_programme st' = TV_OBJECT_programme st ++ [p]
    | Raise e =>
        adapt_media_object media_object st =
          (if is_AttributeError e then Ok tt else Raise e, st') /\
        TV_OBJECT_programme st' = TV_OBJECT_programme st /\
        (is_AttributeError e = true ->
         exists earlier,
           LOG st' =
           earlier ++ [{| levelname := ERROR;
                          message :=
                            Msg_unable_to_add media_object
                              (find_media_info (all_episodes st) media_object) e |}])
    end.
Proof.
  unfold built.
  rewrite (build_programme_outcome media_object
             (find_media_info (all_episodes st) media_object)
             init (after_lookup media_object st)).
  rewrite adapt_media_object_eq.
  set (media_info_object := find_media_info (all_episodes st) media_object).
  pose proof (@build_programme_same _ TV_OBJECT_programme media_object
                media_info_object (fun _ _ => eq_refl)
                (after_lookup media_object st)) as Htv.
  pose proof (@build_programme_same _ MEDIA_GUIDE_OBJECT media_object
                media_info_object (fun _ _ => eq_refl)
                (after_lookup media_object st)) as Hmedia.
  pose proof (@build_programme_same _ all_episodes media_object
                media_info_object (fun _ _ => eq_refl)
                (after_lookup media_object st)) as Hcache.
  unfold same in Htv, Hmedia, Hcache.
  destruct (after_lookup_fields media_object st) as (Htv0 & Hmedia0 & Hcache0).
  unfold try_except, bind.
  destruct (build_programme media_object media_info_object
              (after_lookup media_object st)) as [[p|e] st1];
    simpl in Htv, Hmedia, Hcache; simpl fst; cbv beta iota.
  - eexists. split; [ | split; [ | split; [reflexivity | ] ] ]; simpl; congruence.
  - destruct (is_AttributeError e) eqn:E.
    + eexists. split; [ | split; [ | split; [reflexivity | split ] ] ]; simpl;
        try congruence.
      intros _. exists (LOG st1). reflexivity.
    + exists st1. split; [congruence | ]. split; [congruence | ].
      split; [reflexivity | ]. split; [congruence | discriminate].
Qed.

Lemma for_each_adapt_exact ms :
  forall st st',
    for_each ms adapt_media_object st = (Ok tt, st') ->
    TV_OBJECT_programme st' =
      TV_OBJECT_programme st ++ flat_map (emitted (all_episodes st)) ms /\
    MEDIA_GUIDE_OBJECT st' = MEDIA_GUIDE_OBJECT st /\
    all_episodes st' = all_episodes st /\
    Forall (fun m => forall e, built (all_episodes st) m = Raise e -> e = AttributeError)
           ms.
Proof.
  induction ms as [|m ms IH]; intros st st' H; simpl in H.
  - apply ret_inv in H. destruct H as [_ <-]. simpl. rewrite app_nil_r.
    repeat split. constructor.
  - inv_run H. destruct a.
    destruct (adapt_media_object_exact m st) as (st1 & Hmedia & Hcache & Hstep).
    apply IH in H. destruct H as (Htv' & Hmedia' & Hcache' & Hall).
    simpl flat_map. unfold emitted at 1.
    destruct (built (all_episodes st) m) as [p|e] eqn:Hbuilt.
    + destruct Hstep as [Hstep Htv]. rewrite Hstep in Hrun.
      injection Hrun as <-. rewrite Hcache in Htv', Hcache', Hall.
      rewrite Htv', Htv, Hmedia', Hmedia, <- app_assoc.
      repeat split; try assumption. constructor; [ | exact Hall ].
      intros e He. rewrite Hbuilt in He. discriminate He.
    + destruct Hstep as (Hstep & Htv & _). rewrite Hstep in Hrun.
      destruct (is_AttributeError e) eqn:E; [ | discriminate Hrun ].
      injection Hrun as <-. rewrite Hcache in Htv', Hcache', Hall.
      rewrite Htv', Htv, Hmedia', Hmedia.
      repeat split; try assumption. constructor; [ | exact Hall ].
      intros e' He'. rewrite Hbuilt in He'. injection He' as <-.
      apply is_AttributeError_true. exact E.
Qed.

(** C6 (what the code does): the assembly step has three outcomes.  A
    programme that is built is appended, and the loop goes on.  When
    building raises [AttributeError], as it does when the genre, producer
    or writer record of the metadata is missing, the step logs the failure
    with the entry and the metadata record, appends nothing, and the loop
    goes on.  Any other exception leaves the loop at that entry: nothing is
    appended for it or for the entries after it.  A missing season or
    episode number is of this last kind: it raises [TypeError].  So a loop
    that returns has appended, in order, the programme of each entry but
    those whose building raised [AttributeError]. *)
Theorem assembly_catches_only_AttributeError (media_object : media.Element)
  (rest : list media.Element) (st : state) :
  let media_info_object := find_media_info (all_episodes st) media_object in
  (forall p,
     built (all_episodes st) media_object = Ok p ->
     exists st',
       adapt_media_object media_object st = (Ok tt, st') /\
       TV_OBJECT_programme st' = TV_OBJECT_programme st ++ [p] /\
       for_each (media_object :: rest) adapt_media_object st =
       for_each rest adapt_media_object st') /\
  (built (all_episodes st) media_object = Raise AttributeError ->
   exists st',
     adapt_media_object media_object st = (Ok tt, st') /\
     TV_OBJECT_programme st' = TV_OBJECT_programme st /\
     (exists earlier,
        LOG st' =
        earlier ++ [{| levelname := ERROR;
                       message := Msg_unable_to_add media_object media_info_object
                                    AttributeError |}]) /\
     for_each (media_object :: rest) adapt_media_object st =
     for_each rest adapt_media_object st') /\
  (forall e,
     built (all_episodes st) media_object = Raise e ->
     e <> AttributeError ->
     exists st',
       for_each (media_object :: rest) adapt_media_object st = (Raise e, st') /\
       TV_OBJECT_programme st' = TV_OBJECT_programme st) /\
  (forall mi,
     media_info_object = Some mi ->
     mediaInfo.genres mi = None \/
     mediaInfo.productionCo mi = None \/
     mediaInfo.creators mi = None ->
     built (all_episodes st) media_object = Raise AttributeError) /\
  (forall mi ep,
     media_info_object = Some mi ->
     mediaInfo.genres mi <> None ->
     mediaInfo.productionCo mi <> None ->
     mediaInfo.creators mi <> None ->
     (exists d, proper_date_time (date_arg_of_option (mediaInfo.releaseDate mi))
                  _NEW_DATE_FORMAT_MINIMAL = Ok d) ->
     (exists r, get_rating_object (mediaInfo.contentRating mi) = Ok r) ->
     mediaInfo.episode mi = Some ep ->
     mediaInfo.Episode.season ep = None \/ mediaInfo.Episode.epNum ep = None ->
     built (all_episodes st) media_object = Raise TypeError) /\
  (forall l st0 st',
     for_each l adapt_media_object st0 = (Ok tt, st') ->
     TV_OBJECT_programme st' =
       TV_OBJECT_programme st0 ++ flat_map (emitted (all_episodes st0)) l /\
     Forall (fun m => forall e,
               built (all_episodes st0) m = Raise e -> e = AttributeError) l).
Proof.
  intros media_info_object.
  destruct (adapt_media_object_exact media_object st) as (st' & _ & _ & Hstep).
  split; [ | split; [ | split; [ | split; [ | split ] ] ] ].
  - intros p Hp. rewrite Hp in Hstep. destruct Hstep as [Hrun Htv].
    exists st'. split; [exact Hrun | ]. split; [exact Htv | ].
    simpl for_each. rewrite (bind_Ok _ Hrun). reflexivity.
  - intros Hfail. rewrite Hfail in Hstep. destruct Hstep as (Hrun & Htv & Hlog).
    simpl in Hrun. exists st'. split; [exact Hrun | ]. split; [exact Htv | ].
    split; [exact (Hlog eq_refl) | ].
    simpl for_each. rewrite (bind_Ok _ Hrun). reflexivity.
  - intros e He Hne. rewrite He in Hstep. destruct Hstep as (Hrun & Htv & _).
    assert (E : is_AttributeError e = false).
    { destruct (is_AttributeError e) eqn:E; [ | reflexivity ].
      apply is_AttributeError_true in E. contradiction. }
    rewrite E in Hrun. exists st'. split; [ | exact Htv ].
    simpl for_each. rewrite (bind_Raise _ Hrun). reflexivity.
  - intros mi Hmi Hmissing. unfold built. fold media_info_object. rewrite Hmi.
    apply build_programme_missing_field. exact Hmissing.
  - intros mi ep Hmi Hg Hp Hc Hd Hr Hep Hmissing.
    unfold built. fold media_info_object. rewrite Hmi.
    destruct (@build_programme_episode_TypeError media_object mi ep init
                Hg Hp Hc Hd Hr Hep Hmissing) as (st1 & Hbuild & _).
    rewrite Hbuild. reflexivity.
  - intros l st0 st1 Hrun. apply for_each_adapt_exact in Hrun.
    destruct Hrun as (Htv & _ & _ & Hall). split; assumption.
Qed.

(** *** The order of the programme list *)

Lemma get_json_obj_from_url_inv json_url st a st1 :
  get_json_obj_from_url json_url st = (Ok a, st1) ->
  match a with
  | Some obj =>
      exists raw_data j,
        urlopen_read (length (requests st)) json_url = Ok raw_data /\
        String.length raw_data <> 0 /\
        json_loads raw_data = Ok j /\
        obj = [j]
  | None =>
      forall raw_data j,
        urlopen_read (length (requests st)) json_url = Ok raw_data ->
        String.length raw_data <> 0 ->
        json_loads raw_data <> Ok j
  end.
Proof.
  unfold get_json_obj_from_url, try_except, bind, urlopen. simpl.
  destruct (urlopen_read (length (requests st)) json_url) as [raw_data|e]; simpl.
  - destruct (String.length raw_data =? 0)%nat eqn:Hlen; simpl.
    + intros H. injection H as <- _. intros raw j Hraw Hne.
      injection Hraw as <-. apply Nat.eqb_eq in Hlen. contradiction.
    + unfold lift. destruct (json_loads raw_data) as [j|e] eqn:Hjson; simpl.
      * intros H. injection H as <- _. exists raw_data, j.
        apply Nat.eqb_neq in Hlen. repeat split; assumption.
      * destruct (is_URLError e); simpl; intros H; [ | discriminate H ].
        injection H as <- _. intros raw j Hraw _. injection Hraw as <-.
        rewrite Hjson. discriminate.
  - destruct (is_URLError e); simpl; intros H; [ | discriminate H ].
    injection H as <- _. intros raw j Hraw. discriminate Hraw.
Qed.

Lemma get_media_loop_same (X : Type) (f : state -> X) channel_object elements rest :
  (forall st v, f (with_LOG st v) = f st) ->
  (forall st v, f (with_requests st v) = f st) ->
  (forall st v, f (with_all_episodes st v) = f st) ->
  (forall st v, f (with_MEDIA_GUIDE_OBJECT st v) = f st) ->
  forall position,
    preserves (same f) (get_media_loop channel_object elements position rest).
Proof.
  intros Hlog Hreq Hcache Hmedia.
  induction rest as [|e rest IH]; intros position; simpl.
  - apply preserves_ret. exact _.
  - apply preserves_bind; [ exact _ | | intros _; apply IH ].
    unfold get_media_loop_body, get_proper_date_time.
    preserves_walk_using
      ltac:(apply get_media_info_same; assumption);
      intros ?; unfold same; simpl; rewrite ?Hlog, ?Hmedia; reflexivity.
Qed.

Lemma asks_only_get_media_loop (allowed : string -> Prop) channel_object elements rest :
  forall position,
    preserves (asks_only allowed)
      (get_media_loop channel_object elements position rest).
Proof.
  induction rest as [|e rest IH]; intros position; simpl.
  - apply preserves_ret. exact _.
  - apply preserves_bind; [ exact _ | | intros _; apply IH ].
    unfold get_media_loop_body, get_proper_date_time.
    preserves_walk_using ltac:(apply asks_only_get_media_info); asks_write.
Qed.

(** What [get_media] does for a channel with a schedule URL, when it
    returns. *)
Lemma get_media_schedule_exact channel_object st st' :
  taChannels.scheduleUrl channel_object <> None ->
  get_media channel_object st = (Ok tt, st') ->
  TV_OBJECT_programme st' = TV_OBJECT_programme st /\
  clock_reads st' = clock_reads st /\
  ((exists elements ms,
      schedule_at (length (requests st)) channel_object elements /\
      normalized_from channel_object elements 0 elements ms /\
      MEDIA_GUIDE_OBJECT st' = MEDIA_GUIDE_OBJECT st ++ ms /\
      length (requests st) + 1 <= length (requests st') <=
        length (requests st) + 1 + length elements) \/
   ((forall elements, ~ schedule_at (length (requests st)) channel_object elements) /\
    MEDIA_GUIDE_OBJECT st' = MEDIA_GUIDE_OBJECT st /\
    length (requests st') = length (requests st) + 1)).
Proof.
  intros Hsched. unfold get_media.
  destruct (taChannels.scheduleUrl channel_object) as [u|]; [ | congruence ].
  intros H. inv_run H.
  set (url := getScheduleUrl channel_object GUIDE_ITEMS_PER_CHANNEL) in *.
  pose proof (@get_json_obj_from_url_same _ TV_OBJECT_programme url
                (fun _ _ => eq_refl) (fun _ _ => eq_refl) st) as Htv.
  pose proof (@get_json_obj_from_url_same _ MEDIA_GUIDE_OBJECT url
                (fun _ _ => eq_refl) (fun _ _ => eq_refl) st) as Hmedia.
  pose proof (@get_json_obj_from_url_same _ clock_reads url
                (fun _ _ => eq_refl) (fun _ _ => eq_refl) st) as Hclock.
  pose proof (get_json_obj_from_url_requests url st) as Hreq.
  unfold same in Htv, Hmedia, Hclock.
  rewrite Hrun in Htv, Hmedia, Hclock, Hreq. simpl in Htv, Hmedia, Hclock, Hreq.
  apply get_json_obj_from_url_inv in Hrun.
  destruct a as [obj|].
  - destruct Hrun as (raw_data & j & Hread & Hlen & Hjson & ->).
    inv_run H. apply LOGGER_log_inv in Hrun. apply lift_inv in Hrun0.
    destruct Hrun0 as [Hdecode <-]. apply LOGGER_log_inv in Hrun1.
    pose proof (get_media_loop_requests _ _ _ _ _ H) as Hupper.
    pose proof (@asks_only_get_media_loop (fun _ => True) channel_object a0 a0 0 st3)
      as [_ (asked & Hasked & _)].
    pose proof (@get_media_loop_same _ clock_reads channel_object a0 a0
                  (fun _ _ => eq_refl) (fun _ _ => eq_refl)
                  (fun _ _ => eq_refl) (fun _ _ => eq_refl) 0 st3) as Hclock'.
    unfold same in Hclock'. rewrite H in Hasked, Hclock'.
    simpl in Hasked, Hclock'.
    apply get_media_loop_Ok in H. destruct H as (ms & Hmedia' & Htv' & Hnorm).
    subst st3 st1. simpl in Hmedia', Htv', Hupper, Hasked, Hclock'.
    split; [congruence | ]. split; [congruence | ]. left.
    exists a0, ms. split; [ | split; [exact Hnorm | split; [congruence | ] ] ].
    + exists raw_data, j. repeat split; assumption.
    + apply (f_equal (@length _)) in Hasked.
      rewrite length_app, Hreq, length_app in Hasked.
      rewrite Hreq, length_app in Hupper. simpl in Hasked, Hupper. lia.
  - apply LOGGER_log_inv in H. subst st'. simpl.
    split; [exact Htv | ]. split; [exact Hclock | ]. right.
    split; [ | split; [ exact Hmedia | rewrite Hreq, length_app; reflexivity ] ].
    intros elements (raw_data & j & Hread & Hlen & Hjson & _).
    exact (Hrun raw_data j Hread Hlen Hjson).
Qed.

(** What [get_media] does for a channel without a schedule URL. *)
Lemma get_media_mock_exact channel_object st st' :
  taChannels.scheduleUrl channel_object = None ->
  get_media channel_object st = (Ok tt, st') ->
  TV_OBJECT_programme st' =
    TV_OBJECT_programme st ++ placeholder_blocks (clock_reads st) channel_object /\
  MEDIA_GUIDE_OBJECT st' = MEDIA_GUIDE_OBJECT st /\
  requests st' = requests st /\
  clock_reads st' = S (clock_reads st).
Proof.
  intros Hnone Hrun.
  destruct (@get_media_no_schedule_run channel_object st Hnone)
    as (st2 & Hrun2 & Htv & Hmedia & _ & Hreq).
  rewrite Hrun in Hrun2. injection Hrun2 as <-.
  split; [exact Htv | ]. split; [exact Hmedia | ]. split; [exact Hreq | ].
  revert Hrun. unfold get_media. rewrite Hnone. intros H. inv_run H.
  unfold now in Hrun. injection Hrun as _ <-.
  apply LOGGER_log_inv in Hrun0. subst st1.
  match type of H with
  | for_each ?blocks ?body ?s = _ =>
      assert (Hsame : preserves (same clock_reads) (for_each blocks body));
      [ | specialize (Hsame s); unfold same in Hsame; rewrite H in Hsame;
          exact Hsame ]
  end.
  unfold get_media_mock_body, get_proper_date_time.
  preserves_walk; same_write.
Qed.

Lemma for_each_get_media_exact CHANNELS :
  forall st st',
    for_each CHANNELS get_media st = (Ok tt, st') ->
    exists placeholders entries,
      gathered (length (requests st)) (clock_reads st) CHANNELS placeholders entries /\
      TV_OBJECT_programme st' = TV_OBJECT_programme st ++ placeholders /\
      MEDIA_GUIDE_OBJECT st' = MEDIA_GUIDE_OBJECT st ++ entries.
Proof.
  induction CHANNELS as [|c cs IH]; intros st st' H; simpl in H.
  - apply ret_inv in H. destruct H as [_ <-]. exists [], [].
    rewrite !app_nil_r. repeat split. constructor.
  - inv_run H. destruct a. apply IH in H.
    destruct H as (P & M & Hg & Htv & Hmedia).
    destruct (taChannels.scheduleUrl c) as [u|] eqn:Hsched.
    + assert (Hsome : taChannels.scheduleUrl c <> None) by congruence.
      destruct (@get_media_schedule_exact c st st0 Hsome Hrun)
        as (Htv0 & Hclock0 &
            [(elements & ms & Hat & Hnorm & Hmedia0 & Hbounds)
            | (Hnot & Hmedia0 & Hreq0)]).
      * exists P, (ms ++ M). rewrite Htv, Htv0, Hmedia, Hmedia0, <- app_assoc.
        repeat split. rewrite Hclock0 in Hg.
        eapply gathered_schedule; eassumption.
      * exists P, M. rewrite Htv, Htv0, Hmedia, Hmedia0. repeat split.
        rewrite Hclock0, Hreq0 in Hg.
        apply gathered_unanswered; assumption.
    + destruct (@get_media_mock_exact c st st0 Hsched Hrun)
        as (Htv0 & Hmedia0 & Hreq0 & Hclock0).
      exists (placeholder_blocks (clock_reads st) c ++ P), M.
      rewrite Htv, Htv0, Hmedia, Hmedia0, <- app_assoc. repeat split.
      rewrite Hreq0, Hclock0 in Hg. apply gathered_mock; assumption.
Qed.

(** What a run of [main] that returns leaves, from what the object held. *)
Lemma main_exact CHANNELS media_info_file st st' :
  main CHANNELS media_info_file st = (Ok tt, st') ->
  exists placeholders entries,
    gathered (length (requests st)) (clock_reads st) CHANNELS placeholders entries /\
    MEDIA_GUIDE_OBJECT st' = MEDIA_GUIDE_OBJECT st ++ entries /\
    TV_OBJECT_programme st' =
      placeholders ++
      flat_map (emitted (all_episodes st')) (MEDIA_GUIDE_OBJECT st ++ entries) /\
    Forall (fun m => forall e,
              built (all_episodes st') m = Raise e -> e = AttributeError)
           (MEDIA_GUIDE_OBJECT st ++ entries).
Proof.
  rewrite main_eq. intros H. inv_run H. destruct a, a0.
  set (st00 := loaded media_info_file st) in *.
  pose proof (@get_channels_same _ TV_OBJECT_programme CHANNELS
                (fun _ _ => eq_refl) (fun _ _ => eq_refl) st00) as Htv0.
  pose proof (@get_channels_same _ MEDIA_GUIDE_OBJECT CHANNELS
                (fun _ _ => eq_refl) (fun _ _ => eq_refl) st00) as Hmedia0.
  pose proof (@get_channels_same _ requests CHANNELS
                (fun _ _ => eq_refl) (fun _ _ => eq_refl) st00) as Hreq0.
  pose proof (@get_channels_same _ clock_reads CHANNELS
                (fun _ _ => eq_refl) (fun _ _ => eq_refl) st00) as Hclock0.
  unfold same in Htv0, Hmedia0, Hreq0, Hclock0.
  rewrite Hrun in Htv0, Hmedia0, Hreq0, Hclock0.
  simpl in Htv0, Hmedia0, Hreq0, Hclock0.
  assert (H00 : TV_OBJECT_programme st00 = [] /\
                MEDIA_GUIDE_OBJECT st00 = MEDIA_GUIDE_OBJECT st /\
                requests st00 = requests st /\
                clock_reads st00 = clock_reads st).
  { unfold st00, loaded. destruct media_info_file; repeat split. }
  destruct H00 as (Htv00 & Hmedia00 & Hreq00 & Hclock00).
  apply for_each_get_media_exact in Hrun0.
  destruct Hrun0 as (P & M & Hg & Htv1 & Hmedia1).
  rewrite Hreq0, Hreq00, Hclock0, Hclock00 in Hg.
  unfold adapt_media_objects_to_xmltv_object in H. inv_run H.
  apply LOGGER_log_inv in Hrun0. unfold gets in Hrun1.
  injection Hrun1 as <- <-. subst st2.
  apply for_each_adapt_exact in H.
  destruct H as (Htv2 & Hmedia2 & Hcache2 & Hall).
  simpl in Htv2, Hmedia2, Hcache2, Hall.
  rewrite <- Hcache2 in Htv2, Hall.
  rewrite Hmedia1, Hmedia0, Hmedia00 in Htv2, Hall, Hmedia2.
  rewrite Htv1, Htv0, Htv00 in Htv2. simpl in Htv2.
  exists P, M. repeat split; assumption.
Qed.

(** C4 (amended): the programme list of a run of [main] that returns is the
    placeholder programmes of the channels that have no schedule URL, 25
    for each and in catalog order, followed by the programmes built from
    the queued entries, which are the normalized schedules of the channels
    that have a schedule URL, in catalog order and, within a channel, in
    the order of its schedule; an entry gives no programme exactly when
    building it raised [AttributeError]. *)
Theorem programmes_placeholders_then_schedules
  (CHANNELS : list taChannels.Element)
  (media_info_file : option (list mediaInfo.Element)) (st st' : state) :
  MEDIA_GUIDE_OBJECT st = [] ->
  main CHANNELS media_info_file st = (Ok tt, st') ->
  exists placeholders entries,
    gathered (length (requests st)) (clock_reads st) CHANNELS placeholders entries /\
    MEDIA_GUIDE_OBJECT st' = entries /\
    TV_OBJECT_programme st' =
      placeholders ++ flat_map (emitted (all_episodes st')) entries /\
    Forall (fun m => forall e,
              built (all_episodes st') m = Raise e -> e = AttributeError)
           entries.
Proof.
  intros Hfresh Hmain. apply main_exact in Hmain.
  destruct Hmain as (P & M & Hg & Hmedia & Htv & Hall).
  rewrite Hfresh in Hmedia, Htv, Hall. simpl in Hmedia, Htv, Hall.
  exists P, M. repeat split; assumption.
Qed.

(** *** A second run on the same object *)

(** X11: [main] starts a fresh guide and keeps the queue of entries: a run
    that returns appends the entries it gathers to those queued before, and
    its programme list holds none of the programmes the object held: it is
    the placeholder programmes of this run followed by the programmes
    built from the whole queue, the earlier entries first. *)
Theorem main_keeps_the_queue (CHANNELS : list taChannels.Element)
  (media_info_file : option (list mediaInfo.Element)) (st st' : state) :
  main CHANNELS media_info_file st = (Ok tt, st') ->
  exists placeholders entries,
    gathered (length (requests st)) (clock_reads st) CHANNELS placeholders entries /\
    MEDIA_GUIDE_OBJECT st' = MEDIA_GUIDE_OBJECT st ++ entries /\
    TV_OBJECT_programme st' =
      placeholders ++
      flat_map (emitted (all_episodes st')) (MEDIA_GUIDE_OBJECT st) ++
      flat_map (emitted (all_episodes st')) entries.
Proof.
  intros Hmain. apply main_exact in Hmain.
  destruct Hmain as (P & M & Hg & Hmedia & Htv & _).
  exists P, M. split; [exact Hg | ]. split; [exact Hmedia | ].
  rewrite Htv, flat_map_app. reflexivity.
Qed.


(** *** The options of the command line *)

Lemma __init___Ok out_dir log_dir guide_items ep_cache log_level s :
  __init__ out_dir log_dir guide_items ep_cache log_level = Ok s ->
  self_GUIDE_ITEMS_PER_CHANNEL s = guide_items /\
  self_USE_EPISODE_CACHE s = ep_cache /\
  self_LOG_LEVEL s =
    (if existsb (String.eqb log_level) validLogging then log_level else "ERROR") /\
  __init_output_paths out_dir log_dir = Ok (self_paths s).
Proof.
  unfold __init__.
  destruct (__init_output_paths out_dir log_dir) as [paths|e]; [ | discriminate ].
  intros H. injection H as <-. repeat split.
Qed.

Lemma module_main_Ok argv s :
  module_main argv = Ok s ->
  exists guide_items,
    match arg_guide_items argv with
    | Some text => int_of_str text = Some guide_items
    | None => guide_items = 200%Z
    end /\
    __init__ (match arg_out_dir argv with Some d => d | None => "output/" end)
             (arg_log_dir argv)
             guide_items
             (match arg_ep_cache argv with
              | Some text => py_bool_of_str text
              | None => false
              end)
             (match arg_log_level argv with Some l => l | None => "ERROR" end) = Ok s.
Proof.
  unfold module_main.
  destruct (arg_guide_items argv) as [text|].
  - destruct (int_of_str text) as [z|]; [ | discriminate ].
    intros H. exists z. split; [reflexivity | ].
    destruct (arg_ep_cache argv); exact H.
  - intros H. exists 200%Z. split; [reflexivity | ].
    destruct (arg_ep_cache argv); exact H.
Qed.

(** X12: the [--log_dir] option has no effect: the module's [main] builds
    the same object whatever directory it names, and the log file of an
    object that is built is always [log/ToonamiAftermath.log] under the
    resolved output directory. *)
Theorem log_dir_option_is_ignored (argv : command_line) (d : option string) :
  module_main (with_arg_log_dir argv d) = module_main argv /\
  forall s,
    module_main argv = Ok s ->
    self_data_out_dir (self_paths s) =
      resolve (match arg_out_dir argv with Some o => o | None => "output/" end) /\
    self_log_dir (self_paths s) = joinpath (self_data_out_dir (self_paths s)) "log" /\
    self_log_file (self_paths s) =
      joinpath (joinpath (self_data_out_dir (self_paths s)) "log")
               "ToonamiAftermath.log".
Proof.
  split; [reflexivity | ].
  intros s Hs. apply module_main_Ok in Hs. destruct Hs as (g & _ & Hs).
  apply __init___Ok in Hs. destruct Hs as (_ & _ & _ & Hpaths).
  unfold __init_output_paths in Hpaths.
  destruct (mkdir (resolve _)); [ | discriminate ].
  destruct (mkdir (joinpath _ "log")); [ | discriminate ].
  injection Hpaths as <-. repeat split.
Qed.

(** X13: the [--ep_cache] option is converted with [bool], so the object
    uses the episode cache exactly when the option is given with a text that
    is not empty, whatever the text says. *)
Theorem ep_cache_option_is_truthiness (argv : command_line) (s : settings) :
  module_main argv = Ok s ->
  (self_USE_EPISODE_CACHE s = true <->
   exists text, arg_ep_cache argv = Some text /\ text <> "") /\
  (arg_ep_cache argv = Some "False" -> self_USE_EPISODE_CACHE s = true).
Proof.
  intros Hs. apply module_main_Ok in Hs. destruct Hs as (g & _ & Hs).
  apply __init___Ok in Hs. destruct Hs as (_ & Hcache & _).
  rewrite Hcache. split; [ | intros ->; reflexivity ].
  destruct (arg_ep_cache argv) as [text|]; unfold py_bool_of_str.
  - destruct (String.eqb_spec text ""); simpl; split.
    + discriminate.
    + intros (t & Ht & Hne). injection Ht as <-. contradiction.
    + intros _. exists text. split; [reflexivity | assumption].
    + reflexivity.
  - split; [discriminate | ]. intros (t & Ht & _). discriminate Ht.
Qed.

(** X14: the log level of an object that is built is always one of the six
    names of [validLogging]: a [--log_level] that is one of them, letter for
    letter, is kept, and any other, like no option at all, gives [ERROR]. *)
Theorem log_level_is_always_valid (argv : command_line) (s : settings) :
  module_main argv = Ok s ->
  In (self_LOG_LEVEL s) validLogging /\
  (forall level,
     arg_log_level argv = Some level ->
     (In level validLogging -> self_LOG_LEVEL s = level) /\
     (~ In level validLogging -> self_LOG_LEVEL s = "ERROR")) /\
  (arg_log_level argv = None -> self_LOG_LEVEL s = "ERROR").
Proof.
  intros Hs. apply module_main_Ok in Hs. destruct Hs as (g & _ & Hs).
  apply __init___Ok in Hs. destruct Hs as (_ & _ & Hlevel & _).
  assert (Hvalid : forall level,
            existsb (String.eqb level) validLogging = true <-> In level validLogging).
  { intros level. rewrite existsb_exists. split.
    - intros (x & Hin & Heq). apply String.eqb_eq in Heq. subst x. exact Hin.
    - intros Hin. exists level. split; [exact Hin | apply String.eqb_refl]. }
  rewrite Hlevel. split; [ | split ].
  - destruct (existsb _ validLogging) eqn:E.
    + apply Hvalid. exact E.
    + right. left. reflexivity.
  - intros level ->. split; intros Hin.
    + apply Hvalid in Hin. rewrite Hin. reflexivity.
    + destruct (existsb (String.eqb level) validLogging) eqn:E; [ | reflexivity ].
      exfalso. apply Hin, Hvalid, E.
  - intros ->. reflexivity.
Qed.

(** *** Writing a text and reading it back *)

(** X15: a text that [deserialize] keeps is a string outside the denylist,
    and it survives being written and read back: [serialize] gives the same
    text and [deserialize] keeps it again.  The value [None] does not: it is
    written as the word None, which is read back as a text. *)
Theorem kept_text_round_trips (repr_bytes : list ascii -> string)
  (value : py_value) (s : string) :
  CustomStringConverter.deserialize value = Some s ->
  value = PyStr s /\
  ~ In s CustomStringConverter._EXCLUDED_STRINGS /\
  CustomStringConverter.serialize repr_bytes value = s /\
  CustomStringConverter.deserialize
    (PyStr (CustomStringConverter.serialize repr_bytes value)) = Some s /\
  CustomStringConverter.deserialize
    (PyStr (CustomStringConverter.serialize repr_bytes PyNone)) = Some "None".
Proof.
  intros H. destruct value as [ | b | z | t | b ]; try discriminate H.
  simpl in H. destruct (CustomStringConverter.is_excluded t) eqn:E;
    [discriminate H | ].
  injection H as <-. split; [reflexivity | ]. split.
  - intros Hin. apply is_excluded_In in Hin. congruence.
  - simpl. rewrite E. repeat split.
Qed.

(** *** A programme whose metadata could not be fetched *)

Lemma find_media_info_uncached key st media_object :
  cached key st = false ->
  media.queryUrl media_object = Some key ->
  find_media_info (all_episodes st) media_object = None.
Proof.
  unfold cached, find_media_info. intros Hmiss ->.
  induction (all_episodes st) as [|element l IH]; simpl in *; [reflexivity | ].
  apply Bool.orb_false_iff in Hmiss. destruct Hmiss as [Hel Hl].
  rewrite Hel. exact (IH Hl).
Qed.

(** X16: when the metadata request for the key of an entry meets a
    connection error or an empty body, the entry is not lost: the assembly
    step that follows appends a programme for it, with the entry's channel,
    start and stop, titled with the entry's full name if it has one and its
    name otherwise, and with none of the fields that come from metadata. *)
Theorem failed_metadata_still_gives_programme (key : string) (st : state)
  (media_object : media.Element) :
  cached key st = false ->
  fetch_fails key st ->
  media.queryUrl media_object = Some key ->
  exists st1 p,
    get_media_info key st = (Ok tt, st1) /\
    adapt_media_object media_object st1 =
      (Ok tt, with_TV_OBJECT_programme st1 (TV_OBJECT_programme st1 ++ [p])) /\
    xmltv.channel p = media.channel media_object /\
    xmltv.start p = media.startDate media_object /\
    xmltv.stop p = media.stopDate media_object /\
    xmltv.title p =
      [ {| xmltv.content :=
             [ match media.info media_object with
               | Some i =>
                   match media.fullname i with
                   | Some f => Some f
                   | None => media.name media_object
                   end
               | None => media.name media_object
               end ];
           xmltv.lang := media.lang media_object |} ] /\
    xmltv.category p = None /\
    xmltv.credits p = None /\
    xmltv.date p = None /\
    xmltv.desc p = None /\
    xmltv.episode_num p = None /\
    xmltv.rating p = None /\
    xmltv.sub_title p = None.
Proof.
  intros Hmiss Hfail Hkey.
  destruct (get_media_info_miss_fails Hfail Hmiss) as (st1 & Hrun & Hcache & _).
  assert (Hfind : find_media_info (all_episodes st1) media_object = None).
  { apply find_media_info_uncached with (key := key); [ | exact Hkey ].
    unfold cached in *. rewrite Hcache. exact Hmiss. }
  exists st1. eexists. split; [exact Hrun | ].
  rewrite adapt_media_object_eq. unfold after_lookup. rewrite Hfind.
  unfold try_except, bind, build_programme, ret. simpl.
  split; [reflexivity | ]. simpl.
  destruct (media.info media_object) as [i|]; [ destruct (media.fullname i) | ];
    repeat split.
Qed.

End ToonamiAftermath.

(** ** The properties on the sample world *)

Abbreviation sample_get_media :=
  (get_media Fixture.GUIDE_ITEMS_PER_CHANNEL Fixture.urlopen_read
     Fixture.datetime_now Fixture.json_loads Fixture.from_bytes_media_Root
     Fixture.from_bytes_mediaInfo_Element Fixture.quote Fixture.strftime
     Fixture.parser_parse_format Fixture.getScheduleUrl).

Abbreviation flaky_get_media :=
  (get_media Fixture.GUIDE_ITEMS_PER_CHANNEL Fixture.flaky_urlopen_read
     Fixture.datetime_now Fixture.json_loads Fixture.from_bytes_media_Root
     Fixture.from_bytes_mediaInfo_Element Fixture.quote Fixture.strftime
     Fixture.parser_parse_format Fixture.getScheduleUrl).

Abbreviation sample_main :=
  (main Fixture.GUIDE_ITEMS_PER_CHANNEL Fixture.urlopen_read
     Fixture.datetime_now Fixture.channels_data_file_exists Fixture.json_loads
     Fixture.from_bytes_media_Root Fixture.from_bytes_mediaInfo_Element
     Fixture.quote Fixture.strftime Fixture.parser_parse_format
     Fixture.get_rating_object Fixture.getScheduleUrl).

Abbreviation sample_get_media_info :=
  (get_media_info Fixture.urlopen_read Fixture.json_loads
     Fixture.from_bytes_mediaInfo_Element).

Abbreviation sample_get_media_loop_body :=
  (get_media_loop_body Fixture.urlopen_read Fixture.json_loads
     Fixture.from_bytes_mediaInfo_Element Fixture.quote Fixture.strftime
     Fixture.parser_parse_format).

Abbreviation sample_adapt_media_object :=
  (adapt_media_object Fixture.strftime Fixture.parser_parse_format
     Fixture.get_rating_object).

Abbreviation sample_build_programme :=
  (build_programme Fixture.strftime Fixture.parser_parse_format
     Fixture.get_rating_object).

Abbreviation sample_get_proper_date_time :=
  (get_proper_date_time Fixture.strftime Fixture.parser_parse_format).

Abbreviation show_a_key := "http://api.example.org/info?name=Show%20A".
Abbreviation show_b_key := "http://api.example.org/info?name=Show%20B".

(** A state whose cache holds one record, under the key of the first
    show. *)
Abbreviation sample_cached_state := (with_all_episodes init [Fixture.info_no_genres]).

(** The first show as normalized, with its key. *)
Abbreviation sample_keyed_show := (media.set_queryUrl Fixture.show_a (Some show_a_key)).

(** The spec's schedule scenario: the first show stops when the second
    starts, and the second has no stop time. *)
Example schedule_scenario :
  map (fun e => (media.name e, media.startDate e, media.stopDate e))
      (MEDIA_GUIDE_OBJECT (snd (sample_get_media Fixture.ch1 init))) =
  [ (Some "Show A", Some "20240101120000 -0500", Some "20240101130000 -0500");
    (Some "Show B", Some "20240101130000 -0500", None) ].
Proof. vm_compute. reflexivity. Qed.

(** The schedule scenario satisfies the hypotheses of the stop-time
    property. *)
Lemma stop_is_next_start_witness :
  exists outs,
    MEDIA_GUIDE_OBJECT (snd (sample_get_media Fixture.ch1 init)) =
      MEDIA_GUIDE_OBJECT init ++ outs /\
    length outs = length Fixture.schedule /\
    (forall i next,
       nth_error Fixture.schedule (S i) = Some next ->
       exists out,
         nth_error outs i = Some out /\
         adjusted_start Fixture.strftime Fixture.parser_parse_format
                        Fixture.ch1 next = Ok (media.stopDate out) /\
         forall out',
           nth_error outs (S i) = Some out' ->
           media.name out' <> None ->
           media.startDate out' = media.stopDate out) /\
    (forall out,
       nth_error outs (length Fixture.schedule - 1) = Some out ->
       media.stopDate out = None).
Proof.
  apply (@stop_is_next_start Fixture.GUIDE_ITEMS_PER_CHANNEL Fixture.urlopen_read
           Fixture.datetime_now Fixture.json Fixture.json_loads
           Fixture.from_bytes_media_Root Fixture.from_bytes_mediaInfo_Element
           Fixture.quote Fixture.strftime Fixture.parser_parse_format
           Fixture.getScheduleUrl Fixture.ch1 Fixture.schedule init
           (snd (sample_get_media Fixture.ch1 init))).
  - discriminate.
  - exists "[schedule]", "[schedule]". repeat split. discriminate.
  - repeat constructor.
  - vm_compute. reflexivity.
Defined.

(** The second sample channel has no schedule URL: 25 programmes. *)
Lemma get_media_mock_guide_witness :
  exists st',
    sample_get_media Fixture.ch2 init = (Ok tt, st') /\
    length (TV_OBJECT_programme st') = 25 /\
    MEDIA_GUIDE_OBJECT st' = [] /\
    all_episodes st' = [] /\
    requests st' = [].
Proof.
  destruct (@get_media_mock_guide Fixture.GUIDE_ITEMS_PER_CHANNEL Fixture.urlopen_read
              Fixture.datetime_now Fixture.json Fixture.json_loads
              Fixture.from_bytes_media_Root Fixture.from_bytes_mediaInfo_Element
              Fixture.quote Fixture.strftime Fixture.parser_parse_format
              Fixture.getScheduleUrl Fixture.ch2 init eq_refl)
    as (st' & Hrun & Htv & Hlen & _ & _ & Hmedia & Hcache & Hreq).
  exists st'. split; [exact Hrun | ].
  split; [ rewrite Htv; exact Hlen | ].
  split; [exact Hmedia | ]. split; [exact Hcache | exact Hreq].
Defined.

(** A request for the key the sample cache holds. *)
Lemma get_media_info_idempotent_witness :
  cached show_a_key sample_cached_state = true /\
  fst (sample_get_media_info show_a_key sample_cached_state) = Ok tt /\
  requests (snd (sample_get_media_info show_a_key sample_cached_state)) = [] /\
  all_episodes (snd (sample_get_media_info show_a_key sample_cached_state)) =
    [Fixture.info_no_genres].
Proof.
  split; [reflexivity | ].
  exact (proj1 (@get_media_info_idempotent Fixture.GUIDE_ITEMS_PER_CHANNEL
                  Fixture.urlopen_read Fixture.datetime_now
                  Fixture.channels_data_file_exists Fixture.json Fixture.json_loads
                  Fixture.from_bytes_media_Root Fixture.from_bytes_mediaInfo_Element
                  Fixture.quote Fixture.strftime Fixture.parser_parse_format
                  Fixture.get_rating_object Fixture.getScheduleUrl
                  show_a_key sample_cached_state Fixture.CHANNELS None)
               eq_refl).
Defined.

(** C4, as stated, fails on the sample catalog: the second channel has no
    schedule URL, and its placeholder programmes stand before the
    programmes of the first channel. *)
Lemma programmes_not_in_catalog_order :
  map taChannels.id Fixture.CHANNELS = ["ch1"; "ch2"] /\
  map xmltv.channel
      (TV_OBJECT_programme (snd (sample_main Fixture.CHANNELS None init))) =
    repeat (Some "ch2") 25 ++ [Some "ch1"; Some "ch1"] /\
  ~ in_catalog_order Fixture.CHANNELS
      (TV_OBJECT_programme (snd (sample_main Fixture.CHANNELS None init))).
Proof.
  split; [reflexivity | ].
  assert (Hchannels :
            map xmltv.channel
                (TV_OBJECT_programme (snd (sample_main Fixture.CHANNELS None init))) =
            repeat (Some "ch2") 25 ++ [Some "ch1"; Some "ch1"])
    by (vm_compute; reflexivity).
  split; [exact Hchannels | ].
  intros (groups & Hgroups & Hconcat).
  rewrite Hconcat in Hchannels. clear Hconcat.
  inversion Hgroups as [|c1 g1 cs1 gs1 Hg1 Hrest1]; subst.
  inversion Hrest1 as [|c2 g2 cs2 gs2 Hg2 Hrest2]; subst.
  inversion Hrest2; subst. simpl in Hchannels. rewrite app_nil_r in Hchannels.
  destruct g1 as [|p g1].
  - simpl in Hchannels.
    assert (Hall : Forall (fun c => c = Some "ch2") (map xmltv.channel g2)).
    { apply Forall_map. exact Hg2. }
    rewrite Hchannels in Hall. rewrite Forall_forall in Hall.
    assert (Hin : In (Some "ch1")
                     (repeat (Some "ch2") 25 ++ [Some "ch1"; Some "ch1"])).
    { apply in_or_app. right. left. reflexivity. }
    apply Hall in Hin. discriminate Hin.
  - inversion Hg1 as [|p' g' Hp _]; subst. simpl in Hchannels, Hp.
    rewrite Hp in Hchannels. discriminate Hchannels.
Qed.

(** C5, as stated, fails when a key comes twice in a run: the metadata
    request for the first rerun fails, the request for the second is made
    again and answered, and the key has a cache entry at the end of the
    same run. *)
Lemma failed_key_is_cached_later_in_the_run :
  fetch_fails Fixture.flaky_urlopen_read show_a_key
    (with_requests init ["http://api.example.org/media?count=200"]) /\
  fst (flaky_get_media Fixture.ch1 init) = Ok tt /\
  requests (snd (flaky_get_media Fixture.ch1 init)) =
    ["http://api.example.org/media?count=200"; show_a_key; show_a_key] /\
  cached show_a_key (snd (flaky_get_media Fixture.ch1 init)) = true.
Proof.
  split; [left; reflexivity | ]. vm_compute. repeat split.
Qed.

(** The metadata request for the second show meets a connection error. *)
Lemma failed_fetch_is_empty_source_witness :
  Fixture.urlopen_read (length (requests init)) show_b_key = Raise URLError /\
  (exists failure,
     is_failure_record show_b_key failure /\
     get_json_obj_from_url Fixture.urlopen_read Fixture.json_loads show_b_key init =
       (Ok None, after_failed_fetch show_b_key failure init)) /\
  fst (sample_get_media_info show_b_key init) = Ok tt /\
  all_episodes (snd (sample_get_media_info show_b_key init)) = [] /\
  cached show_b_key (snd (sample_get_media_info show_b_key init)) = false /\
  requests (snd (sample_get_media_info show_b_key init)) = [show_b_key].
Proof.
  split; [reflexivity | ].
  destruct (@failed_fetch_is_empty_source Fixture.GUIDE_ITEMS_PER_CHANNEL
              Fixture.urlopen_read Fixture.datetime_now Fixture.json
              Fixture.json_loads Fixture.from_bytes_media_Root
              Fixture.from_bytes_mediaInfo_Element Fixture.quote Fixture.strftime
              Fixture.parser_parse_format Fixture.getScheduleUrl
              show_b_key init (or_introl eq_refl))
    as (Hfetch & Hinfo & _).
  split; [exact Hfetch | ]. exact (Hinfo eq_refl).
Defined.

(** One string of the denylist, and one outside it. *)
Lemma deserialize_denylist_witness :
  CustomStringConverter.deserialize (PyStr "IMDbPro") = None /\
  CustomStringConverter.deserialize (PyStr "Show A") = Some "Show A".
Proof.
  split.
  - apply (proj1 (deserialize_denylist "IMDbPro")). simpl. auto.
  - apply (proj2 (deserialize_denylist "Show A")). simpl.
    intros [H | [H | [H | [H | H]]]]; try discriminate H; exact H.
Defined.

(** An entry with neither [name] nor [blockName], last of a schedule of
    two. *)
Lemma untitled_entry_is_emitted_witness :
  exists out,
    MEDIA_GUIDE_OBJECT
      (snd (sample_get_media_loop_body Fixture.ch1
              [Fixture.show_a; Fixture.untitled] 1 Fixture.untitled init)) =
      MEDIA_GUIDE_OBJECT init ++ [out] /\
    media.name out = None /\
    media.queryUrl out = None /\
    requests
      (snd (sample_get_media_loop_body Fixture.ch1
              [Fixture.show_a; Fixture.untitled] 1 Fixture.untitled init)) = [] /\
    all_episodes
      (snd (sample_get_media_loop_body Fixture.ch1
              [Fixture.show_a; Fixture.untitled] 1 Fixture.untitled init)) = [] /\
    exists p,
      sample_adapt_media_object out sample_cached_state =
        (Ok tt, with_TV_OBJECT_programme sample_cached_state [p]) /\
      xmltv.start p = Some "20240101130000" /\
      xmltv.stop p = media.stopDate out.
Proof.
  destruct (@untitled_entry_is_emitted Fixture.urlopen_read Fixture.json
              Fixture.json_loads Fixture.from_bytes_mediaInfo_Element
              Fixture.quote Fixture.strftime Fixture.parser_parse_format
              Fixture.get_rating_object Fixture.ch1
              [Fixture.show_a; Fixture.untitled] 1 Fixture.untitled init
              (snd (sample_get_media_loop_body Fixture.ch1
                      [Fixture.show_a; Fixture.untitled] 1 Fixture.untitled init))
              eq_refl)
    as (out & Hmedia & _ & Huntitled).
  destruct (Huntitled eq_refl eq_refl) as (Hname & Hkey & Hreq & Hcache & Hemit).
  exists out. repeat (split; [assumption | ]).
  apply (Hemit sample_cached_state eq_refl).
  repeat constructor. discriminate.
Defined.

(** An [int] is not a string. *)
Lemma deserialize_non_string_witness :
  CustomStringConverter.deserialize (PyInt 5) = None.
Proof.
  apply deserialize_non_string. intros s H. discriminate H.
Defined.

(** C10, as stated, fails for a programme: an entry with a title and no
    start date reaches the reformatter as the word None followed by the
    offset, which is not empty; whatever the date parser does with it, the
    entry does not come out with an absent start date. *)
Lemma undated_programme_start_not_absent :
  ~ exists parser_parse_format st',
      get_media_loop_body Fixture.urlopen_read Fixture.json_loads
        Fixture.from_bytes_mediaInfo_Element Fixture.quote Fixture.strftime
        parser_parse_format Fixture.ch1 [Fixture.undated] 0 Fixture.undated init =
        (Ok tt, st') /\
      forall out, In out (MEDIA_GUIDE_OBJECT st') -> media.startDate out = None.
Proof.
  intros (parser_parse_format & st' & Hrun & Habsent).
  apply get_media_loop_body_Ok in Hrun.
  destruct Hrun as (out & Hmedia & _ & Hnorm & _).
  destruct Hnorm as (_ & _ & _ & _ & _ & Hrest). simpl in Hrest.
  destruct Hrest as (Hstart & _).
  assert (Hnone : media.startDate out = None).
  { apply Habsent. rewrite Hmedia. simpl. left. reflexivity. }
  rewrite Hnone in Hstart. revert Hstart.
  apply proper_date_time_nonempty. discriminate.
Qed.

(** The metadata of the first show has no release date. *)
Lemma get_proper_date_time_absent_witness :
  fst (sample_get_proper_date_time DateNone _NEW_DATE_FORMAT init) = Ok None /\
  fst (sample_get_proper_date_time (DateStr "") _NEW_DATE_FORMAT init) = Ok None /\
  (exists p,
     fst (sample_build_programme sample_keyed_show (Some Fixture.info_a) init) = Ok p /\
     xmltv.date p = None) /\
  fst (sample_get_proper_date_time (DateStr "None-0500") _NEW_DATE_FORMAT init)
    <> Ok None.
Proof.
  destruct (@get_proper_date_time_absent Fixture.strftime
              Fixture.parser_parse_format Fixture.get_rating_object
              _NEW_DATE_FORMAT init sample_keyed_show Fixture.info_a)
    as (Hnone & Hempty & Hdate & Htext).
  split; [exact Hnone | ]. split; [exact Hempty | ]. split.
  - destruct (sample_build_programme sample_keyed_show (Some Fixture.info_a) init)
      as [[p|e] st1] eqn:Hbuild.
    + exists p. split; [reflexivity | ].
      exact (Hdate (or_introl eq_refl) p st1 eq_refl).
    + vm_compute in Hbuild. discriminate Hbuild.
  - apply Htext. discriminate.
Defined.

(** *** Further properties on the sample world *)

Abbreviation schedule_address := "http://api.example.org/media?count=200".

(** The sample world with its network down. *)
Abbreviation offline_main :=
  (main Fixture.GUIDE_ITEMS_PER_CHANNEL Fixture.down_urlopen_read
     Fixture.datetime_now Fixture.channels_data_file_exists Fixture.json_loads
     Fixture.from_bytes_media_Root Fixture.from_bytes_mediaInfo_Element
     Fixture.quote Fixture.strftime Fixture.parser_parse_format
     Fixture.get_rating_object Fixture.getScheduleUrl).

(** The sample world with a decoder that refuses every body. *)
Abbreviation undecodable_get_media :=
  (get_media Fixture.GUIDE_ITEMS_PER_CHANNEL Fixture.urlopen_read
     Fixture.datetime_now Fixture.broken_json_loads Fixture.from_bytes_media_Root
     Fixture.from_bytes_mediaInfo_Element Fixture.quote Fixture.strftime
     Fixture.parser_parse_format Fixture.getScheduleUrl).

Abbreviation sample_module_main :=
  (module_main Fixture.resolve Fixture.module_dir Fixture.mkdir Fixture.int_of_str).

(** A command line that names a log directory, asks for the cache with the
    word False, and gives the log level in small letters. *)
Abbreviation sample_argv :=
  {| arg_out_dir := None;
     arg_log_dir := Some "logs";
     arg_guide_items := None;
     arg_ep_cache := Some "False";
     arg_log_level := Some "debug" |}.

(** The second show as normalized, with its key. *)
Abbreviation sample_keyed_show_b := (media.set_queryUrl Fixture.show_b (Some show_b_key)).

(** The state the sample run leaves. *)
Abbreviation sample_final_state := (snd (sample_main Fixture.CHANNELS None init)).

(** A run of the sample catalog that starts from a cache of one keyed
    record. *)
Lemma cache_keys_stay_unique_witness :
  cache_keys_ok (loaded (Some [Fixture.info_no_genres]) init) /\
  cache_keys_ok
    (snd (sample_main Fixture.CHANNELS (Some [Fixture.info_no_genres]) init)).
Proof.
  assert (H : cache_keys_ok (loaded (Some [Fixture.info_no_genres]) init)).
  { split.
    - constructor; [intros [] | constructor].
    - constructor; [discriminate | constructor]. }
  split; [exact H | ].
  exact (proj1 (@cache_keys_stay_unique Fixture.GUIDE_ITEMS_PER_CHANNEL
                  Fixture.urlopen_read Fixture.datetime_now
                  Fixture.channels_data_file_exists Fixture.json Fixture.json_loads
                  Fixture.from_bytes_media_Root Fixture.from_bytes_mediaInfo_Element
                  Fixture.quote Fixture.strftime Fixture.parser_parse_format
                  Fixture.get_rating_object Fixture.getScheduleUrl
                  Fixture.CHANNELS (Some [Fixture.info_no_genres]) init H)).
Defined.

(** The metadata of the first show is served: the request stores it. *)
Lemma enriched_key_is_found_witness :
  exists st',
    sample_get_media_info show_a_key init = (Ok tt, st') /\
    all_episodes st' = [mediaInfo.set_queryUrl Fixture.info_a (Some show_a_key)] /\
    cached show_a_key st' = true /\
    find_media_info (all_episodes st') sample_keyed_show =
      Some (mediaInfo.set_queryUrl Fixture.info_a (Some show_a_key)).
Proof.
  assert (Hfetched : fetched_media_info Fixture.urlopen_read Fixture.json_loads
                       Fixture.from_bytes_mediaInfo_Element show_a_key init
                       Fixture.info_a).
  { exists "{Show A}", "{Show A}". repeat split. discriminate. }
  pose proof (@enriched_key_is_found Fixture.urlopen_read Fixture.json
                Fixture.json_loads Fixture.from_bytes_mediaInfo_Element
                show_a_key init Fixture.info_a eq_refl Hfetched) as H.
  cbv zeta in H. destruct H as (st' & Hrun & Hcache & Hcached & Hfind & _).
  exists st'. split; [exact Hrun | ]. split; [exact Hcache | ].
  split; [exact Hcached | ]. apply Hfind. reflexivity.
Defined.

(** The sample run returns: one channel has a schedule, of two entries. *)
Lemma requests_bounded_witness :
  sample_main Fixture.CHANNELS None init = (Ok tt, sample_final_state) /\
  length (requests sample_final_state) + length (MEDIA_GUIDE_OBJECT init) <=
  length (requests init) + length (filter has_schedule Fixture.CHANNELS) +
  length (MEDIA_GUIDE_OBJECT sample_final_state).
Proof.
  assert (H : sample_main Fixture.CHANNELS None init = (Ok tt, sample_final_state))
    by (vm_compute; reflexivity).
  split; [exact H | ].
  exact (@requests_bounded Fixture.GUIDE_ITEMS_PER_CHANNEL
           Fixture.urlopen_read Fixture.datetime_now
           Fixture.channels_data_file_exists Fixture.json Fixture.json_loads
           Fixture.from_bytes_media_Root Fixture.from_bytes_mediaInfo_Element
           Fixture.quote Fixture.strftime Fixture.parser_parse_format
           Fixture.get_rating_object Fixture.getScheduleUrl
           Fixture.CHANNELS None init sample_final_state H).
Defined.

(** The schedule is served and cannot be decoded: the error leaves the loop
    over the sample catalog. *)
Lemma unexpected_fetch_error_propagates_witness :
  fetch_breaks Fixture.urlopen_read Fixture.broken_json_loads
    schedule_address init ValueError /\
  fst (for_each Fixture.CHANNELS undecodable_get_media init) = Raise ValueError /\
  requests (snd (for_each Fixture.CHANNELS undecodable_get_media init)) =
    [schedule_address].
Proof.
  assert (H : fetch_breaks Fixture.urlopen_read Fixture.broken_json_loads
                schedule_address init ValueError).
  { split; [reflexivity | ]. right. exists "[schedule]". repeat split. discriminate. }
  split; [exact H | ].
  destruct (proj2 (proj2
              (@unexpected_fetch_error_propagates Fixture.GUIDE_ITEMS_PER_CHANNEL
                 Fixture.urlopen_read Fixture.datetime_now Fixture.json
                 Fixture.broken_json_loads Fixture.from_bytes_media_Root
                 Fixture.from_bytes_mediaInfo_Element Fixture.quote Fixture.strftime
                 Fixture.parser_parse_format Fixture.getScheduleUrl
                 schedule_address init ValueError H))
              Fixture.ch1 [Fixture.ch2] ltac:(discriminate) eq_refl)
    as (Hraise & Hreq & _).
  split; [exact Hraise | exact Hreq].
Defined.

(** The third sample channel has a schedule of two titled shows and no
    address for metadata. *)
Lemma schedule_without_query_url_raises_witness :
  exists st',
    sample_get_media Fixture.ch3 init = (Raise TypeError, st') /\
    requests st' = [schedule_address] /\
    all_episodes st' = [] /\
    TV_OBJECT_programme st' = [].
Proof.
  apply (@schedule_without_query_url_raises Fixture.GUIDE_ITEMS_PER_CHANNEL
           Fixture.urlopen_read Fixture.datetime_now Fixture.json Fixture.json_loads
           Fixture.from_bytes_media_Root Fixture.from_bytes_mediaInfo_Element
           Fixture.quote Fixture.strftime Fixture.parser_parse_format
           Fixture.getScheduleUrl Fixture.ch3 init Fixture.schedule).
  - discriminate.
  - reflexivity.
  - exists "[schedule]", "[schedule]". repeat split. discriminate.
  - constructor; [ eexists; reflexivity | ].
    constructor; [ eexists; reflexivity | constructor ].
  - constructor. discriminate.
Defined.

(** The cache record of the first show has an episode without a season. *)
Lemma episode_without_number_aborts_assembly_witness :
  exists st',
    for_each [sample_keyed_show; sample_keyed_show_b] sample_adapt_media_object
      (with_all_episodes init [Fixture.info_no_season]) = (Raise TypeError, st') /\
    TV_OBJECT_programme st' = [].
Proof.
  apply (@episode_without_number_aborts_assembly Fixture.strftime
           Fixture.parser_parse_format Fixture.get_rating_object
           sample_keyed_show [sample_keyed_show_b]
           (with_all_episodes init [Fixture.info_no_season])
           Fixture.info_no_season
           {| mediaInfo.Episode.season := None;
              mediaInfo.Episode.epNum := Some 3%Z;
              mediaInfo.Episode.name := Some "Pilot";
              mediaInfo.Episode.summary := None |}).
  - reflexivity.
  - discriminate.
  - discriminate.
  - discriminate.
  - eexists. reflexivity.
  - eexists. reflexivity.
  - reflexivity.
  - left. reflexivity.
Defined.

(** The sample catalog has two channels, and its file exists. *)
Lemma channels_follow_catalog_witness :
  map xmltv.id (TV_OBJECT_channel sample_final_state) = ["ch1"; "ch2"] /\
  TV_OBJECT_channel sample_final_state = map Channel_of Fixture.CHANNELS.
Proof.
  assert (H : TV_OBJECT_channel sample_final_state = map Channel_of Fixture.CHANNELS).
  { exact (@channels_follow_catalog Fixture.GUIDE_ITEMS_PER_CHANNEL
             Fixture.urlopen_read Fixture.datetime_now
             Fixture.channels_data_file_exists Fixture.json Fixture.json_loads
             Fixture.from_bytes_media_Root Fixture.from_bytes_mediaInfo_Element
             Fixture.quote Fixture.strftime Fixture.parser_parse_format
             Fixture.get_rating_object Fixture.getScheduleUrl
             Fixture.CHANNELS None init eq_refl). }
  split; [ | exact H ]. rewrite H. reflexivity.
Defined.


(** Half an hour after the reading of the sample clock. *)
Lemma mock_guide_covers_next_day_witness :
  exists block,
    In (mock_block Fixture.strftime Fixture.ch2 block)
       (TV_OBJECT_programme (snd (sample_get_media Fixture.ch2 init))) /\
    (block <= 63839711096789012 < block + timedelta_hours 1)%Z /\
    (block mod timedelta_hours 1 = 0)%Z.
Proof.
  apply (@mock_guide_covers_next_day Fixture.GUIDE_ITEMS_PER_CHANNEL
           Fixture.urlopen_read Fixture.datetime_now Fixture.json Fixture.json_loads
           Fixture.from_bytes_media_Root Fixture.from_bytes_mediaInfo_Element
           Fixture.quote Fixture.strftime Fixture.parser_parse_format
           Fixture.getScheduleUrl Fixture.ch2 init 63839711096789012%Z).
  - reflexivity.
  - split; vm_compute; discriminate.
Defined.

(** The sample command line asks for the cache with the word False. *)
Lemma ep_cache_option_is_truthiness_witness :
  exists s,
    sample_module_main sample_argv = Ok s /\
    self_USE_EPISODE_CACHE s = true.
Proof.
  eexists. split; [reflexivity | ].
  apply (proj2 (@ep_cache_option_is_truthiness Fixture.resolve Fixture.module_dir
                  Fixture.mkdir Fixture.int_of_str sample_argv _ eq_refl)).
  reflexivity.
Defined.

(** The sample command line gives the level in small letters. *)
Lemma log_level_is_always_valid_witness :
  exists s,
    sample_module_main sample_argv = Ok s /\
    self_LOG_LEVEL s = "ERROR".
Proof.
  eexists. split; [reflexivity | ].
  apply (proj1 (proj2 (@log_level_is_always_valid Fixture.resolve Fixture.module_dir
                         Fixture.mkdir Fixture.int_of_str sample_argv _ eq_refl))
           "debug" eq_refl).
  intros Hin. simpl in Hin.
  repeat (destruct Hin as [Hin | Hin]; [discriminate Hin | ]). exact Hin.
Defined.

(** A title outside the denylist. *)
Lemma kept_text_round_trips_witness :
  CustomStringConverter.deserialize
    (PyStr (CustomStringConverter.serialize (fun _ => "bytes") (PyStr "Show A"))) =
  Some "Show A".
Proof.
  exact (proj1 (proj2 (proj2 (proj2
           (@kept_text_round_trips (fun _ => "bytes") (PyStr "Show A") "Show A"
              eq_refl))))).
Defined.

(** The metadata request for the second show fails. *)
Lemma failed_metadata_still_gives_programme_witness :
  exists st1 p,
    sample_get_media_info show_b_key init = (Ok tt, st1) /\
    sample_adapt_media_object sample_keyed_show_b st1 =
      (Ok tt, with_TV_OBJECT_programme st1 (TV_OBJECT_programme st1 ++ [p])) /\
    xmltv.title p =
      [ {| xmltv.content := [Some "Show B"]; xmltv.lang := None |} ] /\
    xmltv.category p = None.
Proof.
  destruct (@failed_metadata_still_gives_programme Fixture.urlopen_read Fixture.json
              Fixture.json_loads Fixture.from_bytes_mediaInfo_Element
              Fixture.strftime Fixture.parser_parse_format Fixture.get_rating_object
              show_b_key init sample_keyed_show_b
              eq_refl (or_introl eq_refl) eq_refl)
    as (st1 & p & Hrun & Hadapt & _ & _ & _ & Htitle & Hcategory & _).
  exists st1, p. repeat split; assumption.
Defined.

(** *** The assembly and the order of the guide on the sample world *)

Abbreviation sample_gathered :=
  (gathered Fixture.GUIDE_ITEMS_PER_CHANNEL Fixture.urlopen_read
     Fixture.datetime_now Fixture.json_loads Fixture.from_bytes_media_Root
     Fixture.quote Fixture.strftime Fixture.parser_parse_format
     Fixture.getScheduleUrl).

Abbreviation sample_emitted :=
  (emitted Fixture.strftime Fixture.parser_parse_format Fixture.get_rating_object).

Abbreviation sample_built :=
  (built Fixture.strftime Fixture.parser_parse_format Fixture.get_rating_object).

(** The run of [main] on the sample catalog returns: the 25 placeholder
    programmes of the second channel, then the two shows of the first. *)
Lemma programmes_placeholders_then_schedules_witness :
  exists placeholders entries,
    sample_gathered 0 0 Fixture.CHANNELS placeholders entries /\
    MEDIA_GUIDE_OBJECT (snd (sample_main Fixture.CHANNELS None init)) = entries /\
    TV_OBJECT_programme (snd (sample_main Fixture.CHANNELS None init)) =
      placeholders ++
      flat_map (sample_emitted (all_episodes (snd (sample_main Fixture.CHANNELS None init))))
               entries /\
    Forall (fun m => forall e,
              sample_built (all_episodes (snd (sample_main Fixture.CHANNELS None init))) m =
                Raise e ->
              e = AttributeError)
           entries.
Proof.
  apply (@programmes_placeholders_then_schedules Fixture.GUIDE_ITEMS_PER_CHANNEL
           Fixture.urlopen_read Fixture.datetime_now
           Fixture.channels_data_file_exists Fixture.json Fixture.json_loads
           Fixture.from_bytes_media_Root Fixture.from_bytes_mediaInfo_Element
           Fixture.quote Fixture.strftime Fixture.parser_parse_format
           Fixture.get_rating_object Fixture.getScheduleUrl
           Fixture.CHANNELS None init
           (snd (sample_main Fixture.CHANNELS None init))).
  - reflexivity.
  - vm_compute. reflexivity.
Defined.

(** Two sample queues.  In the first, the cache record of the first show
    has no genre record: its programme is dropped and the loop goes on with
    the next entry.  In the second, the record has an episode without a
    season: the loop ends there, and the second show, whose programme can
    be built, gets none. *)
Lemma assembly_catches_only_AttributeError_witness :
  (exists st',
     sample_adapt_media_object sample_keyed_show sample_cached_state = (Ok tt, st') /\
     TV_OBJECT_programme st' = [] /\
     for_each [sample_keyed_show; Fixture.untitled] sample_adapt_media_object
              sample_cached_state =
     for_each [Fixture.untitled] sample_adapt_media_object st') /\
  (exists st',
     for_each [sample_keyed_show; sample_keyed_show_b] sample_adapt_media_object
       (with_all_episodes init [Fixture.info_no_season]) = (Raise TypeError, st') /\
     TV_OBJECT_programme st' = []) /\
  (exists p,
     sample_built [Fixture.info_no_season] sample_keyed_show_b = Ok p).
Proof.
  split; [ | split ].
  - pose proof (@assembly_catches_only_AttributeError Fixture.strftime
                  Fixture.parser_parse_format Fixture.get_rating_object
                  sample_keyed_show [Fixture.untitled] sample_cached_state) as T.
    cbv zeta in T. destruct T as (_ & Hcaught & _ & Hmissing & _).
    destruct (Hcaught (Hmissing Fixture.info_no_genres eq_refl (or_introl eq_refl)))
      as (st' & Hrun & Htv & _ & Hloop).
    exists st'. split; [exact Hrun | ]. split; [exact Htv | exact Hloop].
  - pose proof (@assembly_catches_only_AttributeError Fixture.strftime
                  Fixture.parser_parse_format Fixture.get_rating_object
                  sample_keyed_show [sample_keyed_show_b]
                  (with_all_episodes init [Fixture.info_no_season])) as T.
    cbv zeta in T. destruct T as (_ & _ & Habort & _ & Htype & _).
    apply (Habort TypeError); [ | discriminate ].
    apply (Htype Fixture.info_no_season
             {| mediaInfo.Episode.season := None;
                mediaInfo.Episode.epNum := Some 3%Z;
                mediaInfo.Episode.name := Some "Pilot";
                mediaInfo.Episode.summary := None |}).
    + reflexivity.
    + discriminate.
    + discriminate.
    + discriminate.
    + eexists. reflexivity.
    + eexists. reflexivity.
    + reflexivity.
    + left. reflexivity.
  - eexists. vm_compute. reflexivity.
Defined.

(** A second run of the sample catalog on the object the first run left:
    the two shows queued by the first run are assembled again, before the
    two of the second run. *)
Lemma main_keeps_the_queue_witness :
  length (MEDIA_GUIDE_OBJECT sample_final_state) = 2 /\
  exists placeholders entries,
    sample_gathered (length (requests sample_final_state))
                    (clock_reads sample_final_state)
                    Fixture.CHANNELS placeholders entries /\
    MEDIA_GUIDE_OBJECT (snd (sample_main Fixture.CHANNELS None sample_final_state)) =
      MEDIA_GUIDE_OBJECT sample_final_state ++ entries /\
    TV_OBJECT_programme (snd (sample_main Fixture.CHANNELS None sample_final_state)) =
      placeholders ++
      flat_map (sample_emitted
                  (all_episodes (snd (sample_main Fixture.CHANNELS None sample_final_state))))
               (MEDIA_GUIDE_OBJECT sample_final_state) ++
      flat_map (sample_emitted
                  (all_episodes (snd (sample_main Fixture.CHANNELS None sample_final_state))))
               entries.
Proof.
  split; [reflexivity | ].
  apply (@main_keeps_the_queue Fixture.GUIDE_ITEMS_PER_CHANNEL
           Fixture.urlopen_read Fixture.datetime_now
           Fixture.channels_data_file_exists Fixture.json Fixture.json_loads
           Fixture.from_bytes_media_Root Fixture.from_bytes_mediaInfo_Element
           Fixture.quote Fixture.strftime Fixture.parser_parse_format
           Fixture.get_rating_object Fixture.getScheduleUrl
           Fixture.CHANNELS None sample_final_state
           (snd (sample_main Fixture.CHANNELS None sample_final_state))).
  vm_compute. reflexivity.
Defined.
